(** * Lightning-rod (Go edition): board identity, control-plane session and
      the two resource managers, embedded and checked against the design notes

    The Go packages [config], [board], [wamp], [service], [webservice],
    [device] and [lightningrod] are embedded as Rocq modules of the same
    names.  Every method is a function that takes the receiver and the
    outside world and returns the updated receiver and world together with
    the Go return value.

    - The outside world ([World]) is the file system (a finite map from path
      to content) and the trace of observable events (log lines, sleeps,
      executed commands, killed processes) in the order they happen.
    - What the environment answers to a call that can fail (starting a
      process, writing or removing a file, [nginx -t], connecting to the
      router) is an argument of the operation: one [Env] record per
      package.
    - The board is one object that the session manager and the resource
      managers all point to: the functions that read or write it take it
      as an argument and return it, so that a manager registering its
      capabilities sees the session identifier the last connect stored.
    - A Go [error] is its message ([None] is [nil]); a run-time panic (nil
      pointer dereference) is the [Panics] outcome.
    - The mutexes are not modelled: every method below holds its manager's
      lock for its whole body, so the functions describe the serialized
      behaviour.  Transport security of the connection, the local REST
      server and the handlers of the device manager are left out.
    - Go's [int] is taken to be 64 bits wide. *)

From Stdlib Require Import ZArith Ascii String List DecimalString.
From Stdlib Require Import Floats.SpecFloat.
From stdpp Require Import gmap strings list fin_maps.

#[local] Set Warnings "-register-all".
Local Open Scope string_scope.
Local Open Scope Z_scope.

(** ** Go runtime and standard library pieces the code relies on *)

(** A Go [error], by its message. *)
Definition error : Type := string.

(** The result of a call that may panic. *)
Inductive outcome (A : Type) : Type :=
| Returns (a : A)
| Panics (msg : string).
Arguments Returns {A} a.
Arguments Panics {A} msg.

Definition nil_dereference : string :=
  "runtime error: invalid memory address or nil pointer dereference".

(** [fmt.Sprintf("%d", z)]. *)
Definition fmt_d (z : Z) : string := NilZero.string_of_int (Z.to_int z).

(** Dynamic values ([any]) as they arrive in invocation arguments and as
    they are held in the free-form maps of the settings document. *)
Inductive any : Type :=
| ANil
| ABool (b : bool)
| AInt (i : Z)
| AFloat (f : spec_float)
| AString (s : string)
| AList (l : list any)
| AMap (kv : list (string * any)).

(** [v, ok := a.(string)]: the zero value and [false] when the dynamic type
    differs. *)
Definition assert_string (a : any) : string * bool :=
  match a with
  | AString s => (s, true)
  | _ => ("", false)
  end.

(** [v, ok := a.(float64)]. *)
Definition assert_float64 (a : any) : spec_float * bool :=
  match a with
  | AFloat f => (f, true)
  | _ => (S754_zero false, false)
  end.

Definition min_int64 : Z := - 2 ^ 63.

(** [int(f)] for a [float64]: the fraction is discarded.  For a value that
    does not fit (also NaN and the infinities) Go leaves the result to the
    implementation; the amd64 answer, the smallest [int64], is taken. *)
Definition float64_to_int (f : spec_float) : Z :=
  match f with
  | S754_zero _ => 0
  | S754_finite s m e =>
      let mag := if 0 <=? e then Z.shiftl (Z.pos m) e
                 else Z.shiftr (Z.pos m) (- e) in
      let v := if s then - mag else mag in
      if (min_int64 <=? v) && (v <? 2 ^ 63) then v else min_int64
  | _ => min_int64
  end.

(** [json.Marshal] refuses NaN and the infinities; everything else an [any]
    can hold here is encodable. *)
Fixpoint json_encodable (a : any) : bool :=
  match a with
  | AFloat (S754_infinity _) | AFloat S754_nan => false
  | AList l => forallb json_encodable l
  | AMap kv => forallb (fun p => match p with (_, v) => json_encodable v end) kv
  | _ => true
  end.

(** The [float64] nearest to an integer (ties to even), which is what a
    JSON number written from an integer decodes to in a free-form map. *)
Definition float64_of_int (i : Z) : spec_float :=
  binary_normalize 53 1024 i 0 false.

(** What a value of a free-form map is after it was encoded and decoded:
    every number is a [float64]; strings (valid UTF-8 text), booleans and
    nil are as before, lists and maps are decoded element by element. *)
Fixpoint json_decoded (a : any) : any :=
  match a with
  | AInt i => AFloat (float64_of_int i)
  | AList l => AList (map json_decoded l)
  | AMap kv => AMap (map (fun p => (p.1, json_decoded p.2)) kv)
  | _ => a
  end.

Definition json_UnsupportedValueError : string := "json: unsupported value".
Definition json_SyntaxError : string := "invalid character looking for beginning of value".

(** *** path/filepath *)

Fixpoint split_slash (s : string) : list string :=
  match s with
  | EmptyString => [EmptyString]
  | String c rest =>
      if Ascii.eqb c "/"%char then EmptyString :: split_slash rest
      else match split_slash rest with
           | [] => [String c EmptyString]
           | x :: xs => String c x :: xs
           end
  end.

(** The element pass of [filepath.Clean]: [out] is the cleaned prefix, last
    element first. *)
Fixpoint clean_elems (rooted : bool) (out : list string) (elems : list string)
  : list string :=
  match elems with
  | [] => rev out
  | e :: rest =>
      if String.eqb e "" || String.eqb e "." then clean_elems rooted out rest
      else if String.eqb e ".." then
        match out with
        | last :: out' =>
            if String.eqb last ".." then clean_elems rooted (e :: out) rest
            else clean_elems rooted out' rest
        | [] =>
            if rooted then clean_elems rooted [] rest
            else clean_elems rooted [e] rest
        end
      else clean_elems rooted (e :: out) rest
  end.

Definition filepath_Clean (path : string) : string :=
  let rooted := match path with
                | String c _ => Ascii.eqb c "/"%char
                | EmptyString => false
                end in
  let body := String.concat "/" (clean_elems rooted [] (split_slash path)) in
  let r := (if rooted then "/" else "") +:+ body in
  if String.eqb r "" then "." else r.

(** [filepath.Join]: empty elements are ignored, the rest is joined by the
    separator and cleaned. *)
Definition filepath_Join (elems : list string) : string :=
  match filter (fun e => e <> "") elems with
  | [] => ""
  | es => filepath_Clean (String.concat "/" es)
  end.

(** *** Observable events *)

Inductive level : Type := DebugLevel | InfoLevel | WarnLevel | ErrorLevel.

Inductive event : Type :=
| Log (l : level) (msg : string)
| Sleep (seconds : Z)
| Exec (argv : list string)
| Kill (pid : Z).

(** ** Package config: the data model of the configuration and of the
       persisted board settings *)
Module config.

Definition DefaultSettingsFile : string := "/etc/iotronic/settings.json".

Record LightningRodConfig := {
  Home : string;
  LogLevel : string;
  LogFile : string;
  SkipCertVerify : bool }.

Record AutobahnConfig := {
  ConnectionTimer : Z;
  AliveTimer : Z;
  RPCAliveTimer : Z;
  ConnectionFailureTimer : Z }.

Record ServicesConfig := { WstunBin : string }.

Record WebServicesConfig := { Proxy : string }.

Record Config := {
  LightningRod : LightningRodConfig;
  Autobahn : AutobahnConfig;
  Services : ServicesConfig;
  WebServices : WebServicesConfig }.

Record WampAgent := { URL : string; Realm : string }.

Record WampConfiguration := {
  MainAgent : option WampAgent;
  RegistrationAgent : option WampAgent }.

Record BoardConfig := {
  UUID : string;
  Code : string;
  Name : string;
  Status : string;
  Type_ : string;
  Mobile : bool;
  Agent : string;
  CreatedAt : string;
  UpdatedAt : string;
  Location : list (string * any);
  Extra : list (string * any) }.

Record IotronicSettings := {
  Board : BoardConfig;
  WAMP : WampConfiguration;
  IotronicExtra : list (string * any) }.

Record BoardSettings := { Iotronic : IotronicSettings }.

Definition zero_BoardSettings : BoardSettings :=
  {| Iotronic :=
       {| Board := {| UUID := ""; Code := ""; Name := ""; Status := "";
                      Type_ := ""; Mobile := false; Agent := "";
                      CreatedAt := ""; UpdatedAt := "";
                      Location := []; Extra := [] |};
          WAMP := {| MainAgent := None; RegistrationAgent := None |};
          IotronicExtra := [] |} |}.

End config.

(** ** Package service: the persisted types

    [ServiceInfo] and [ServicesConfig] of package service are declared
    ahead of the file system, which stores the services document. *)

Record ServiceInfo := {
  Name : string;
  LocalPort : Z;
  PublicURL : string;
  PID : Z;
  Status : string }.

(** services.json *)
Record ServicesConfig := { Services : gmap string ServiceInfo }.

(** ** The outside world *)

(** What a file holds.  The two JSON documents are kept decoded: the value
    is the one [json.Unmarshal] reads from the file.  [Bytes] is any other
    text (a proxy configuration, a document cut short). *)
Inductive data : Type :=
| Bytes (s : string)
| SettingsJSON (s : config.BoardSettings)
| ServicesJSON (c : ServicesConfig).

Record World := {
  files : gmap string data;
  trace : list event }.

Definition emit (e : event) (w : World) : World :=
  {| files := files w; trace := trace w ++ [e] |}.

Definition logf (l : level) (msg : string) (w : World) : World :=
  emit (Log l msg) w.

(** *** os *)

Inductive PathError : Type :=
| ErrNotExist (op path : string)
| ErrOther (op path reason : string).

Definition PathError_Error (e : PathError) : string :=
  match e with
  | ErrNotExist op path => op +:+ " " +:+ path +:+ ": no such file or directory"
  | ErrOther op path reason => op +:+ " " +:+ path +:+ ": " +:+ reason
  end.

Definition os_IsNotExist (e : PathError) : bool :=
  match e with
  | ErrNotExist _ _ => true
  | ErrOther _ _ _ => false
  end.

Definition os_ReadFile (path : string) (w : World) : PathError + data :=
  match files w !! path with
  | Some d => inr d
  | None => inl (ErrNotExist "open" path)
  end.

(** What can go wrong in [os.WriteFile], which opens the file with
    [O_CREATE] and [O_TRUNC], writes the content and closes the file.
    When the open fails nothing is touched.  When the write fails the file
    exists and holds [written], the part of the content that reached it (a
    document cut short is no JSON document any more); when only the close
    fails the file holds the whole content. *)
Inductive WriteFault : Type :=
| OpenFails (reason : string)
| WriteFails (reason written : string)
| CloseFails (reason : string).

Definition WriteFault_error (path : string) (f : WriteFault) : PathError :=
  match f with
  | OpenFails reason => ErrOther "open" path reason
  | WriteFails reason _ => ErrOther "write" path reason
  | CloseFails reason => ErrOther "close" path reason
  end.

Definition store (path : string) (d : data) (w : World) : World :=
  {| files := <[path := d]> (files w); trace := trace w |}.

(** [os.WriteFile]: [fault] is what goes wrong, if anything does. *)
Definition os_WriteFile (path : string) (d : data) (fault : option WriteFault)
    (w : World) : option PathError * World :=
  match fault with
  | None => (None, store path d w)
  | Some f =>
      (Some (WriteFault_error path f),
       match f with
       | OpenFails _ => w
       | WriteFails _ written => store path (Bytes written) w
       | CloseFails _ => store path d w
       end)
  end.

(** [os.Remove]: [fault] is the reason the operating system refuses the
    removal, if it does; otherwise the call fails on a path that does not
    exist and removes the file of one that does. *)
Definition os_Remove (path : string) (fault : option string) (w : World)
  : option PathError * World :=
  match fault with
  | Some reason => (Some (ErrOther "remove" path reason), w)
  | None =>
      match files w !! path with
      | Some _ => (None, {| files := delete path (files w); trace := trace w |})
      | None => (Some (ErrNotExist "remove" path), w)
      end
  end.

(** ** Package config: reading and writing settings.json *)

(** What [json.Unmarshal] reads back from the encoding of the settings: the
    fields of the structs as they are, and the values of the free-form maps
    as [json_decoded] gives them. *)
Definition json_decoded_map (kv : list (string * any)) : list (string * any) :=
  map (fun p => (p.1, json_decoded p.2)) kv.

Definition json_decoded_settings (s : config.BoardSettings)
  : config.BoardSettings :=
  let i := config.Iotronic s in
  let bc := config.Board i in
  {| config.Iotronic :=
       {| config.Board :=
            {| config.UUID := config.UUID bc; config.Code := config.Code bc;
               config.Name := config.Name bc;
               config.Status := config.Status bc;
               config.Type_ := config.Type_ bc;
               config.Mobile := config.Mobile bc;
               config.Agent := config.Agent bc;
               config.CreatedAt := config.CreatedAt bc;
               config.UpdatedAt := config.UpdatedAt bc;
               config.Location := json_decoded_map (config.Location bc);
               config.Extra := json_decoded_map (config.Extra bc) |};
          config.WAMP := config.WAMP i;
          config.IotronicExtra := json_decoded_map (config.IotronicExtra i) |} |}.

(** [json.MarshalIndent] of the settings: fails on a value the free-form
    maps cannot encode.  The file will hold the document of the settings,
    which is kept as the value it decodes to. *)
Definition json_Marshal_settings (s : config.BoardSettings) : error + data :=
  let i := config.Iotronic s in
  if forallb (fun p => match p with (_, v) => json_encodable v end)
       (config.Location (config.Board i) ++ config.Extra (config.Board i)
        ++ config.IotronicExtra i)
  then inr (SettingsJSON (json_decoded_settings s))
  else inl json_UnsupportedValueError.

(** [json.Unmarshal] into a [BoardSettings]: a JSON object without the
    settings' keys decodes to the zero value; text that is not JSON is an
    error. *)
Definition json_Unmarshal_settings (d : data) : error + config.BoardSettings :=
  match d with
  | SettingsJSON s => inr s
  | ServicesJSON _ => inr config.zero_BoardSettings
  | Bytes _ => inl json_SyntaxError
  end.

Definition settingsPath (home : string) : string :=
  if String.eqb home "" then config.DefaultSettingsFile
  else filepath_Join [home; "settings.json"].

Definition LoadBoardSettings (home : string) (w : World)
  : config.BoardSettings + error :=
  match os_ReadFile (settingsPath home) w with
  | inl e => inr ("failed to read settings file: " +:+ PathError_Error e)
  | inr d =>
      match json_Unmarshal_settings d with
      | inl e => inr ("failed to parse settings file: " +:+ e)
      | inr settings => inl settings
      end
  end.

Definition SaveBoardSettings (home : string) (settings : config.BoardSettings)
    (fault : option WriteFault) (w : World) : option error * World :=
  match json_Marshal_settings settings with
  | inl e => (Some ("failed to marshal settings: " +:+ e), w)
  | inr d =>
      match os_WriteFile (settingsPath home) d fault w with
      | (Some e, w) =>
          (Some ("failed to write settings file: " +:+ PathError_Error e), w)
      | (None, w) => (None, w)
      end
  end.

(** ** Package board *)
Module board.

Record Board := {
  UUID : string;
  Code : string;
  Name : string;
  Status : string;
  Type_ : string;
  Mobile : bool;
  Agent : string;
  CreatedAt : string;
  UpdatedAt : string;
  Location : list (string * any);
  Extra : list (string * any);
  SessionID : string;
  WampConfig : option config.WampAgent;
  cfg : config.Config;
  settings : option config.BoardSettings }.

Definition set_Status (v : string) (b : Board) : Board :=
  {| UUID := UUID b; Code := Code b; Name := Name b; Status := v;
     Type_ := Type_ b; Mobile := Mobile b; Agent := Agent b;
     CreatedAt := CreatedAt b; UpdatedAt := UpdatedAt b;
     Location := Location b; Extra := Extra b; SessionID := SessionID b;
     WampConfig := WampConfig b; cfg := cfg b; settings := settings b |}.

Definition set_UpdatedAt (v : string) (b : Board) : Board :=
  {| UUID := UUID b; Code := Code b; Name := Name b; Status := Status b;
     Type_ := Type_ b; Mobile := Mobile b; Agent := Agent b;
     CreatedAt := CreatedAt b; UpdatedAt := v;
     Location := Location b; Extra := Extra b; SessionID := SessionID b;
     WampConfig := WampConfig b; cfg := cfg b; settings := settings b |}.

Definition set_SessionID (v : string) (b : Board) : Board :=
  {| UUID := UUID b; Code := Code b; Name := Name b; Status := Status b;
     Type_ := Type_ b; Mobile := Mobile b; Agent := Agent b;
     CreatedAt := CreatedAt b; UpdatedAt := UpdatedAt b;
     Location := Location b; Extra := Extra b; SessionID := v;
     WampConfig := WampConfig b; cfg := cfg b; settings := settings b |}.

Definition set_WampConfig (v : option config.WampAgent) (b : Board) : Board :=
  {| UUID := UUID b; Code := Code b; Name := Name b; Status := Status b;
     Type_ := Type_ b; Mobile := Mobile b; Agent := Agent b;
     CreatedAt := CreatedAt b; UpdatedAt := UpdatedAt b;
     Location := Location b; Extra := Extra b; SessionID := SessionID b;
     WampConfig := v; cfg := cfg b; settings := settings b |}.

Definition set_settings (v : option config.BoardSettings) (b : Board) : Board :=
  {| UUID := UUID b; Code := Code b; Name := Name b; Status := Status b;
     Type_ := Type_ b; Mobile := Mobile b; Agent := Agent b;
     CreatedAt := CreatedAt b; UpdatedAt := UpdatedAt b;
     Location := Location b; Extra := Extra b; SessionID := SessionID b;
     WampConfig := WampConfig b; cfg := cfg b; settings := v |}.

Definition home (b : Board) : string :=
  config.Home (config.LightningRod (cfg b)).

(** The three statuses under which the registration agent may be used. *)
Definition registration_status (status : string) : bool :=
  String.eqb status "" || String.eqb status "registered"
  || String.eqb status "first_boot".

Definition loadWampConfig (settings : config.BoardSettings) (b : Board)
    (w : World) : outcome (Board * World) :=
  let wamp := config.WAMP (config.Iotronic settings) in
  let selected :=
    match config.MainAgent wamp with
    | Some agent =>
        Some (set_WampConfig (Some agent) b,
              logf InfoLevel "WAMP Agent settings:" w)
    | None =>
        if registration_status (Status b)
        then Some (set_WampConfig (config.RegistrationAgent wamp) b,
                   logf InfoLevel "Registration Agent settings:" w)
        else None
    end in
  match selected with
  | None =>
      let w := logf ErrorLevel
        "WAMP Agent configuration is wrong... please check settings.json" w in
      Returns (set_Status "first_boot" b, w)
  | Some (b, w) =>
      let w := logf InfoLevel (" - agent: " +:+ Agent b) w in
      match WampConfig b with
      | None => Panics nil_dereference
      | Some agent =>
          let w := logf InfoLevel (" - url: " +:+ config.URL agent) w in
          let w := logf InfoLevel (" - realm: " +:+ config.Realm agent) w in
          Returns (b, w)
      end
  end.

Definition LoadSettings (b : Board) (w : World)
  : outcome (option error * Board * World) :=
  match LoadBoardSettings (home b) w with
  | inr err => Returns (Some err, b, w)
  | inl st =>
      let boardCfg := config.Board (config.Iotronic st) in
      let b :=
        {| UUID := config.UUID boardCfg; Code := config.Code boardCfg;
           Name := config.Name boardCfg; Status := config.Status boardCfg;
           Type_ := config.Type_ boardCfg; Mobile := config.Mobile boardCfg;
           Agent := config.Agent boardCfg;
           CreatedAt := config.CreatedAt boardCfg;
           UpdatedAt := config.UpdatedAt boardCfg;
           Location := config.Location boardCfg;
           Extra := config.Extra boardCfg;
           SessionID := SessionID b; WampConfig := WampConfig b;
           cfg := cfg b; settings := Some st |} in
      let w := logf InfoLevel "Board settings:" w in
      let w := logf InfoLevel (" - code: " +:+ Code b) w in
      let w := logf InfoLevel (" - uuid: " +:+ UUID b) w in
      match loadWampConfig st b w with
      | Panics msg => Panics msg
      | Returns (b, w) =>
          if String.eqb (Code b) "<REGISTRATION-TOKEN>"
          then Returns (None, set_Status "first_boot" b,
                        logf InfoLevel "FIRST BOOT procedure started" w)
          else Returns (None, b, w)
      end
  end.

(** [New]: a board with nothing but its configuration, then loaded. *)
Definition New (c : config.Config) (w : World)
  : outcome ((Board + error) * World) :=
  let b := {| UUID := ""; Code := ""; Name := ""; Status := ""; Type_ := "";
              Mobile := false; Agent := ""; CreatedAt := ""; UpdatedAt := "";
              Location := []; Extra := []; SessionID := "";
              WampConfig := None; cfg := c; settings := None |} in
  match LoadSettings b w with
  | Panics msg => Panics msg
  | Returns (Some err, _, w) =>
      Returns (inr ("failed to load board settings: " +:+ err), w)
  | Returns (None, b, w) => Returns (inl b, w)
  end.

Definition settings_with_status (status : string) (st : config.BoardSettings)
  : config.BoardSettings :=
  let i := config.Iotronic st in
  let bc := config.Board i in
  {| config.Iotronic :=
       {| config.Board :=
            {| config.UUID := config.UUID bc; config.Code := config.Code bc;
               config.Name := config.Name bc; config.Status := status;
               config.Type_ := config.Type_ bc;
               config.Mobile := config.Mobile bc;
               config.Agent := config.Agent bc;
               config.CreatedAt := config.CreatedAt bc;
               config.UpdatedAt := config.UpdatedAt bc;
               config.Location := config.Location bc;
               config.Extra := config.Extra bc |};
          config.WAMP := config.WAMP i;
          config.IotronicExtra := config.IotronicExtra i |} |}.

Definition settings_with_updated_at (timestamp : string)
    (st : config.BoardSettings) : config.BoardSettings :=
  let i := config.Iotronic st in
  let bc := config.Board i in
  {| config.Iotronic :=
       {| config.Board :=
            {| config.UUID := config.UUID bc; config.Code := config.Code bc;
               config.Name := config.Name bc;
               config.Status := config.Status bc;
               config.Type_ := config.Type_ bc;
               config.Mobile := config.Mobile bc;
               config.Agent := config.Agent bc;
               config.CreatedAt := config.CreatedAt bc;
               config.UpdatedAt := timestamp;
               config.Location := config.Location bc;
               config.Extra := config.Extra bc |};
          config.WAMP := config.WAMP i;
          config.IotronicExtra := config.IotronicExtra i |} |}.

(** [UpdateStatus]: [fault] is the write fault of the settings file. *)
Definition UpdateStatus (status : string) (fault : option WriteFault)
    (b : Board) (w : World) : outcome (option error * Board * World) :=
  let b := set_Status status b in
  match settings b with
  | None => Panics nil_dereference
  | Some st =>
      let st := settings_with_status status st in
      let b := set_settings (Some st) b in
      let '(err, w) := SaveBoardSettings (home b) st fault w in
      Returns (err, b, w)
  end.

(** [SetUpdateTime]: [timestamp] is the formatted [time.Now()]. *)
Definition SetUpdateTime (timestamp : string) (fault : option WriteFault)
    (b : Board) (w : World) : outcome (option error * Board * World) :=
  let b := set_UpdatedAt timestamp b in
  match settings b with
  | None => Panics nil_dereference
  | Some st =>
      let st := settings_with_updated_at timestamp st in
      let b := set_settings (Some st) b in
      let '(err, w) := SaveBoardSettings (home b) st fault w in
      Returns (err, b, w)
  end.


Definition GetWampURL (b : Board) : string :=
  match WampConfig b with
  | Some agent => config.URL agent
  | None => ""
  end.

Definition GetWampRealm (b : Board) : string :=
  match WampConfig b with
  | Some agent => config.Realm agent
  | None => ""
  end.

Definition IsFirstBoot (b : Board) : bool :=
  String.eqb (Status b) "first_boot".

End board.

(** ** Package wamp: the control-plane session *)
Module wamp.

(** The session object of the router client library: its identifier and
    the procedures registered through it.  A new connection is a new
    object, with no registration. *)
Record NexusClient := {
  ID : Z;
  registered : list string }.

Record Client := {
  cfg : config.Config;
  client : option NexusClient;
  connected : bool;
  sessionID : Z }.

(** What the router answers: to a connection attempt (an error or the
    identifier of the new session), to closing the session, and to the
    registration of a procedure. *)
Record Env := {
  connect : error + Z;
  close_err : option error;
  register_err : string -> option error }.

Definition NewClient (c : config.Config) : Client :=
  {| cfg := c; client := None; connected := false; sessionID := 0 |}.

(** [Connect] also stores the session identifier in the shared board. *)
Definition Connect (env : Env) (c : Client) (b : board.Board) (w : World)
  : option error * Client * board.Board * World :=
  if connected c then (None, c, b, w)
  else
    let wampURL := board.GetWampURL b in
    let realm := board.GetWampRealm b in
    if String.eqb wampURL "" || String.eqb realm ""
    then (Some "WAMP configuration not available", c, b, w)
    else
      let w := logf InfoLevel ("Connecting to WAMP router: " +:+ wampURL
                               +:+ " (realm: " +:+ realm +:+ ")") w in
      match connect env with
      | inl err =>
          (Some ("failed to connect to WAMP router: " +:+ err), c, b, w)
      | inr id =>
          let c := {| cfg := cfg c;
                      client := Some {| ID := id; registered := [] |};
                      connected := true; sessionID := id |} in
          let b := board.set_SessionID (fmt_d id) b in
          let w := logf InfoLevel ("Connected to WAMP router (session ID: "
                                   +:+ fmt_d id +:+ ")") w in
          (None, c, b, w)
      end.

Definition Disconnect (env : Env) (c : Client) (w : World)
  : option error * Client * World :=
  if negb (connected c) then (None, c, w)
  else
    let w := match client c, close_err env with
             | Some _, Some err =>
                 logf WarnLevel ("Error closing WAMP client: " +:+ err) w
             | _, _ => w
             end in
    let c := {| cfg := cfg c; client := None; connected := false;
                sessionID := sessionID c |} in
    (None, c, logf InfoLevel "Disconnected from WAMP router" w).

Definition Register (procedure : string) (env : Env) (c : Client) (w : World)
  : option error * Client * World :=
  match connected c, client c with
  | true, Some cl =>
      match register_err env procedure with
      | Some err =>
          (Some ("failed to register procedure " +:+ procedure +:+ ": "
                 +:+ err), c, w)
      | None =>
          let cl := {| ID := ID cl;
                       registered := registered cl ++ [procedure] |} in
          let c := {| cfg := cfg c; client := Some cl;
                      connected := connected c; sessionID := sessionID c |} in
          (None, c, logf DebugLevel ("Registered RPC procedure: "
                                     +:+ procedure) w)
      end
  | _, _ => (Some "not connected to WAMP router", c, w)
  end.

Definition IsConnected (c : Client) : bool := connected c.

Definition GetSessionID (c : Client) : Z := sessionID c.

Definition Reconnect (env : Env) (c : Client) (b : board.Board) (w : World)
  : option error * Client * board.Board * World :=
  let w := logf InfoLevel "Attempting to reconnect to WAMP router..." w in
  let '(err, c, w) := Disconnect env c w in
  let w := match err with
           | Some e => logf WarnLevel
               ("Error during disconnect before reconnect: " +:+ e) w
           | None => w
           end in
  let w := emit (Sleep (config.ConnectionTimer (config.Autobahn (cfg c)))) w in
  match Connect env c b w with
  | (Some err, c, b, w) => (Some ("reconnection failed: " +:+ err), c, b, w)
  | (None, c, b, w) =>
      (None, c, b, logf InfoLevel "Successfully reconnected to WAMP router" w)
  end.

(** One firing of the ticker in [KeepAlive]. *)
Definition KeepAlive_tick (env : Env) (c : Client) (b : board.Board)
    (w : World) : Client * board.Board * World :=
  if negb (IsConnected c) then
    let w := logf WarnLevel "Connection lost, attempting to reconnect..." w in
    match Reconnect env c b w with
    | (Some err, c, b, w) =>
        (c, b, logf ErrorLevel ("Reconnection failed: " +:+ err) w)
    | (None, c, b, w) => (c, b, w)
    end
  else (c, b, w).

(** [KeepAlive] up to its cancellation: one environment per tick. *)
Fixpoint KeepAlive (ticks : list Env) (c : Client) (b : board.Board)
    (w : World) : Client * board.Board * World :=
  match ticks with
  | [] => (c, b, w)
  | env :: rest =>
      let '(c, b, w) := KeepAlive_tick env c b w in
      KeepAlive rest c b w
  end.

(** The procedures registered in the current session. *)
Definition procedures (c : Client) : list string :=
  match client c with
  | Some cl => registered cl
  | None => []
  end.

(** [Unregister]: [answer] is the refusal of the router, if any; the
    procedure leaves the session's registrations otherwise. *)
Definition Unregister (procedure : string) (answer : option error)
    (c : Client) (w : World) : option error * Client * World :=
  match connected c, client c with
  | true, Some cl =>
      match answer with
      | Some err =>
          (Some ("failed to unregister procedure " +:+ procedure +:+ ": "
                 +:+ err), c, w)
      | None =>
          let cl := {| ID := ID cl;
                       registered :=
                         filter (fun p => p <> procedure) (registered cl) |} in
          let c := {| cfg := cfg c; client := Some cl;
                      connected := connected c; sessionID := sessionID c |} in
          (None, c, logf DebugLevel ("Unregistered RPC procedure: "
                                     +:+ procedure) w)
      end
  | _, _ => (Some "not connected to WAMP router", c, w)
  end.

(** [Publish]: [answer] is the failure of the publication, if any. *)
Definition Publish (topic : string) (args : list any)
    (kwargs : list (string * any)) (answer : option error)
    (c : Client) (w : World) : option error * World :=
  match connected c, client c with
  | true, Some _ =>
      match answer with
      | Some err =>
          (Some ("failed to publish to topic " +:+ topic +:+ ": " +:+ err), w)
      | None => (None, logf DebugLevel ("Published to topic: " +:+ topic) w)
      end
  | _, _ => (Some "not connected to WAMP router", w)
  end.

(** What a remote procedure returns. *)
Record Result := {
  Arguments : list any;
  ArgumentsKw : list (string * any) }.

(** [Call]: [answer] is what comes back within the thirty seconds the call
    waits, an error (the expiry of that time among them) or the result. *)
Definition Call (procedure : string) (args : list any)
    (kwargs : list (string * any)) (answer : error + Result)
    (c : Client) : Result + error :=
  match connected c, client c with
  | true, Some _ =>
      match answer with
      | inl err =>
          inr ("failed to call procedure " +:+ procedure +:+ ": " +:+ err)
      | inr result => inl result
      end
  | _, _ => inr "not connected to WAMP router"
  end.

(** [Stop]: the cancellation of the client's context has no effect on the
    state kept here; the session is disconnected. *)
Definition Stop (env : Env) (c : Client) (w : World) : Client * World :=
  let '(_, c, w) := Disconnect env c w in (c, w).

End wamp.

(** The capability name [iotronic.<sessionID>.<boardUUID>.<Verb>]. *)
Definition procedure_name (b : board.Board) (verb : string) : string :=
  "iotronic." +:+ board.SessionID b +:+ "." +:+ board.UUID b +:+ "." +:+ verb.

(** The loop [for proc, handler := range procedures] of the three
    [registerRPCs]: the first refusal ends it.  Go visits the map in no
    fixed order; the order of the source text is taken. *)
Fixpoint register_each (procs : list string) (env : wamp.Env)
    (c : wamp.Client) (w : World) : option error * wamp.Client * World :=
  match procs with
  | [] => (None, c, w)
  | proc :: rest =>
      match wamp.Register proc env c w with
      | (Some err, c, w) =>
          (Some ("failed to register " +:+ proc +:+ ": " +:+ err), c, w)
      | (None, c, w) =>
          register_each rest env c (logf InfoLevel ("Registered RPC: " +:+ proc) w)
      end
  end.

(** The reply record of every handler. *)
Record InvokeResult := { Args : list any }.

Definition reply (result message : string) : InvokeResult :=
  {| Args := [AMap [("result", AString result); ("message", AString message)]] |}.

(** ** Package service: tunnels through wstun *)
Module service.

Record Manager := {
  cfg : config.Config;
  wstunIP : string;
  wstunPort : string;
  wstunURL : string;
  boardID : string;
  services : gmap string ServiceInfo }.

Definition set_services (s : gmap string ServiceInfo) (m : Manager) : Manager :=
  {| cfg := cfg m; wstunIP := wstunIP m; wstunPort := wstunPort m;
     wstunURL := wstunURL m; boardID := boardID m; services := s |}.

(** What the operating system answers: to starting the tunnel process (an
    error or the new process id), to looking a process up, to killing it,
    and to writing services.json. *)
Record Env := {
  start : error + Z;
  find_process_err : option error;
  kill_err : option error;
  write_fault : option WriteFault }.

(** The two fields of a parsed URL that [NewManager] reads. *)
Record URL := { Scheme : string; Host : string }.

(** [strings.Split(host, ":")[0]] *)
Fixpoint before_colon (s : string) : string :=
  match s with
  | EmptyString => EmptyString
  | String c rest =>
      if Ascii.eqb c ":"%char then EmptyString else String c (before_colon rest)
  end.

(** [NewManager]: [parsed] is what [url.Parse] makes of the board's WAMP
    URL. *)
Definition NewManager (c : config.Config) (b : board.Board)
    (parsed : error + URL) (w : World) : (Manager + error) * World :=
  match parsed with
  | inl err => (inr ("failed to parse WAMP URL: " +:+ err), w)
  | inr parsedURL =>
      let ip := before_colon (Host parsedURL) in
      let port := "8080" in
      let protocol := if String.eqb (Scheme parsedURL) "wss" then "wss" else "ws" in
      let url := protocol +:+ "://" +:+ ip +:+ ":" +:+ port in
      let m := {| cfg := c; wstunIP := ip; wstunPort := port; wstunURL := url;
                  boardID := board.UUID b; services := ∅ |} in
      let w := logf InfoLevel ("WSTUN bin path: "
                 +:+ config.WstunBin (config.Services c)) w in
      let w := logf InfoLevel ("WSTUN URL: " +:+ url) w in
      (inl m, w)
  end.

Definition configPath (m : Manager) : string :=
  filepath_Join [config.Home (config.LightningRod (cfg m)); "services.json"].

(** [saveServicesConfig]: the whole registry is encoded and written;
    encoding a map of [ServiceInfo] cannot fail. *)
Definition saveServicesConfig (fault : option WriteFault) (m : Manager)
    (w : World)
  : option error * World :=
  let d := ServicesJSON {| Services := services m |} in
  match os_WriteFile (configPath m) d fault w with
  | (Some e, w) => (Some (PathError_Error e), w)
  | (None, w) => (None, w)
  end.

(** [json.Unmarshal] into a [ServicesConfig]; a JSON object without the
    key leaves the map nil, which the caller replaces by an empty map. *)
Definition json_Unmarshal_services (d : data) : error + ServicesConfig :=
  match d with
  | ServicesJSON c => inr c
  | SettingsJSON _ => inr {| Services := ∅ |}
  | Bytes _ => inl json_SyntaxError
  end.

Definition loadServicesConfig (fault : option WriteFault) (m : Manager)
    (w : World)
  : option error * Manager * World :=
  match os_ReadFile (configPath m) w with
  | inl e =>
      if os_IsNotExist e
      then let '(err, w) := saveServicesConfig fault m w in (err, m, w)
      else (Some (PathError_Error e), m, w)
  | inr d =>
      match json_Unmarshal_services d with
      | inl e => (Some e, m, w)
      | inr c => (None, set_services (Services c) m, w)
      end
  end.

Definition verbs : list string :=
  ["ExposeService"; "UnexposeService"; "ServicesList"].

Definition registerRPCs (env : wamp.Env) (b : board.Board) (c : wamp.Client)
    (w : World) : option error * wamp.Client * World :=
  register_each (map (procedure_name b) verbs) env c w.

(** [Start]: a registry that cannot be loaded is only a warning. *)
Definition Start (fault : option WriteFault) (env : wamp.Env) (m : Manager)
    (b : board.Board) (c : wamp.Client) (w : World)
  : option error * Manager * wamp.Client * World :=
  let w := logf InfoLevel "Starting Service Manager..." w in
  let '(lerr, m, w) := loadServicesConfig fault m w in
  let w := match lerr with
           | Some e => logf WarnLevel ("Failed to load services config: " +:+ e) w
           | None => w
           end in
  match registerRPCs env b c w with
  | (Some err, c, w) => (Some ("failed to register RPCs: " +:+ err), m, c, w)
  | (None, c, w) =>
      (None, m, c, logf InfoLevel "Service Manager started successfully" w)
  end.

Definition exposeService (name : string) (localPort : Z) (env : Env)
    (m : Manager) (w : World) : option error * Manager * World :=
  match services m !! name with
  | Some _ => (Some ("service " +:+ name +:+ " already exposed"), m, w)
  | None =>
      let argv := [config.WstunBin (config.Services (cfg m)); "client";
                   "-s"; wstunURL m; "-t"; "127.0.0.1:" +:+ fmt_d localPort] in
      match start env with
      | inl err => (Some ("failed to start wstun: " +:+ err), m, w)
      | inr pid =>
          let w := emit (Exec argv) w in
          let publicURL := wstunURL m +:+ "/" +:+ name in
          let m := set_services
                     (<[name := {| Name := name; LocalPort := localPort;
                                   PublicURL := publicURL; PID := pid;
                                   Status := "running" |}]> (services m)) m in
          let '(err, w) := saveServicesConfig (write_fault env) m w in
          let w := match err with
                   | Some e => logf WarnLevel
                       ("Failed to save services config: " +:+ e) w
                   | None => w
                   end in
          let w := logf InfoLevel ("Service " +:+ name +:+ " exposed on port "
                     +:+ fmt_d localPort +:+ " (PID: " +:+ fmt_d pid +:+ ")") w in
          (None, m, w)
      end
  end.

(** [stopService] (the caller holds the lock). *)
Definition stopService (name : string) (env : Env) (m : Manager) (w : World)
  : option error * Manager * World :=
  match services m !! name with
  | None => (Some ("service " +:+ name +:+ " not found"), m, w)
  | Some svc =>
      let w :=
        if 0 <? PID svc then
          match find_process_err env with
          | None =>
              let w := emit (Kill (PID svc)) w in
              match kill_err env with
              | Some e => logf WarnLevel ("Failed to kill process "
                            +:+ fmt_d (PID svc) +:+ ": " +:+ e) w
              | None => w
              end
          | Some _ => w
          end
        else w in
      let m := set_services (delete name (services m)) m in
      let '(err, w) := saveServicesConfig (write_fault env) m w in
      let w := match err with
               | Some e => logf WarnLevel
                   ("Failed to save services config: " +:+ e) w
               | None => w
               end in
      (None, m, logf InfoLevel ("Service " +:+ name +:+ " unexposed") w)
  end.

Definition unexposeService (name : string) (env : Env) (m : Manager)
    (w : World) : option error * Manager * World :=
  stopService name env m w.

Definition handleExposeService (Arguments : list any) (env : Env)
    (m : Manager) (w : World) : InvokeResult * Manager * World :=
  let w := logf InfoLevel "RPC ExposeService called" w in
  match Arguments with
  | a0 :: a1 :: _ =>
      match assert_string a0 with
      | (_, false) => (reply "ERROR" "Invalid service_name type", m, w)
      | (serviceName, true) =>
          match assert_float64 a1 with
          | (_, false) => (reply "ERROR" "Invalid local_port type", m, w)
          | (localPort, true) =>
              match exposeService serviceName (float64_to_int localPort) env m w with
              | (Some err, m, w) =>
                  (reply "ERROR" ("Failed to expose service: " +:+ err), m, w)
              | (None, m, w) =>
                  (reply "SUCCESS" ("Service " +:+ serviceName
                     +:+ " exposed on port "
                     +:+ fmt_d (float64_to_int localPort)), m, w)
              end
          end
      end
  | _ => (reply "ERROR"
            "Missing arguments: service_name and local_port required", m, w)
  end.

Definition handleUnexposeService (Arguments : list any) (env : Env)
    (m : Manager) (w : World) : InvokeResult * Manager * World :=
  let w := logf InfoLevel "RPC UnexposeService called" w in
  match Arguments with
  | a0 :: _ =>
      match assert_string a0 with
      | (_, false) => (reply "ERROR" "Invalid service_name type", m, w)
      | (serviceName, true) =>
          match unexposeService serviceName env m w with
          | (Some err, m, w) =>
              (reply "ERROR" ("Failed to unexpose service: " +:+ err), m, w)
          | (None, m, w) =>
              (reply "SUCCESS" ("Service " +:+ serviceName +:+ " unexposed"), m, w)
          end
      end
  | [] => (reply "ERROR" "Missing argument: service_name required", m, w)
  end.

(** The loop of [Stop]: every name is stopped by [stopService] and a
    failure is only logged.  [env] gives what the operating system answers
    while the service of a name is stopped. *)
Fixpoint stop_each (names : list string) (env : string -> Env) (m : Manager)
    (w : World) : Manager * World :=
  match names with
  | [] => (m, w)
  | name :: rest =>
      match stopService name (env name) m w with
      | (Some err, m, w) =>
          stop_each rest env m
            (logf ErrorLevel ("Failed to stop service " +:+ name +:+ ": "
                              +:+ err) w)
      | (None, m, w) => stop_each rest env m w
      end
  end.

(** [Stop]: the names of the registry are visited once each (removing the
    entry being visited does not disturb the iteration); Go fixes no order,
    the order of [map_to_list] is taken. *)
Definition Stop (env : string -> Env) (m : Manager) (w : World)
  : option error * Manager * World :=
  let w := logf InfoLevel "Stopping Service Manager..." w in
  let '(m, w) := stop_each (map fst (map_to_list (services m))) env m w in
  (None, m, w).

Definition handleServicesList (m : Manager) (w : World)
  : InvokeResult * World :=
  let w := logf InfoLevel "RPC ServicesList called" w in
  let servicesList :=
    map (fun kv : string * ServiceInfo =>
           let svc := kv.2 in
           AMap [("name", AString (Name svc));
                 ("local_port", AInt (LocalPort svc));
                 ("public_url", AString (PublicURL svc));
                 ("status", AString (Status svc))])
        (map_to_list (services m)) in
  ({| Args := [AMap [("result", AString "SUCCESS");
                     ("message", AString "Services list retrieved");
                     ("services", AList servicesList)]] |}, w).

End service.

(** ** Package webservice: reverse-proxy routes through nginx *)
Module webservice.

Definition nginxConfDir : string := "/etc/nginx/conf.d".

Record WebServiceInfo := {
  Name : string;
  LocalPort : Z;
  PublicPort : Z;
  Domain : string;
  Status : string }.

Record Manager := {
  cfg : config.Config;
  proxyType : string;
  webservices : gmap string WebServiceInfo }.

Definition set_webservices (ws : gmap string WebServiceInfo) (m : Manager)
  : Manager :=
  {| cfg := cfg m; proxyType := proxyType m; webservices := ws |}.

(** What the operating system and nginx answer: the write fault of the
    configuration file, the reason its removal is refused, and the combined
    output of [nginx -t] and of [nginx -s reload] when they exit with an
    error. *)
Record Env := {
  write_fault : option WriteFault;
  remove_fault : option string;
  nginx_test : option string;
  nginx_reload : option string }.

Definition NewManager (c : config.Config) (w : World) : Manager * World :=
  let m := {| cfg := c; proxyType := config.Proxy (config.WebServices c);
              webservices := ∅ |} in
  (m, logf InfoLevel ("Proxy used: " +:+ proxyType m) w).

Definition verbs : list string :=
  ["EnableWebService"; "DisableWebService"; "WebServicesList"; "ProxyInfo"].

Definition registerRPCs (env : wamp.Env) (b : board.Board) (c : wamp.Client)
    (w : World) : option error * wamp.Client * World :=
  register_each (map (procedure_name b) verbs) env c w.

(** [Start]: [lookpath_err] is the failure of [exec.LookPath("nginx")]. *)
Definition Start (lookpath_err : option error) (env : wamp.Env)
    (b : board.Board) (c : wamp.Client) (w : World)
  : option error * wamp.Client * World :=
  let w := logf InfoLevel "Starting WebService Manager..." w in
  let w := match lookpath_err with
           | Some e => logf WarnLevel
               ("nginx not found, webservice management will be limited: " +:+ e) w
           | None => w
           end in
  match registerRPCs env b c w with
  | (Some err, c, w) => (Some ("failed to register RPCs: " +:+ err), c, w)
  | (None, c, w) =>
      (None, c, logf InfoLevel "WebService Manager started successfully" w)
  end.

Definition confPath (name : string) : string :=
  filepath_Join [nginxConfDir; "lr_" +:+ name +:+ ".conf"].

Definition newline : string := String (ascii_of_nat 10) EmptyString.

(** The fixed template, one element per line of the source text. *)
Definition nginxConf (publicPort localPort : Z) : string :=
  String.concat newline
    [ "";
      "server {";
      "    listen " +:+ fmt_d publicPort +:+ ";";
      "    server_name _;";
      "";
      "    location / {";
      "        proxy_pass http://127.0.0.1:" +:+ fmt_d localPort +:+ ";";
      "        proxy_set_header Host $host;";
      "        proxy_set_header X-Real-IP $remote_addr;";
      "        proxy_set_header X-Forwarded-For $proxy_add_x_forwarded_for;";
      "        proxy_set_header X-Forwarded-Proto $scheme;";
      "    }";
      "}";
      "" ].

(** [reloadNginx]: the dry run first, then the reload. *)
Definition reloadNginx (env : Env) (w : World) : option error * World :=
  let w := emit (Exec ["nginx"; "-t"]) w in
  match nginx_test env with
  | Some output => (Some ("nginx config test failed: " +:+ output), w)
  | None =>
      let w := emit (Exec ["nginx"; "-s"; "reload"]) w in
      match nginx_reload env with
      | Some output => (Some ("nginx reload failed: " +:+ output), w)
      | None => (None, w)
      end
  end.

Definition enableWebService (name : string) (localPort publicPort : Z)
    (env : Env) (m : Manager) (w : World) : option error * Manager * World :=
  match webservices m !! name with
  | Some _ => (Some ("webservice " +:+ name +:+ " already enabled"), m, w)
  | None =>
      match os_WriteFile (confPath name)
              (Bytes (nginxConf publicPort localPort)) (write_fault env) w with
      | (Some e, w) =>
          (Some ("failed to write nginx config: " +:+ PathError_Error e), m, w)
      | (None, w) =>
          match reloadNginx env w with
          | (Some err, w) =>
              let '(_, w) := os_Remove (confPath name) (remove_fault env) w in
              (Some ("failed to reload nginx: " +:+ err), m, w)
          | (None, w) =>
              let m := set_webservices
                (<[name := {| Name := name; LocalPort := localPort;
                              PublicPort := publicPort; Domain := "";
                              Status := "enabled" |}]> (webservices m)) m in
              let w := logf InfoLevel ("Webservice " +:+ name
                         +:+ " enabled (local:" +:+ fmt_d localPort
                         +:+ " -> public:" +:+ fmt_d publicPort +:+ ")") w in
              (None, m, w)
          end
      end
  end.

(** [removeWebService] (the caller holds the lock). *)
Definition removeWebService (name : string) (env : Env) (m : Manager)
    (w : World) : option error * Manager * World :=
  match webservices m !! name with
  | None => (Some ("webservice " +:+ name +:+ " not found"), m, w)
  | Some _ =>
      let '(rerr, w) := os_Remove (confPath name) (remove_fault env) w in
      let w := match rerr with
               | Some e =>
                   if negb (os_IsNotExist e)
                   then logf WarnLevel ("Failed to remove nginx config: "
                                        +:+ PathError_Error e) w
                   else w
               | None => w
               end in
      let '(lerr, w) := reloadNginx env w in
      let w := match lerr with
               | Some e => logf WarnLevel ("Failed to reload nginx: " +:+ e) w
               | None => w
               end in
      let m := set_webservices (delete name (webservices m)) m in
      (None, m, logf InfoLevel ("Webservice " +:+ name +:+ " disabled") w)
  end.

Definition disableWebService (name : string) (env : Env) (m : Manager)
    (w : World) : option error * Manager * World :=
  removeWebService name env m w.

Definition handleEnableWebService (Arguments : list any) (env : Env)
    (m : Manager) (w : World) : InvokeResult * Manager * World :=
  let w := logf InfoLevel "RPC EnableWebService called" w in
  match Arguments with
  | a0 :: a1 :: a2 :: _ =>
      let '(name, _) := assert_string a0 in
      let '(localPort, _) := assert_float64 a1 in
      let '(publicPort, _) := assert_float64 a2 in
      match enableWebService name (float64_to_int localPort)
              (float64_to_int publicPort) env m w with
      | (Some err, m, w) =>
          (reply "ERROR" ("Failed to enable webservice: " +:+ err), m, w)
      | (None, m, w) =>
          (reply "SUCCESS" ("Webservice " +:+ name +:+ " enabled"), m, w)
      end
  | _ => (reply "ERROR"
            "Missing arguments: name, local_port, and public_port required",
          m, w)
  end.

Definition handleDisableWebService (Arguments : list any) (env : Env)
    (m : Manager) (w : World) : InvokeResult * Manager * World :=
  let w := logf InfoLevel "RPC DisableWebService called" w in
  match Arguments with
  | a0 :: _ =>
      let '(name, _) := assert_string a0 in
      match disableWebService name env m w with
      | (Some err, m, w) =>
          (reply "ERROR" ("Failed to disable webservice: " +:+ err), m, w)
      | (None, m, w) =>
          (reply "SUCCESS" ("Webservice " +:+ name +:+ " disabled"), m, w)
      end
  | [] => (reply "ERROR" "Missing argument: name required", m, w)
  end.

(** The loop of [Stop], as in package service. *)
Fixpoint remove_each (names : list string) (env : string -> Env) (m : Manager)
    (w : World) : Manager * World :=
  match names with
  | [] => (m, w)
  | name :: rest =>
      match removeWebService name (env name) m w with
      | (Some err, m, w) =>
          remove_each rest env m
            (logf ErrorLevel ("Failed to remove webservice " +:+ name +:+ ": "
                              +:+ err) w)
      | (None, m, w) => remove_each rest env m w
      end
  end.

Definition Stop (env : string -> Env) (m : Manager) (w : World)
  : option error * Manager * World :=
  let w := logf InfoLevel "Stopping WebService Manager..." w in
  let '(m, w) := remove_each (map fst (map_to_list (webservices m))) env m w in
  (None, m, w).

Definition handleWebServicesList (m : Manager) (w : World)
  : InvokeResult * World :=
  let w := logf InfoLevel "RPC WebServicesList called" w in
  let list :=
    map (fun kv : string * WebServiceInfo =>
           let ws := kv.2 in
           AMap [("name", AString (Name ws));
                 ("local_port", AInt (LocalPort ws));
                 ("public_port", AInt (PublicPort ws));
                 ("status", AString (Status ws))])
        (map_to_list (webservices m)) in
  ({| Args := [AMap [("result", AString "SUCCESS");
                     ("message", AString "Webservices list retrieved");
                     ("webservices", AList list)]] |}, w).

(** [isNginxRunning]: [found] tells whether [pgrep nginx] exits with
    success. *)
Definition isNginxRunning (found : bool) (w : World) : bool * World :=
  (found, emit (Exec ["pgrep"; "nginx"]) w).

Definition handleProxyInfo (found : bool) (m : Manager) (w : World)
  : InvokeResult * World :=
  let w := logf InfoLevel "RPC ProxyInfo called" w in
  let '(running, w) := isNginxRunning found w in
  let status := if running then "running" else "stopped" in
  ({| Args := [AMap [("result", AString "SUCCESS");
                     ("message", AString "Proxy info retrieved");
                     ("data", AMap [("type", AString (proxyType m));
                                    ("status", AString status)])]] |}, w).

End webservice.

(** ** Package device: only its registration step is needed here *)
Module device.

Record GenericDevice := { deviceType : string }.

Record Manager := {
  cfg : config.Config;
  device : GenericDevice }.

Definition NewManager (c : config.Config) (b : board.Board) (w : World)
  : Manager * World :=
  let m := {| cfg := c; device := {| deviceType := board.Type_ b |} |} in
  (m, logf InfoLevel ("Device Manager initialized for type: "
                      +:+ board.Type_ b) w).

Definition verbs : list string := ["DevicePing"; "DeviceInfo"; "DeviceStatus"].

Definition registerRPCs (env : wamp.Env) (b : board.Board) (c : wamp.Client)
    (w : World) : option error * wamp.Client * World :=
  register_each (map (procedure_name b) verbs) env c w.

Definition Start (env : wamp.Env) (b : board.Board) (c : wamp.Client)
    (w : World) : option error * wamp.Client * World :=
  let w := logf InfoLevel "Starting Device Manager..." w in
  match registerRPCs env b c w with
  | (Some err, c, w) => (Some ("failed to register RPCs: " +:+ err), c, w)
  | (None, c, w) =>
      (None, c, logf InfoLevel "Device Manager started successfully" w)
  end.

Definition Stop (w : World) : option error * World :=
  (None, logf InfoLevel "Stopping Device Manager..." w).

End device.

(** ** Package lightningrod: start-up

    The local REST server is left out: it only reads the board and its
    [Start] cannot fail. *)
Module lightningrod.

Record LightningRod := {
  cfg : config.Config;
  board : board.Board;
  wamp : wamp.Client;
  device : option device.Manager;
  service : option service.Manager;
  webservice : option webservice.Manager;
  running : bool }.

(** What the environment answers during start-up. *)
Record Env := {
  router : wamp.Env;
  parsed_url : error + service.URL;
  services_write_fault : option WriteFault;
  nginx_lookpath_err : option error }.

Definition New (c : config.Config) (w : World)
  : outcome ((LightningRod + error) * World) :=
  match board.New c w with
  | Panics msg => Panics msg
  | Returns (inr err, w) => Returns (inr ("failed to create board: " +:+ err), w)
  | Returns (inl b, w) =>
      Returns (inl {| cfg := c; board := b; wamp := wamp.NewClient c;
                      device := None; service := None; webservice := None;
                      running := false |}, w)
  end.

Definition initializeModules (env : Env) (lr : LightningRod) (w : World)
  : option error * LightningRod * World :=
  let w := logf InfoLevel "Initializing modules..." w in
  let b := board lr in
  let '(deviceMgr, w) := device.NewManager (cfg lr) b w in
  match device.Start (router env) b (wamp lr) w with
  | (Some err, c, w) =>
      (Some ("failed to start device manager: " +:+ err),
       {| cfg := cfg lr; board := b; wamp := c; device := Some deviceMgr;
          service := service lr; webservice := webservice lr;
          running := running lr |}, w)
  | (None, c, w) =>
      match service.NewManager (cfg lr) b (parsed_url env) w with
      | (inr err, w) =>
          (Some ("failed to create service manager: " +:+ err),
           {| cfg := cfg lr; board := b; wamp := c; device := Some deviceMgr;
              service := service lr; webservice := webservice lr;
              running := running lr |}, w)
      | (inl serviceMgr, w) =>
          match service.Start (services_write_fault env) (router env)
                  serviceMgr b c w with
          | (Some err, serviceMgr, c, w) =>
              (Some ("failed to start service manager: " +:+ err),
               {| cfg := cfg lr; board := b; wamp := c;
                  device := Some deviceMgr; service := Some serviceMgr;
                  webservice := webservice lr; running := running lr |}, w)
          | (None, serviceMgr, c, w) =>
              let '(webserviceMgr, w) := webservice.NewManager (cfg lr) w in
              match webservice.Start (nginx_lookpath_err env) (router env)
                      b c w with
              | (Some err, c, w) =>
                  (Some ("failed to start webservice manager: " +:+ err),
                   {| cfg := cfg lr; board := b; wamp := c;
                      device := Some deviceMgr; service := Some serviceMgr;
                      webservice := Some webserviceMgr;
                      running := running lr |}, w)
              | (None, c, w) =>
                  (None,
                   {| cfg := cfg lr; board := b; wamp := c;
                      device := Some deviceMgr; service := Some serviceMgr;
                      webservice := Some webserviceMgr;
                      running := running lr |},
                   logf InfoLevel "All modules initialized successfully" w)
              end
          end
      end
  end.

(** [Start] up to the point where it waits for the cancellation; the
    keep-alive loop it launches is [wamp.KeepAlive]. *)
Definition Start (env : Env) (lr : LightningRod) (w : World)
  : option error * LightningRod * World :=
  if running lr then (Some "lightning rod already running", lr, w)
  else
    let w := logf InfoLevel "Starting Lightning Rod..." w in
    let w := logf InfoLevel "Starting REST API server..." w in
    let w := logf InfoLevel "Connecting to WAMP router..." w in
    match wamp.Connect (router env) (wamp lr) (board lr) w with
    | (Some err, c, b, w) =>
        (Some ("failed to connect to WAMP router: " +:+ err),
         {| cfg := cfg lr; board := b; wamp := c; device := device lr;
            service := service lr; webservice := webservice lr;
            running := true |}, w)
    | (None, c, b, w) =>
        let lr := {| cfg := cfg lr; board := b; wamp := c;
                     device := device lr; service := service lr;
                     webservice := webservice lr; running := true |} in
        match initializeModules env lr w with
        | (Some err, lr, w) =>
            (Some ("failed to initialize modules: " +:+ err), lr, w)
        | (None, lr, w) =>
            (None, lr, logf InfoLevel "Lightning Rod started successfully" w)
        end
    end.

(** A reconnection of the running agent: the session manager and the
    board are the only objects [wamp.Reconnect] reaches. *)
Definition Reconnect (env : wamp.Env) (lr : LightningRod) (w : World)
  : option error * LightningRod * World :=
  let '(err, c, b, w) := wamp.Reconnect env (wamp lr) (board lr) w in
  (err, {| cfg := cfg lr; board := b; wamp := c; device := device lr;
           service := service lr; webservice := webservice lr;
           running := running lr |}, w).

(** [Stop], the managers in reverse order, then the session, then the
    REST server, of which only the failure to shut down, [rest_err], is
    seen here. *)
Definition Stop (wenv : string -> webservice.Env) (senv : string -> service.Env)
    (renv : wamp.Env) (rest_err : option error) (lr : LightningRod) (w : World)
  : LightningRod * World :=
  if negb (running lr) then (lr, w)
  else
    let w := logf InfoLevel "Stopping Lightning Rod..." w in
    let '(webserviceMgr, w) :=
      match webservice lr with
      | Some m =>
          let '(err, m, w) := webservice.Stop wenv m w in
          (Some m,
           match err with
           | Some e => logf ErrorLevel
               ("Error stopping webservice manager: " +:+ e) w
           | None => w
           end)
      | None => (None, w)
      end in
    let '(serviceMgr, w) :=
      match service lr with
      | Some m =>
          let '(err, m, w) := service.Stop senv m w in
          (Some m,
           match err with
           | Some e => logf ErrorLevel
               ("Error stopping service manager: " +:+ e) w
           | None => w
           end)
      | None => (None, w)
      end in
    let w :=
      match device lr with
      | Some _ =>
          let '(err, w) := device.Stop w in
          match err with
          | Some e => logf ErrorLevel
              ("Error stopping device manager: " +:+ e) w
          | None => w
          end
      | None => w
      end in
    let '(c, w) := wamp.Stop renv (wamp lr) w in
    let w := logf InfoLevel "Stopping REST API server..." w in
    let w := match rest_err with
             | Some e => logf ErrorLevel
                 ("Error stopping REST API: failed to shutdown server: "
                  +:+ e) w
             | None => w
             end in
    ({| cfg := cfg lr; board := board lr; wamp := c; device := device lr;
        service := serviceMgr; webservice := webserviceMgr;
        running := false |},
     logf InfoLevel "Lightning Rod stopped" w).

End lightningrod.

(** * Notions and concrete configurations the properties refer to *)

(** The entries a registry holds under one name. *)
Definition entries_named {A : Type} (n : string) (m : gmap string A)
  : list (string * A) :=
  filter (fun kv => kv.1 = n) (map_to_list m).

(** The default configuration, an empty world and managers with empty
    registries. *)
Definition cfg0 : config.Config :=
  {| config.LightningRod :=
       {| config.Home := "/var/lib/iotronic"; config.LogLevel := "info";
          config.LogFile := ""; config.SkipCertVerify := true |};
     config.Autobahn :=
       {| config.ConnectionTimer := 10; config.AliveTimer := 600;
          config.RPCAliveTimer := 3; config.ConnectionFailureTimer := 600 |};
     config.Services := {| config.WstunBin := "/usr/bin/wstun" |};
     config.WebServices := {| config.Proxy := "nginx" |} |}.

Definition world0 : World := {| files := ∅; trace := [] |}.

Definition service0 : service.Manager :=
  {| service.cfg := cfg0; service.wstunIP := "10.0.0.1";
     service.wstunPort := "8080"; service.wstunURL := "ws://10.0.0.1:8080";
     service.boardID := "board-1"; service.services := ∅ |}.

Definition webservice0 : webservice.Manager :=
  {| webservice.cfg := cfg0; webservice.proxyType := "nginx";
     webservice.webservices := ∅ |}.

(** The board [New] starts from. *)
Definition board0 : board.Board :=
  {| board.UUID := ""; board.Code := ""; board.Name := ""; board.Status := "";
     board.Type_ := ""; board.Mobile := false; board.Agent := "";
     board.CreatedAt := ""; board.UpdatedAt := ""; board.Location := [];
     board.Extra := []; board.SessionID := ""; board.WampConfig := None;
     board.cfg := cfg0; board.settings := None |}.

(** The operating system lets everything through. *)
Definition service_env_ok (pid : Z) : service.Env :=
  {| service.start := inr pid; service.find_process_err := None;
     service.kill_err := None; service.write_fault := None |}.

(** The tunnel binary is missing: no process can be started. *)
Definition service_env_no_wstun : service.Env :=
  {| service.start :=
       inl "fork/exec /usr/bin/wstun: no such file or directory";
     service.find_process_err := None; service.kill_err := None;
     service.write_fault := None |}.

(** The operating system refuses to remove the proxy configuration, and the
    dry run of nginx fails. *)
Definition webservice_env_no_removal : webservice.Env :=
  {| webservice.write_fault := None;
     webservice.remove_fault := Some "operation not permitted";
     webservice.nginx_test := Some "nginx: configuration file test failed";
     webservice.nginx_reload := None |}.

Definition webservice_env_ok : webservice.Env :=
  {| webservice.write_fault := None; webservice.remove_fault := None;
     webservice.nginx_test := None; webservice.nginx_reload := None |}.

(** The dry run of the proxy configuration fails. *)
Definition webservice_env_bad_test : webservice.Env :=
  {| webservice.write_fault := None; webservice.remove_fault := None;
     webservice.nginx_test := Some "nginx: configuration file test failed";
     webservice.nginx_reload := None |}.

(** A webservice manager with the route "api" registered. *)
Definition webservice1 : webservice.Manager :=
  {| webservice.cfg := cfg0; webservice.proxyType := "nginx";
     webservice.webservices :=
       {[ "api" := {| webservice.Name := "api"; webservice.LocalPort := 3000;
                      webservice.PublicPort := 9000; webservice.Domain := "";
                      webservice.Status := "enabled" |} ]} |}.

(** The warning a failed write of services.json leaves in the log. *)
Definition save_warning (m : service.Manager) (fault : WriteFault) : event :=
  Log WarnLevel ("Failed to save services config: "
                 +:+ PathError_Error (WriteFault_error (service.configPath m) fault)).

(** The disk is full: services.json is created and nothing can be written
    to it. *)
Definition disk_full : WriteFault := WriteFails "no space left on device" "".

Definition service_env_disk_full (pid : Z) : service.Env :=
  {| service.start := inr pid; service.find_process_err := None;
     service.kill_err := None; service.write_fault := Some disk_full |}.

Definition registration_agent0 : config.WampAgent :=
  {| config.URL := "wss://registration.example:8181/"; config.Realm := "s4t" |}.

(** Settings without a primary endpoint, with the given code and status. *)
Definition settings0 (code status : string) : config.BoardSettings :=
  {| config.Iotronic :=
       {| config.Board :=
            {| config.UUID := "board-1"; config.Code := code;
               config.Name := "rod"; config.Status := status;
               config.Type_ := "generic"; config.Mobile := false;
               config.Agent := "agent-1"; config.CreatedAt := "";
               config.UpdatedAt := ""; config.Location := [];
               config.Extra := [] |};
          config.WAMP := {| config.MainAgent := None;
                            config.RegistrationAgent := Some registration_agent0 |};
          config.IotronicExtra := [] |} |}.

(** A disk that holds these settings, at the place [cfg0] looks for them. *)
Definition world_with_settings (st : config.BoardSettings) : World :=
  {| files := {[ "/var/lib/iotronic/settings.json" := SettingsJSON st ]};
     trace := [] |}.

(** The log line of a failed endpoint selection. *)
Definition selection_error : event :=
  Log ErrorLevel "WAMP Agent configuration is wrong... please check settings.json".

(** The Status the settings store holds. *)
Definition persisted_status (home : string) (w : World) : option string :=
  match LoadBoardSettings home w with
  | inl st => Some (config.Status (config.Board (config.Iotronic st)))
  | inr _ => None
  end.

(** A board whose settings are loaded. *)
Definition board1 : board.Board :=
  board.set_settings (Some (settings0 "code-1" "registered")) board0.

(** The system after a start on session 7: settings with a primary
    endpoint, and a router that accepts everything. *)
Definition settings_primary : config.BoardSettings :=
  {| config.Iotronic :=
       {| config.Board :=
            {| config.UUID := "board-1"; config.Code := "code-1";
               config.Name := "rod"; config.Status := "registered";
               config.Type_ := "generic"; config.Mobile := false;
               config.Agent := "agent-1"; config.CreatedAt := "";
               config.UpdatedAt := ""; config.Location := [];
               config.Extra := [] |};
          config.WAMP :=
            {| config.MainAgent :=
                 Some {| config.URL := "wss://iotronic.example:8181/";
                         config.Realm := "s4t" |};
               config.RegistrationAgent := None |};
          config.IotronicExtra := [] |} |}.

Definition router (id : Z) : wamp.Env :=
  {| wamp.connect := inr id; wamp.close_err := None;
     wamp.register_err := fun _ => None |}.

Definition start_env : lightningrod.Env :=
  {| lightningrod.router := router 7;
     lightningrod.parsed_url :=
       inr {| service.Scheme := "wss"; service.Host := "iotronic.example:8181" |};
     lightningrod.services_write_fault := None;
     lightningrod.nginx_lookpath_err := None |}.

(** The agent created from [settings_primary] and started; [None] if the
    creation or the start fails. *)
Definition started : option (lightningrod.LightningRod * World) :=
  match lightningrod.New cfg0 (world_with_settings settings_primary) with
  | Returns (inl lr, w) =>
      match lightningrod.Start start_env lr w with
      | (None, lr, w) => Some (lr, w)
      | _ => None
      end
  | _ => None
  end.

(** The board loaded from [settings_primary], reconnected on session 9 from
    a client that is not connected. *)
Definition board_primary : board.Board :=
  match board.New cfg0 (world_with_settings settings_primary) with
  | Returns (inl b, _) => b
  | _ => board0
  end.

Definition reconnected : option error * wamp.Client * board.Board * World :=
  wamp.Reconnect (router 9) (wamp.NewClient cfg0) board_primary world0.

(** The services document on disk is the registry in memory. *)
Definition services_synced (m : service.Manager) (w : World) : Prop :=
  files w !! service.configPath m
  = Some (ServicesJSON {| Services := service.services m |}).

(** The entry [ExposeService] records. *)
Definition exposed_entry (m : service.Manager) (n : string) (p pid : Z)
  : ServiceInfo :=
  {| Name := n; LocalPort := p; PublicURL := service.wstunURL m +:+ "/" +:+ n;
     PID := pid; Status := "running" |}.

(** A disk that holds an empty services document. *)
Definition world_services_empty : World :=
  {| files := {[ "/var/lib/iotronic/services.json" :=
                   ServicesJSON {| Services := ∅ |} ]};
     trace := [] |}.

(** A tunnel manager with the service "web" exposed. *)
Definition service_web : service.Manager :=
  {| service.cfg := cfg0; service.wstunIP := "10.0.0.1";
     service.wstunPort := "8080"; service.wstunURL := "ws://10.0.0.1:8080";
     service.boardID := "board-1";
     service.services :=
       {[ "web" := {| Name := "web"; LocalPort := 8080;
                      PublicURL := "ws://10.0.0.1:8080/web"; PID := 4242;
                      Status := "running" |} ]} |}.


(** Whether a name contains the path separator. *)
Fixpoint has_slash (s : string) : bool :=
  match s with
  | EmptyString => false
  | String c rest => Ascii.eqb c "/"%char || has_slash rest
  end.

(** The commands [reloadNginx] runs, by the answer of the dry run. *)
Definition nginx_runs (env : webservice.Env) : list event :=
  Exec ["nginx"; "-t"]
  :: match webservice.nginx_test env with
     | None => [Exec ["nginx"; "-s"; "reload"]]
     | Some _ => []
     end.

(** The warning a refused removal of the proxy configuration of [name]
    leaves in the log. *)
Definition removal_warning (name : string) (env : webservice.Env)
  : list event :=
  match webservice.remove_fault env with
  | Some reason =>
      [Log WarnLevel
         ("Failed to remove nginx config: "
          +:+ PathError_Error
                (ErrOther "remove" (webservice.confPath name) reason))]
  | None => []
  end.

(** For the names without a separator: every registered route has its
    proxy configuration on disk. *)
Definition entries_have_artifacts (m : webservice.Manager) (w : World)
  : Prop :=
  forall name, has_slash name = false ->
    is_Some (webservice.webservices m !! name) ->
    is_Some (files w !! webservice.confPath name).

(** For the names without a separator: a route is registered exactly when
    its proxy configuration is on disk. *)
Definition artifacts_match (m : webservice.Manager) (w : World) : Prop :=
  forall name, has_slash name = false ->
    (is_Some (webservice.webservices m !! name)
     <-> is_Some (files w !! webservice.confPath name)).

(** A write that goes through or fails before the file is opened: it
    leaves no file behind that it did not finish. *)
Definition clean_write (fault : option WriteFault) : Prop :=
  match fault with
  | None | Some (OpenFails _) => True
  | Some _ => False
  end.

(** The entry [EnableWebService] records. *)
Definition enabled_entry (name : string) (localPort publicPort : Z)
  : webservice.WebServiceInfo :=
  {| webservice.Name := name; webservice.LocalPort := localPort;
     webservice.PublicPort := publicPort; webservice.Domain := "";
     webservice.Status := "enabled" |}.

(** An event that is a log line. *)
Definition is_log (e : event) : Prop := exists l msg, e = Log l msg.


(** The session manager and the board agree: a connected client has a
    session object of the identifier it reports, and the board holds that
    identifier; a client that is not connected has no session object. *)
Definition session_consistent (c : wamp.Client) (b : board.Board) : Prop :=
  if wamp.connected c
  then exists cl, wamp.client c = Some cl /\
         wamp.ID cl = wamp.sessionID c /\
         board.SessionID b = fmt_d (wamp.sessionID c)
  else wamp.client c = None.

(** The log line that precedes every connection attempt. *)
Definition connecting_log (url realm : string) : event :=
  Log InfoLevel ("Connecting to WAMP router: " +:+ url
                 +:+ " (realm: " +:+ realm +:+ ")").


(** A router that refuses the connection. *)
Definition router_down : wamp.Env :=
  {| wamp.connect := inl "connection refused"; wamp.close_err := None;
     wamp.register_err := fun _ => None |}.



(** What a load copies into the board [b'] from the settings [st], and
    what it keeps of the board [b] it started from. *)
Definition loaded_from (st : config.BoardSettings) (b b' : board.Board)
  : Prop :=
  let bc := config.Board (config.Iotronic st) in
  board.UUID b' = config.UUID bc /\ board.Code b' = config.Code bc /\
  board.Name b' = config.Name bc /\ board.Type_ b' = config.Type_ bc /\
  board.Mobile b' = config.Mobile bc /\ board.Agent b' = config.Agent bc /\
  board.CreatedAt b' = config.CreatedAt bc /\
  board.UpdatedAt b' = config.UpdatedAt bc /\
  board.Location b' = config.Location bc /\
  board.Extra b' = config.Extra bc /\
  board.settings b' = Some st /\
  board.SessionID b' = board.SessionID b /\ board.cfg b' = board.cfg b.

(** The endpoint [loadWampConfig] picks in the settings: [None] when it
    picks none, [Some None] when it picks the registration endpoint and
    the settings have none. *)
Definition picked_endpoint (st : config.BoardSettings)
  : option (option config.WampAgent) :=
  let wamp := config.WAMP (config.Iotronic st) in
  match config.MainAgent wamp with
  | Some agent => Some (Some agent)
  | None =>
      if board.registration_status
           (config.Status (config.Board (config.Iotronic st)))
      then Some (config.RegistrationAgent wamp)
      else None
  end.

(** The Status a load leaves in memory. *)
Definition status_after_load (st : config.BoardSettings) : string :=
  let bc := config.Board (config.Iotronic st) in
  if String.eqb (config.Code bc) "<REGISTRATION-TOKEN>" then "first_boot"
  else match picked_endpoint st with
       | None => "first_boot"
       | Some _ => config.Status bc
       end.

(** The agent created from [settings_primary], before its start, and the
    result of its start. *)
Definition agent_new : lightningrod.LightningRod * World :=
  match lightningrod.New cfg0 (world_with_settings settings_primary) with
  | Returns (inl lr, w) => (lr, w)
  | _ => ({| lightningrod.cfg := cfg0; lightningrod.board := board0;
             lightningrod.wamp := wamp.NewClient cfg0;
             lightningrod.device := None; lightningrod.service := None;
             lightningrod.webservice := None;
             lightningrod.running := false |}, world0)
  end.

Definition agent_started
  : option error * lightningrod.LightningRod * World :=
  lightningrod.Start start_env agent_new.1 agent_new.2.

(** The record a list handler reports for an entry. *)
Definition service_record (svc : ServiceInfo) : any :=
  AMap [("name", AString (Name svc)); ("local_port", AInt (LocalPort svc));
        ("public_url", AString (PublicURL svc));
        ("status", AString (Status svc))].

Definition webservice_record (ws : webservice.WebServiceInfo) : any :=
  AMap [("name", AString (webservice.Name ws));
        ("local_port", AInt (webservice.LocalPort ws));
        ("public_port", AInt (webservice.PublicPort ws));
        ("status", AString (webservice.Status ws))].

(** * Properties *)

(** ** Shared facts *)

Lemma append_slash_nonempty (a b : string) : a +:+ "/" +:+ b <> "".
Proof. destruct a; discriminate. Qed.

Lemma entries_named_lookup {A : Type} (n : string) (m : gmap string A) (v : A) :
  m !! n = Some v -> entries_named n m = [(n, v)].
Proof.
  intros Hn. apply Permutation_singleton_r.
  apply NoDup_Permutation.
  - apply NoDup_filter, NoDup_map_to_list.
  - apply NoDup_singleton.
  - intros [k x]. unfold entries_named.
    rewrite list_elem_of_filter, elem_of_map_to_list, list_elem_of_singleton.
    simpl. split.
    + intros [-> Hk]. congruence.
    + intros [= -> ->]. auto.
Qed.

(** A write and a removal touch no path but their own. *)
Lemma os_WriteFile_other (path : string) (d : data) (fault : option WriteFault)
    (w w' : World) (r : option PathError) (p : string) :
  os_WriteFile path d fault w = (r, w') -> p <> path ->
  files w' !! p = files w !! p.
Proof.
  unfold os_WriteFile. intros H Hne.
  destruct fault as [[reason|reason written|reason]|]; inversion H; subst;
    cbn [files store]; rewrite ?lookup_insert_ne by congruence; reflexivity.
Qed.

Lemma os_WriteFile_trace (path : string) (d : data) (fault : option WriteFault)
    (w : World) :
  trace (os_WriteFile path d fault w).2 = trace w.
Proof. destruct fault as [[reason|reason written|reason]|]; reflexivity. Qed.

Lemma os_Remove_other (path : string) (fault : option string)
    (w w' : World) (r : option PathError) (p : string) :
  os_Remove path fault w = (r, w') -> p <> path ->
  files w' !! p = files w !! p.
Proof.
  unfold os_Remove. intros H Hne.
  destruct fault as [reason|]; [|destruct (files w !! path)];
    inversion H; subst; cbn [files];
    rewrite ?lookup_delete_ne by congruence; reflexivity.
Qed.

(** ** The tunnel registry *)

(** C4. [UnexposeService] of a name the registry does not hold fails with
    the not-found error and changes nothing: the manager (its services map)
    and the world (the persisted services document among the files, and the
    trace) are returned as they were. *)
Theorem unexposeService_absent_not_found
    (n : string) (env : service.Env) (m : service.Manager) (w : World) :
  service.services m !! n = None ->
  service.unexposeService n env m w
    = (Some ("service " +:+ n +:+ " not found"), m, w).
Proof.
  intros Habsent. unfold service.unexposeService, service.stopService.
  now rewrite Habsent.
Qed.

Lemma unexposeService_absent_not_found_witness :
  service.services service0 !! "web" = None /\
  service.unexposeService "web" (service_env_ok 4242) service0 world0
    = (Some "service web not found", service0, world0).
Proof.
  assert (H : service.services service0 !! "web" = None) by reflexivity.
  split; [exact H|].
  exact (unexposeService_absent_not_found "web" (service_env_ok 4242)
           service0 world0 H).
Defined.

(** C3, as stated, fails: when the tunnel process cannot be started the
    first [ExposeService(n, p)] fails, the second fails in the same way and
    not with the already-exposed error, and the registry has no entry for
    [n]. *)
Lemma exposeService_first_call_can_fail :
  let '(r1, m1, w1) :=
    service.exposeService "web" 8080 service_env_no_wstun service0 world0 in
  let '(r2, m2, w2) :=
    service.exposeService "web" 8080 service_env_no_wstun m1 w1 in
  r1 = Some "failed to start wstun: fork/exec /usr/bin/wstun: no such file or directory" /\
  r2 = r1 /\
  r2 <> Some "service web already exposed" /\
  service.services m2 !! "web" = None /\
  entries_named "web" (service.services m2) = [].
Proof. vm_compute. repeat split; discriminate. Qed.

(** C3, amended. When [n] is not yet exposed and the tunnel process of the
    first call starts, two calls [ExposeService(n, p)] in a row behave as
    follows: the
    first returns no error, the second fails with the already-exposed error
    and changes nothing, and the registry then holds exactly one entry for
    [n], the one the first call recorded: port [p], the process id of the
    started tunnel, status "running" and a public URL that is not empty. *)
Theorem exposeService_twice
    (n : string) (p pid : Z) (env1 env2 : service.Env)
    (m : service.Manager) (w : World) :
  service.services m !! n = None ->
  service.start env1 = inr pid ->
  let '(r1, m1, w1) := service.exposeService n p env1 m w in
  let '(r2, m2, w2) := service.exposeService n p env2 m1 w1 in
  let entry := {| Name := n; LocalPort := p;
                  PublicURL := service.wstunURL m +:+ "/" +:+ n;
                  PID := pid; Status := "running" |} in
  r1 = None /\
  r2 = Some ("service " +:+ n +:+ " already exposed") /\
  m2 = m1 /\ w2 = w1 /\
  service.services m2 !! n = Some entry /\
  entries_named n (service.services m2) = [(n, entry)] /\
  Status entry = "running" /\ PublicURL entry <> "".
Proof.
  intros Habsent Hstart.
  unfold service.exposeService at 1. rewrite Habsent, Hstart.
  destruct (service.saveServicesConfig _ _ _) as [err w1] eqn:Hsave.
  unfold service.exposeService. cbn [service.services service.set_services].
  rewrite lookup_insert_eq.
  repeat split; try reflexivity.
  - apply lookup_insert_eq.
  - apply entries_named_lookup, lookup_insert_eq.
  - apply append_slash_nonempty.
Qed.

Lemma exposeService_twice_witness :
  service.services service0 !! "web" = None /\
  service.start (service_env_ok 4242) = inr 4242 /\
  let '(r1, m1, w1) :=
    service.exposeService "web" 8080 (service_env_ok 4242) service0 world0 in
  let '(r2, m2, w2) :=
    service.exposeService "web" 8080 (service_env_ok 4343) m1 w1 in
  let entry := {| Name := "web"; LocalPort := 8080;
                  PublicURL := "ws://10.0.0.1:8080" +:+ "/" +:+ "web";
                  PID := 4242; Status := "running" |} in
  r1 = None /\
  r2 = Some ("service " +:+ "web" +:+ " already exposed") /\
  m2 = m1 /\ w2 = w1 /\
  service.services m2 !! "web" = Some entry /\
  entries_named "web" (service.services m2) = [("web", entry)] /\
  Status entry = "running" /\ PublicURL entry <> "".
Proof.
  split; [reflexivity | split; [reflexivity |]].
  exact (exposeService_twice "web" 8080 4242 (service_env_ok 4242)
           (service_env_ok 4343) service0 world0 eq_refl eq_refl).
Defined.

(** ** The reverse-proxy registry *)

(** What [reloadNginx] returns, by the answers of nginx. *)
Lemma reloadNginx_fails (env : webservice.Env) (w : World) :
  is_Some (webservice.nginx_test env) \/ is_Some (webservice.nginx_reload env) ->
  exists reason w',
    webservice.reloadNginx env w = (Some reason, w') /\ files w' = files w.
Proof.
  unfold webservice.reloadNginx.
  destruct (webservice.nginx_test env) as [out|] eqn:Ht.
  - intros _. eauto.
  - destruct (webservice.nginx_reload env) as [out|] eqn:Hr.
    + intros _. eauto.
    + intros [[x Hx] | [x Hx]]; discriminate.
Qed.

Lemma reloadNginx_files (env : webservice.Env) (w : World) :
  files (webservice.reloadNginx env w).2 = files w.
Proof.
  unfold webservice.reloadNginx.
  destruct (webservice.nginx_test env); [reflexivity|].
  destruct (webservice.nginx_reload env); reflexivity.
Qed.

(** C1, as stated, fails: the validation of nginx fails and the operating
    system refuses the removal of the artifact, whose result the code does
    not look at.  The operation returns the error and registers nothing,
    but the artifact written for the name is still on disk. *)
Lemma enableWebService_rollback_can_be_refused :
  let '(r, m', w') :=
    webservice.enableWebService "api" 3000 9000 webservice_env_no_removal
      webservice0 world0 in
  is_Some (webservice.nginx_test webservice_env_no_removal) /\
  r = Some "failed to reload nginx: nginx config test failed: nginx: configuration file test failed" /\
  webservice.webservices m' !! "api" = None /\
  files w' !! "/etc/nginx/conf.d/lr_api.conf"
  = Some (Bytes (webservice.nginxConf 9000 3000)).
Proof. vm_compute. repeat split. eexists; reflexivity. Qed.

(** C1, amended. When an [EnableWebService(name, localPort, publicPort)]
    reaches the proxy (the name is not registered and the artifact is
    written) and the validation or the reload fails, the operation returns
    an error and the registry is as before: it has no entry for the name.
    The artifact is removed without a look at the result of the removal:
    it is not on disk afterwards when the operating system carries the
    removal out, and it stays, as it was written, when the removal is
    refused.  No other file has changed. *)
Theorem enableWebService_failed_reload_leaves_nothing
    (name : string) (localPort publicPort : Z) (env : webservice.Env)
    (m : webservice.Manager) (w : World) :
  webservice.webservices m !! name = None ->
  webservice.write_fault env = None ->
  is_Some (webservice.nginx_test env) \/ is_Some (webservice.nginx_reload env) ->
  let '(r, m', w') :=
    webservice.enableWebService name localPort publicPort env m w in
  (exists reason, r = Some ("failed to reload nginx: " +:+ reason)) /\
  (webservice.remove_fault env = None ->
   files w' !! webservice.confPath name = None) /\
  (is_Some (webservice.remove_fault env) ->
   files w' !! webservice.confPath name
   = Some (Bytes (webservice.nginxConf publicPort localPort))) /\
  (forall p, p <> webservice.confPath name -> files w' !! p = files w !! p) /\
  webservice.webservices m' !! name = None /\
  m' = m.
Proof.
  intros Habsent Hwrite Hfail.
  unfold webservice.enableWebService, os_WriteFile.
  rewrite Habsent, Hwrite.
  match goal with
  | |- context [webservice.reloadNginx env ?w1] =>
      destruct (reloadNginx_fails env w1 Hfail) as (reason & w2 & -> & Hfiles)
  end.
  unfold os_Remove.
  destruct (webservice.remove_fault env) as [refusal|].
  - rewrite Hfiles. cbn [files store].
    split; [eauto|]. split; [discriminate|].
    split; [intros _; apply lookup_insert_eq|].
    split; [|split; [assumption|reflexivity]].
    intros p Hp. rewrite lookup_insert_ne by congruence. reflexivity.
  - rewrite Hfiles. cbn [files store].
    rewrite lookup_insert_eq. cbn [files].
    split; [eauto|]. split; [intros _; apply lookup_delete_eq|].
    split; [intros [x Hx]; discriminate|].
    split; [|split; [assumption|reflexivity]].
    intros p Hp. rewrite lookup_delete_ne, lookup_insert_ne by congruence.
    reflexivity.
Qed.

Lemma enableWebService_failed_reload_leaves_nothing_witness :
  webservice.webservices webservice0 !! "api" = None /\
  webservice.write_fault webservice_env_bad_test = None /\
  (is_Some (webservice.nginx_test webservice_env_bad_test)
   \/ is_Some (webservice.nginx_reload webservice_env_bad_test)) /\
  let '(r, m', w') :=
    webservice.enableWebService "api" 3000 9000 webservice_env_bad_test
      webservice0 world0 in
  (exists reason, r = Some ("failed to reload nginx: " +:+ reason)) /\
  (webservice.remove_fault webservice_env_bad_test = None ->
   files w' !! webservice.confPath "api" = None) /\
  (is_Some (webservice.remove_fault webservice_env_bad_test) ->
   files w' !! webservice.confPath "api"
   = Some (Bytes (webservice.nginxConf 9000 3000))) /\
  (forall p, p <> webservice.confPath "api" -> files w' !! p = files world0 !! p) /\
  webservice.webservices m' !! "api" = None /\
  m' = webservice0.
Proof.
  assert (H1 : webservice.webservices webservice0 !! "api" = None)
    by reflexivity.
  assert (H2 : webservice.write_fault webservice_env_bad_test = None)
    by reflexivity.
  assert (H3 : is_Some (webservice.nginx_test webservice_env_bad_test)
               \/ is_Some (webservice.nginx_reload webservice_env_bad_test))
    by (left; eexists; reflexivity).
  split; [exact H1 | split; [exact H2 | split; [exact H3 |]]].
  exact (enableWebService_failed_reload_leaves_nothing "api" 3000 9000
           webservice_env_bad_test webservice0 world0 H1 H2 H3).
Defined.

(** C9, as stated, fails: for a name the registry does not hold, whose
    artifact is missing as well, [DisableWebService] returns the not-found
    error. *)
Lemma disableWebService_unregistered_errors :
  webservice.webservices webservice0 !! "api" = None /\
  files world0 !! webservice.confPath "api" = None /\
  webservice.disableWebService "api" webservice_env_ok webservice0 world0
    = (Some "webservice api not found", webservice0, world0).
Proof. repeat split. Qed.

(** C9, amended. For a name the registry holds, [DisableWebService] returns
    no error whatever the state of the artifact and whatever the operating
    system and nginx answer: the entry is removed, the artifact is absent
    afterwards when its removal is not refused (also when it was already
    missing), and a failed validation or reload is logged as a warning.
    For a name the registry does not hold it fails with the not-found error
    and changes nothing. *)
Theorem disableWebService_registered_tolerant
    (name : string) (env : webservice.Env) (m : webservice.Manager) (w : World) :
  (is_Some (webservice.webservices m !! name) ->
   let '(r, m', w') := webservice.disableWebService name env m w in
   r = None /\
   (webservice.remove_fault env = None ->
    files w' !! webservice.confPath name = None) /\
   webservice.webservices m' !! name = None /\
   (forall out, webservice.nginx_test env = Some out ->
      Log WarnLevel ("Failed to reload nginx: nginx config test failed: " +:+ out)
        ∈ trace w') /\
   (forall out, webservice.nginx_test env = None ->
      webservice.nginx_reload env = Some out ->
      Log WarnLevel ("Failed to reload nginx: nginx reload failed: " +:+ out)
        ∈ trace w')) /\
  (webservice.webservices m !! name = None ->
   webservice.disableWebService name env m w
     = (Some ("webservice " +:+ name +:+ " not found"), m, w)).
Proof.
  unfold webservice.disableWebService, webservice.removeWebService.
  split.
  - intros [info ->].
    destruct (os_Remove (webservice.confPath name) (webservice.remove_fault env)
                w) as [rerr w1] eqn:Hrm.
    assert (Hgone : webservice.remove_fault env = None ->
                    files w1 !! webservice.confPath name = None).
    { intros Hnone. unfold os_Remove in Hrm. rewrite Hnone in Hrm.
      destruct (files w !! webservice.confPath name) eqn:Hf;
        inversion Hrm; subst; cbn [files];
        [apply lookup_delete_eq | assumption]. }
    assert (Hwarn : forall w0 : World,
      files (match rerr with
             | Some e => if negb (os_IsNotExist e)
                         then logf WarnLevel ("Failed to remove nginx config: "
                                +:+ PathError_Error e) w0
                         else w0
             | None => w0
             end) = files w0).
    { intros w0. destruct rerr as [e|]; [destruct (os_IsNotExist e)|];
        reflexivity. }
    match goal with
    | |- context [webservice.reloadNginx env ?w2] =>
        pose proof (reloadNginx_files env w2) as Hfiles;
        unfold webservice.reloadNginx in *
    end.
    destruct (webservice.nginx_test env) as [out|] eqn:Ht;
      [|destruct (webservice.nginx_reload env) as [out|] eqn:Hr];
      cbn [fst snd files trace logf emit webservice.webservices
           webservice.set_webservices] in *;
      rewrite ?Hwarn in *;
      (split; [reflexivity|]);
      (split; [exact Hgone|]);
      (split; [apply lookup_delete_eq|]);
      split; intros out' Ho1; try intros Ho2; try discriminate;
      try (inversion Ho1; subst); try (inversion Ho2; subst);
      rewrite !elem_of_app, !list_elem_of_singleton; auto.
  - intros ->. reflexivity.
Qed.

Lemma disableWebService_registered_tolerant_witness :
  is_Some (webservice.webservices webservice1 !! "api") /\
  files world0 !! webservice.confPath "api" = None /\
  let '(r, m', w') :=
    webservice.disableWebService "api" webservice_env_bad_test webservice1
      world0 in
  r = None /\
  (webservice.remove_fault webservice_env_bad_test = None ->
   files w' !! webservice.confPath "api" = None) /\
  webservice.webservices m' !! "api" = None /\
  (forall out, webservice.nginx_test webservice_env_bad_test = Some out ->
     Log WarnLevel ("Failed to reload nginx: nginx config test failed: " +:+ out)
       ∈ trace w') /\
  (forall out, webservice.nginx_test webservice_env_bad_test = None ->
     webservice.nginx_reload webservice_env_bad_test = Some out ->
     Log WarnLevel ("Failed to reload nginx: nginx reload failed: " +:+ out)
       ∈ trace w').
Proof.
  assert (H1 : is_Some (webservice.webservices webservice1 !! "api"))
    by (eexists; reflexivity).
  split; [exact H1 | split; [reflexivity |]].
  exact (proj1 (disableWebService_registered_tolerant "api"
                  webservice_env_bad_test webservice1 world0) H1).
Defined.

(** ** Persistence of the two registries *)

Lemma saveServicesConfig_written (m : service.Manager) (w : World) :
  service.saveServicesConfig None m w
  = (None, {| files := <[service.configPath m :=
                           ServicesJSON {| Services := service.services m |}]>
                         (files w);
              trace := trace w |}).
Proof. reflexivity. Qed.

Lemma saveServicesConfig_failed (fault : WriteFault) (m : service.Manager)
    (w : World) :
  exists w',
    service.saveServicesConfig (Some fault) m w
    = (Some (PathError_Error (WriteFault_error (service.configPath m) fault)),
       w') /\
    trace w' = trace w.
Proof.
  unfold service.saveServicesConfig, os_WriteFile.
  destruct fault; eexists; split; reflexivity.
Qed.

(** C6, as stated, fails: a successful [EnableWebService] on an empty disk
    leaves exactly one file, the proxy configuration of the route, and the
    following [DisableWebService] leaves none; at no point does a file hold
    the webservice registry. *)
Lemma webservice_registry_never_written :
  let '(r1, m1, w1) :=
    webservice.enableWebService "api" 3000 9000 webservice_env_ok
      webservice0 world0 in
  let '(r2, m2, w2) :=
    webservice.disableWebService "api" webservice_env_ok m1 w1 in
  r1 = None /\
  is_Some (webservice.webservices m1 !! "api") /\
  files w1 = {[ "/etc/nginx/conf.d/lr_api.conf" :=
                  Bytes (webservice.nginxConf 9000 3000) ]} /\
  r2 = None /\
  webservice.webservices m2 = ∅ /\
  files w2 = ∅.
Proof. vm_compute. repeat split. eexists; reflexivity. Qed.

(** C6, amended. Only the tunnel manager persists its registry: when the
    write goes through, [ExposeService] and [UnexposeService] leave in
    services.json the whole registry as it is after the call.  The
    webservice manager keeps its registry in memory only: whatever happens,
    [EnableWebService] and [DisableWebService] change no file other than the
    proxy configuration of the name. *)
Theorem registry_persistence
    (n : string) (p publicPort : Z) (pid : Z)
    (senv : service.Env) (sm : service.Manager)
    (wenv : webservice.Env) (wm : webservice.Manager) (w : World) :
  (service.services sm !! n = None -> service.start senv = inr pid ->
   service.write_fault senv = None ->
   let '(r, sm', w') := service.exposeService n p senv sm w in
   r = None /\
   files w' !! service.configPath sm
     = Some (ServicesJSON {| Services := service.services sm' |})) /\
  (is_Some (service.services sm !! n) -> service.write_fault senv = None ->
   let '(r, sm', w') := service.unexposeService n senv sm w in
   r = None /\
   files w' !! service.configPath sm
     = Some (ServicesJSON {| Services := service.services sm' |})) /\
  (let '(r, wm', w') := webservice.enableWebService n p publicPort wenv wm w in
   forall path, path <> webservice.confPath n ->
     files w' !! path = files w !! path) /\
  (let '(r, wm', w') := webservice.disableWebService n wenv wm w in
   forall path, path <> webservice.confPath n ->
     files w' !! path = files w !! path).
Proof.
  split; [|split; [|split]].
  - intros Habsent Hstart Hwrite. unfold service.exposeService.
    rewrite Habsent, Hstart, Hwrite, saveServicesConfig_written.
    split; [reflexivity|]. cbn [files logf emit]. apply lookup_insert_eq.
  - intros [svc Hsvc] Hwrite.
    unfold service.unexposeService, service.stopService.
    rewrite Hsvc, Hwrite, saveServicesConfig_written.
    split; [reflexivity|]. cbn [files logf emit]. apply lookup_insert_eq.
  - unfold webservice.enableWebService.
    destruct (webservice.webservices wm !! n); [reflexivity|].
    destruct (os_WriteFile _ _ _ w) as [werr w1] eqn:Hwrite.
    assert (Hw1 : forall path, path <> webservice.confPath n ->
                    files w1 !! path = files w !! path).
    { intros path Hne. eapply os_WriteFile_other; eauto. }
    destruct werr as [e|]; [exact Hw1|].
    pose proof (reloadNginx_files wenv w1) as Hfiles.
    destruct (webservice.reloadNginx wenv w1) as [[err|] w2];
      cbn [snd files] in Hfiles.
    + destruct (os_Remove _ _ w2) as [rerr w3] eqn:Hrm.
      intros path Hne.
      rewrite (os_Remove_other _ _ _ _ _ _ Hrm Hne), Hfiles. auto.
    + cbn [files logf emit]. rewrite Hfiles. exact Hw1.
  - unfold webservice.disableWebService, webservice.removeWebService.
    destruct (webservice.webservices wm !! n); [|reflexivity].
    destruct (os_Remove (webservice.confPath n) (webservice.remove_fault wenv)
                w) as [rerr w1] eqn:Hrm.
    match goal with
    | |- context [webservice.reloadNginx wenv ?w2] =>
        pose proof (reloadNginx_files wenv w2) as Hfiles;
        destruct (webservice.reloadNginx wenv w2) as [lerr w3]
    end; cbn [snd] in Hfiles.
    assert (Hw3 : files w3 = files w1).
    { rewrite Hfiles. destruct rerr as [e|]; [destruct (os_IsNotExist e)|];
        reflexivity. }
    assert (Hout : files (logf InfoLevel ("Webservice " +:+ n +:+ " disabled")
                     (match lerr with
                      | Some e => logf WarnLevel ("Failed to reload nginx: " +:+ e) w3
                      | None => w3
                      end)) = files w1).
    { destruct lerr; exact Hw3. }
    rewrite Hout. clear Hout Hw3 Hfiles.
    intros path Hne. exact (os_Remove_other _ _ _ _ _ _ Hrm Hne).
Qed.

Lemma registry_persistence_witness :
  service.services service0 !! "web" = None /\
  service.start (service_env_ok 4242) = inr 4242 /\
  service.write_fault (service_env_ok 4242) = None /\
  let '(r, sm', w') :=
    service.exposeService "web" 8080 (service_env_ok 4242) service0 world0 in
  r = None /\
  files w' !! service.configPath service0
    = Some (ServicesJSON {| Services := service.services sm' |}).
Proof.
  split; [reflexivity | split; [reflexivity | split; [reflexivity |]]].
  exact (proj1 (registry_persistence "web" 8080 9000 4242 (service_env_ok 4242)
                  service0 webservice_env_ok webservice0 world0)
           eq_refl eq_refl eq_refl).
Defined.

(** C7, as stated, fails: when the write of services.json fails,
    [ExposeService] still returns no error and its handler replies SUCCESS;
    the entry is kept in memory, no registry is on disk, and the failure is
    only a warning in the log. *)
Lemma exposeService_write_error_not_returned :
  let '(r, m', w') :=
    service.exposeService "web" 8080 (service_env_disk_full 4242)
      service0 world0 in
  r = None /\
  is_Some (service.services m' !! "web") /\
  files w' !! "/var/lib/iotronic/services.json" = Some (Bytes "") /\
  Log WarnLevel
    "Failed to save services config: write /var/lib/iotronic/services.json: no space left on device"
    ∈ trace w' /\
  (service.handleExposeService
     [AString "web"; AFloat (S754_finite false 8080 0)]
     (service_env_disk_full 4242) service0 world0).1.1
  = reply "SUCCESS" "Service web exposed on port 8080".
Proof.
  vm_compute. repeat split.
  - eexists; reflexivity.
  - apply list_elem_of_In. simpl. auto.
Qed.

(** C7, amended. A failed write of services.json is not returned by
    [ExposeService] and [UnexposeService]: they return no error, keep the
    change of the registry in memory and log a warning.  A failed write of
    the settings document is returned by [UpdateStatus], which also keeps
    the new status in memory. *)
Theorem persistence_failure_handling
    (n : string) (p pid : Z) (fault : WriteFault) (env : service.Env)
    (m : service.Manager) (w : World)
    (status : string) (b : board.Board) (st : config.BoardSettings) :
  service.write_fault env = Some fault ->
  (service.services m !! n = None -> service.start env = inr pid ->
   let '(r, m', w') := service.exposeService n p env m w in
   r = None /\
   is_Some (service.services m' !! n) /\
   save_warning m fault ∈ trace w') /\
  (is_Some (service.services m !! n) ->
   let '(r, m', w') := service.unexposeService n env m w in
   r = None /\
   service.services m' !! n = None /\
   save_warning m fault ∈ trace w') /\
  (board.settings b = Some st ->
   exists err b' w',
     board.UpdateStatus status (Some fault) b w = Returns (Some err, b', w') /\
     board.Status b' = status).
Proof.
  intros Hfault. split; [|split].
  - intros Habsent Hstart. unfold service.exposeService.
    rewrite Habsent, Hstart, Hfault.
    match goal with
    | |- context [service.saveServicesConfig (Some fault) ?m1 ?w1] =>
        destruct (saveServicesConfig_failed fault m1 w1) as (w2 & -> & Htr)
    end.
    cbn [files trace logf emit service.services service.set_services].
    split; [reflexivity|]. split.
    + rewrite lookup_insert_eq. eauto.
    + unfold save_warning, service.configPath. cbn [service.cfg].
      rewrite !elem_of_app, !list_elem_of_singleton. auto.
  - intros [svc Hsvc]. unfold service.unexposeService, service.stopService.
    rewrite Hsvc, Hfault.
    match goal with
    | |- context [service.saveServicesConfig (Some fault) ?m1 ?w1] =>
        destruct (saveServicesConfig_failed fault m1 w1) as (w2 & -> & Htr)
    end.
    cbn [files trace logf emit service.services service.set_services].
    split; [reflexivity|]. split.
    + apply lookup_delete_eq.
    + unfold save_warning, service.configPath. cbn [service.cfg].
      rewrite !elem_of_app, !list_elem_of_singleton. auto.
  - intros Hst. unfold board.UpdateStatus.
    cbn [board.settings board.set_Status]. rewrite Hst.
    unfold SaveBoardSettings, os_WriteFile.
    destruct (json_Marshal_settings _); eauto 10.
Qed.

Lemma persistence_failure_handling_witness :
  service.write_fault (service_env_disk_full 4242) = Some disk_full /\
  service.services service0 !! "web" = None /\
  service.start (service_env_disk_full 4242) = inr 4242 /\
  let '(r, m', w') :=
    service.exposeService "web" 8080 (service_env_disk_full 4242)
      service0 world0 in
  r = None /\
  is_Some (service.services m' !! "web") /\
  save_warning service0 disk_full ∈ trace w'.
Proof.
  split; [reflexivity | split; [reflexivity | split; [reflexivity |]]].
  exact (proj1 (persistence_failure_handling "web" 8080 4242
                  disk_full (service_env_disk_full 4242)
                  service0 world0 "online" board0
                  config.zero_BoardSettings eq_refl)
           eq_refl eq_refl).
Defined.

(** ** Board identity: endpoint selection and status *)

Lemma registration_status_spec (status : string) :
  board.registration_status status = true
  <-> status = "" \/ status = "registered" \/ status = "first_boot".
Proof.
  unfold board.registration_status.
  rewrite !orb_true_iff, !String.eqb_eq. tauto.
Qed.

(** C5, as stated, fails in its last case: with no primary endpoint and
    Status "online" the load returns no error to its caller, and so does the
    construction of the board; the failure is only logged. *)
Lemma LoadSettings_selection_failure_returns_nil :
  let w := world_with_settings (settings0 "code-1" "online") in
  (exists b' w',
     board.LoadSettings board0 w = Returns (None, b', w') /\
     board.WampConfig b' = None /\
     board.Status b' = "first_boot" /\
     selection_error ∈ trace w') /\
  (exists b' w', board.New cfg0 w = Returns (inl b', w')).
Proof.
  split.
  - eexists _, _. vm_compute.
    split; [reflexivity|]. split; [reflexivity|]. split; [reflexivity|].
    apply list_elem_of_In. simpl. auto 10.
  - eexists _, _. vm_compute. reflexivity.
Qed.

(** What [loadWampConfig] decides, case by case. *)
Lemma LoadSettings_outcome (b : board.Board) (w : World)
    (st : config.BoardSettings) :
  LoadBoardSettings (board.home b) w = inl st ->
  let wamp := config.WAMP (config.Iotronic st) in
  let status := config.Status (config.Board (config.Iotronic st)) in
  (forall agent, config.MainAgent wamp = Some agent ->
     exists b' w',
       board.LoadSettings b w = Returns (None, b', w') /\
       board.WampConfig b' = Some agent /\ files w' = files w) /\
  (forall agent, config.MainAgent wamp = None ->
     board.registration_status status = true ->
     config.RegistrationAgent wamp = Some agent ->
     exists b' w',
       board.LoadSettings b w = Returns (None, b', w') /\
       board.WampConfig b' = Some agent /\ files w' = files w) /\
  (config.MainAgent wamp = None ->
   board.registration_status status = false ->
   exists b' w',
     board.LoadSettings b w = Returns (None, b', w') /\
     board.WampConfig b' = board.WampConfig b /\
     board.Status b' = "first_boot" /\
     selection_error ∈ trace w' /\ files w' = files w).
Proof.
  intros Hload. cbn zeta. unfold board.LoadSettings. rewrite Hload.
  unfold board.loadWampConfig.
  cbn [board.Status board.WampConfig board.Code board.Agent board.set_WampConfig
       board.set_Status].
  split; [|split].
  - intros agent ->.
    cbn [board.Status board.WampConfig board.Code board.Agent
         board.set_WampConfig board.set_Status].
    destruct (String.eqb _ "<REGISTRATION-TOKEN>"); eexists _, _;
      (split; [reflexivity|]); split; reflexivity.
  - intros agent -> -> ->.
    cbn [board.Status board.WampConfig board.Code board.Agent
         board.set_WampConfig board.set_Status].
    destruct (String.eqb _ "<REGISTRATION-TOKEN>"); eexists _, _;
      (split; [reflexivity|]); split; reflexivity.
  - intros -> ->.
    cbn [board.Status board.WampConfig board.Code board.Agent
         board.set_WampConfig board.set_Status].
    destruct (String.eqb _ "<REGISTRATION-TOKEN>"); eexists _, _;
      (split; [reflexivity|]); (split; [reflexivity|]);
      (split; [reflexivity|]); (split; [|reflexivity]);
      cbn [trace logf emit]; unfold selection_error;
      rewrite !elem_of_app, !list_elem_of_singleton; auto 10.
Qed.

(** C5, amended. On a load of settings that can be read: a primary
    endpoint, when present, is selected; otherwise, when Status is one of
    "", "registered", "first_boot" and a registration endpoint is present,
    the registration endpoint is selected; otherwise (no primary endpoint
    and any other Status) the selection is left as it was (none on a board
    just created), Status is forced to "first_boot", an error is logged, and
    the load still returns no error to its caller. *)
Theorem LoadSettings_endpoint_selection (b : board.Board) (w : World)
    (st : config.BoardSettings) :
  LoadBoardSettings (board.home b) w = inl st ->
  let wamp := config.WAMP (config.Iotronic st) in
  let status := config.Status (config.Board (config.Iotronic st)) in
  (forall agent, config.MainAgent wamp = Some agent ->
     exists b' w',
       board.LoadSettings b w = Returns (None, b', w') /\
       board.WampConfig b' = Some agent) /\
  (forall agent, config.MainAgent wamp = None ->
     status = "" \/ status = "registered" \/ status = "first_boot" ->
     config.RegistrationAgent wamp = Some agent ->
     exists b' w',
       board.LoadSettings b w = Returns (None, b', w') /\
       board.WampConfig b' = Some agent) /\
  (config.MainAgent wamp = None ->
   ~ (status = "" \/ status = "registered" \/ status = "first_boot") ->
   exists b' w',
     board.LoadSettings b w = Returns (None, b', w') /\
     board.WampConfig b' = board.WampConfig b /\
     board.Status b' = "first_boot" /\
     selection_error ∈ trace w').
Proof.
  intros Hload. destruct (LoadSettings_outcome b w st Hload) as (H1 & H2 & H3).
  cbn zeta in *. split; [|split].
  - intros agent Hm. destruct (H1 agent Hm) as (b' & w' & ? & ? & _). eauto.
  - intros agent Hm Hs Hr. apply registration_status_spec in Hs.
    destruct (H2 agent Hm Hs Hr) as (b' & w' & ? & ? & _). eauto.
  - intros Hm Hs. rewrite <- registration_status_spec in Hs.
    apply not_true_is_false in Hs.
    destruct (H3 Hm Hs) as (b' & w' & ? & ? & ? & ? & _). eauto 10.
Qed.

Lemma LoadSettings_endpoint_selection_witness :
  let w := world_with_settings (settings0 "code-1" "registered") in
  LoadBoardSettings (board.home board0) w = inl (settings0 "code-1" "registered") /\
  exists b' w',
    board.LoadSettings board0 w = Returns (None, b', w') /\
    board.WampConfig b' = Some registration_agent0.
Proof.
  cbn zeta.
  assert (Hload : LoadBoardSettings (board.home board0)
                    (world_with_settings (settings0 "code-1" "registered"))
                  = inl (settings0 "code-1" "registered")) by reflexivity.
  split; [exact Hload|].
  exact (proj1 (proj2 (LoadSettings_endpoint_selection board0 _ _ Hload))
           registration_agent0 eq_refl (or_intror (or_introl eq_refl)) eq_refl).
Defined.

Lemma LoadSettings_files (b : board.Board) (w : World) :
  match board.LoadSettings b w with
  | Returns (_, _, w') => files w' = files w
  | Panics _ => True
  end.
Proof.
  unfold board.LoadSettings.
  destruct (LoadBoardSettings (board.home b) w) as [st|err]; [|reflexivity].
  unfold board.loadWampConfig.
  cbn [board.Status board.WampConfig board.Code board.Agent board.set_WampConfig
       board.set_Status].
  destruct (config.MainAgent _) as [agent|].
  - cbn [board.WampConfig board.Code board.set_WampConfig].
    destruct (String.eqb _ "<REGISTRATION-TOKEN>"); reflexivity.
  - destruct (board.registration_status _).
    + cbn [board.WampConfig board.Code board.set_WampConfig].
      destruct (config.RegistrationAgent _); [|exact I].
      destruct (String.eqb _ "<REGISTRATION-TOKEN>"); reflexivity.
    + cbn [board.Code board.set_Status].
      destruct (String.eqb _ "<REGISTRATION-TOKEN>"); reflexivity.
Qed.

(** C8, as stated, fails: first-boot detection and an endpoint-selection
    failure during a load change Status in memory only.  After the load the
    board says "first_boot" while the settings store still says "registered"
    (respectively "online"), and nothing was written. *)
Lemma LoadSettings_status_change_not_persisted :
  (let w := world_with_settings (settings0 "<REGISTRATION-TOKEN>" "registered") in
   exists b' w',
     board.LoadSettings board0 w = Returns (None, b', w') /\
     board.Status b' = "first_boot" /\
     persisted_status (board.home b') w' = Some "registered" /\
     files w' = files w) /\
  (let w := world_with_settings (settings0 "code-1" "online") in
   exists b' w',
     board.LoadSettings board0 w = Returns (None, b', w') /\
     board.Status b' = "first_boot" /\
     persisted_status (board.home b') w' = Some "online" /\
     files w' = files w).
Proof.
  split; cbn zeta; eexists _, _; vm_compute; repeat split.
Qed.

(** C8, amended. A change of Status through [UpdateStatus], on a board
    whose settings are loaded, is written through: when the call returns no
    error the Status in memory and the Status in the settings store are both
    the new one; when the write fails the error is returned and the Status
    in memory is the new one.  A load never writes to the store, so the
    Status changes it makes (first-boot detection, endpoint-selection
    failure) stay in memory. *)
Theorem status_write_through (status : string) (fault : option WriteFault)
    (b : board.Board) (w : World) (st : config.BoardSettings) :
  board.settings b = Some st ->
  match board.UpdateStatus status fault b w with
  | Returns (None, b', w') =>
      board.Status b' = status /\
      persisted_status (board.home b') w' = Some status
  | Returns (Some _, b', w') => board.Status b' = status
  | Panics _ => False
  end /\
  match board.LoadSettings b w with
  | Returns (_, _, w') => files w' = files w
  | Panics _ => True
  end.
Proof.
  intros Hst. split; [|apply LoadSettings_files].
  unfold board.UpdateStatus. cbn [board.settings board.set_Status]. rewrite Hst.
  unfold SaveBoardSettings, json_Marshal_settings.
  destruct (forallb _ _); [|reflexivity].
  unfold os_WriteFile. destruct fault as [f|]; [reflexivity|].
  split; [reflexivity|].
  unfold persisted_status, LoadBoardSettings, os_ReadFile. cbn [files store].
  rewrite lookup_insert_eq. reflexivity.
Qed.

Lemma status_write_through_witness :
  let w := world_with_settings (settings0 "code-1" "registered") in
  board.settings board1 = Some (settings0 "code-1" "registered") /\
  match board.UpdateStatus "online" None board1 w with
  | Returns (None, b', w') =>
      board.Status b' = "online" /\
      persisted_status (board.home b') w' = Some "online"
  | Returns (Some _, b', w') => board.Status b' = "online"
  | Panics _ => False
  end /\
  match board.LoadSettings board1 w with
  | Returns (_, _, w') => files w' = files w
  | Panics _ => True
  end.
Proof.
  cbn zeta. split; [reflexivity|].
  exact (status_write_through "online" None board1
           (world_with_settings (settings0 "code-1" "registered"))
           (settings0 "code-1" "registered") eq_refl).
Defined.

(** ** Argument handling of the two creation handlers *)



(** ** Capability names and the session *)

Lemma Register_procedures (proc : string) (env : wamp.Env) (c c' : wamp.Client)
    (w w' : World) :
  wamp.Register proc env c w = (None, c', w') ->
  wamp.procedures c' = (wamp.procedures c ++ [proc])%list.
Proof.
  unfold wamp.Register, wamp.procedures.
  destruct (wamp.connected c); [|discriminate].
  destruct (wamp.client c) as [cl|]; [|discriminate].
  destruct (wamp.register_err env proc); [discriminate|].
  intros [= <- _]. reflexivity.
Qed.

Lemma register_each_procedures (procs : list string) (env : wamp.Env) :
  forall (c c' : wamp.Client) (w w' : World),
    register_each procs env c w = (None, c', w') ->
    wamp.procedures c' = (wamp.procedures c ++ procs)%list.
Proof.
  induction procs as [|proc rest IH]; intros c c' w w'; simpl.
  - intros [= <- _]. symmetry. apply app_nil_r.
  - destruct (wamp.Register proc env c w) as [[[err|] c1] w1] eqn:Hreg;
      [discriminate|].
    intros Hrest. apply IH in Hrest.
    rewrite Hrest, (Register_procedures _ _ _ _ _ _ Hreg), <- app_assoc.
    reflexivity.
Qed.

(** A successful [Reconnect] always goes through a new connection. *)
Lemma Reconnect_success (env : wamp.Env) (c c' : wamp.Client)
    (b b' : board.Board) (w w' : World) :
  wamp.Reconnect env c b w = (None, c', b', w') ->
  exists id,
    wamp.connect env = inr id /\
    wamp.sessionID c' = id /\
    wamp.connected c' = true /\
    board.SessionID b' = fmt_d id /\
    board.UUID b' = board.UUID b /\
    wamp.procedures c' = [].
Proof.
  unfold wamp.Reconnect.
  destruct (wamp.Disconnect env c _) as [[derr c1] w1] eqn:Hd.
  assert (Hc1 : wamp.connected c1 = false).
  { unfold wamp.Disconnect in Hd.
    destruct (wamp.connected c) eqn:Hc; simpl in Hd; inversion Hd; subst;
      [reflexivity | exact Hc]. }
  unfold wamp.Connect. rewrite Hc1.
  destruct (_ || _); [discriminate|].
  destruct (wamp.connect env) as [err|id]; [discriminate|].
  intros [= <- <- _]. exists id. repeat split.
Qed.

(** C2, as stated, fails: the agent is started on session 7, where the ten
    capabilities are registered under that session; a reconnect then
    succeeds with session 9 and the board holds the new identifier, but no
    manager has registered anything: the new session has no procedure, in
    particular not iotronic.9.board-1.ExposeService. *)
Lemma Reconnect_registers_nothing :
  exists lr w,
    started = Some (lr, w) /\
    board.SessionID (lightningrod.board lr) = "7" /\
    wamp.procedures (lightningrod.wamp lr)
      = map (procedure_name (lightningrod.board lr))
          (device.verbs ++ service.verbs ++ webservice.verbs)%list /\
    "iotronic.7.board-1.ExposeService" ∈ wamp.procedures (lightningrod.wamp lr) /\
    exists lr' w',
      lightningrod.Reconnect (router 9) lr w = (None, lr', w') /\
      board.SessionID (lightningrod.board lr') = "9" /\
      wamp.connected (lightningrod.wamp lr') = true /\
      wamp.procedures (lightningrod.wamp lr') = [] /\
      ~ procedure_name (lightningrod.board lr') "ExposeService"
          ∈ wamp.procedures (lightningrod.wamp lr').
Proof.
  eexists _, _. split; [vm_compute; reflexivity|].
  split; [reflexivity|]. split; [reflexivity|].
  split; [apply list_elem_of_In; vm_compute; auto 10|].
  eexists _, _. split; [vm_compute; reflexivity|].
  split; [reflexivity|]. split; [reflexivity|]. split; [reflexivity|].
  cbn. apply not_elem_of_nil.
Qed.

(** C2, amended. A successful reconnect stores the identifier of the new
    session in the board and registers nothing: the new session starts with
    no procedure.  A registration step of a resource manager that is run on
    it afterwards registers exactly the manager's verbs under names built
    from that new identifier.  The managers run their registration step in
    [Start] only; [Reconnect] reaches neither of them. *)
Theorem registration_names_follow_session
    (env : wamp.Env) (c c' : wamp.Client) (b b' : board.Board) (w w' : World) :
  wamp.Reconnect env c b w = (None, c', b', w') ->
  exists id,
    wamp.connect env = inr id /\
    board.SessionID b' = fmt_d id /\
    wamp.procedures c' = [] /\
    let name verb :=
      "iotronic." +:+ fmt_d id +:+ "." +:+ board.UUID b +:+ "." +:+ verb in
    (forall renv c'' w'',
       service.registerRPCs renv b' c' w' = (None, c'', w'') ->
       wamp.procedures c''
       = [name "ExposeService"; name "UnexposeService"; name "ServicesList"]) /\
    (forall renv c'' w'',
       webservice.registerRPCs renv b' c' w' = (None, c'', w'') ->
       wamp.procedures c''
       = [name "EnableWebService"; name "DisableWebService";
          name "WebServicesList"; name "ProxyInfo"]).
Proof.
  intros Hre.
  destruct (Reconnect_success _ _ _ _ _ _ _ Hre)
    as (id & Hconn & _ & _ & Hsid & Huuid & Hprocs).
  exists id. split; [exact Hconn|]. split; [exact Hsid|].
  split; [exact Hprocs|]. cbn zeta.
  split; intros renv c'' w'' Hreg;
    apply register_each_procedures in Hreg;
    rewrite Hreg, Hprocs; unfold procedure_name; rewrite Hsid, Huuid;
    reflexivity.
Qed.

Lemma registration_names_follow_session_witness :
  wamp.Reconnect (router 9) (wamp.NewClient cfg0) board_primary world0
  = (None, reconnected.1.1.2, reconnected.1.2, reconnected.2) /\
  exists id,
    wamp.connect (router 9) = inr id /\
    board.SessionID reconnected.1.2 = fmt_d id /\
    wamp.procedures reconnected.1.1.2 = [] /\
    let name verb :=
      "iotronic." +:+ fmt_d id +:+ "." +:+ board.UUID board_primary
      +:+ "." +:+ verb in
    (forall renv c'' w'',
       service.registerRPCs renv reconnected.1.2 reconnected.1.1.2
         reconnected.2 = (None, c'', w'') ->
       wamp.procedures c''
       = [name "ExposeService"; name "UnexposeService"; name "ServicesList"]) /\
    (forall renv c'' w'',
       webservice.registerRPCs renv reconnected.1.2 reconnected.1.1.2
         reconnected.2 = (None, c'', w'') ->
       wamp.procedures c''
       = [name "EnableWebService"; name "DisableWebService";
          name "WebServicesList"; name "ProxyInfo"]).
Proof.
  assert (H : wamp.Reconnect (router 9) (wamp.NewClient cfg0) board_primary
                world0
              = (None, reconnected.1.1.2, reconnected.1.2, reconnected.2))
    by reflexivity.
  split; [exact H|].
  exact (registration_names_follow_session (router 9) (wamp.NewClient cfg0)
           reconnected.1.1.2 board_primary reconnected.1.2 world0
           reconnected.2 H).
Defined.

(** * Further properties of the code *)

(** ** Traces *)

Lemma elem_of_emit (e e' : event) (w : World) :
  e ∈ trace (emit e' w) <-> e ∈ trace w \/ e = e'.
Proof.
  unfold emit. cbn [trace]. rewrite elem_of_app, list_elem_of_singleton.
  reflexivity.
Qed.

Lemma elem_of_logf (e : event) (l : level) (msg : string) (w : World) :
  e ∈ trace (logf l msg w) <-> e ∈ trace w \/ e = Log l msg.
Proof. apply elem_of_emit. Qed.

(** ** The tunnel manager *)

(** What a call of [exposeService] does, by the state of the registry and
    the answers of the operating system. *)
Lemma exposeService_cases (n : string) (p : Z) (env : service.Env)
    (m m' : service.Manager) (w w' : World) (r : option error) :
  service.exposeService n p env m w = (r, m', w') ->
  (is_Some (service.services m !! n) /\
   r = Some ("service " +:+ n +:+ " already exposed") /\ m' = m /\ w' = w) \/
  (service.services m !! n = None /\
   exists err, service.start env = inl err /\
     r = Some ("failed to start wstun: " +:+ err) /\ m' = m /\ w' = w) \/
  (service.services m !! n = None /\
   exists pid, service.start env = inr pid /\
     r = None /\
     m' = service.set_services
            (<[n := exposed_entry m n p pid]> (service.services m)) m /\
     files w' = files (os_WriteFile (service.configPath m)
                         (ServicesJSON {| Services :=
                            <[n := exposed_entry m n p pid]>
                              (service.services m) |})
                         (service.write_fault env) w).2 /\
     (forall e, e ∈ trace w -> e ∈ trace w') /\
     (forall pid', Kill pid' ∈ trace w' -> Kill pid' ∈ trace w)).
Proof.
  unfold service.exposeService.
  destruct (service.services m !! n) as [svc|] eqn:Hn.
  - intros [= <- <- <-]. left. eauto.
  - destruct (service.start env) as [err|pid] eqn:Hst.
    + intros [= <- <- <-]. right. left. eauto 10.
    + intros H. right. right. split; [reflexivity|]. exists pid.
      split; [reflexivity|].
      revert H. unfold service.saveServicesConfig, os_WriteFile.
      destruct (service.write_fault env) as [[reason|reason written|reason]|];
        intros [= <- <- <-]; cbn [files trace logf emit service.set_services
                                  service.services service.cfg store snd];
        (split; [reflexivity|]); (split; [reflexivity|]);
        (split; [reflexivity|]); split; intros e;
        rewrite ?elem_of_app, ?list_elem_of_singleton;
        intuition discriminate.
Qed.

(** What a call of [stopService] does. *)
Lemma stopService_cases (n : string) (env : service.Env)
    (m m' : service.Manager) (w w' : World) (r : option error) :
  service.stopService n env m w = (r, m', w') ->
  (service.services m !! n = None /\
   r = Some ("service " +:+ n +:+ " not found") /\ m' = m /\ w' = w) \/
  (exists svc, service.services m !! n = Some svc /\
     r = None /\
     m' = service.set_services (delete n (service.services m)) m /\
     files w' = files (os_WriteFile (service.configPath m)
                         (ServicesJSON {| Services :=
                            delete n (service.services m) |})
                         (service.write_fault env) w).2 /\
     (forall e, e ∈ trace w -> e ∈ trace w') /\
     (forall pid, Kill pid ∈ trace w' <->
        Kill pid ∈ trace w \/
        pid = PID svc /\ 0 < pid /\ service.find_process_err env = None)).
Proof.
  unfold service.stopService.
  destruct (service.services m !! n) as [svc|] eqn:Hn.
  - intros H. right. exists svc. split; [reflexivity|]. revert H.
    unfold service.saveServicesConfig, os_WriteFile.
    destruct (0 <? PID svc) eqn:Hpos;
      [apply Z.ltb_lt in Hpos | apply Z.ltb_ge in Hpos];
      destruct (service.find_process_err env) as [fe|];
      destruct (service.kill_err env) as [ke|];
      destruct (service.write_fault env) as [[reason|reason written|reason]|];
      intros [= <- <- <-]; cbn [files trace logf emit service.set_services
                                service.services service.cfg store snd];
      (split; [reflexivity|]); (split; [reflexivity|]);
      (split; [reflexivity|]); split; intros e;
      rewrite ?elem_of_app, ?list_elem_of_singleton;
      try (intuition (try discriminate; try congruence; try lia); fail);
      (split; [intuition (try discriminate); right;
               match goal with H : Kill _ = Kill _ |- _ =>
                 injection H as -> end; auto
              | intros [?|(-> & ? & ?)]; auto; try lia; try discriminate ]).
  - intros [= <- <- <-]. left. auto.
Qed.

Lemma set_services_delete_insert (m : service.Manager) (n : string)
    (svc : ServiceInfo) :
  service.services m !! n = None ->
  service.set_services
    (delete n (<[n := svc]> (service.services m)))
    (service.set_services (<[n := svc]> (service.services m)) m) = m.
Proof.
  intros Habsent. destruct m. unfold service.set_services. cbn in *. f_equal.
  apply delete_insert_id. exact Habsent.
Qed.

(** X1. Exposing a name that is free and then unexposing it gives the
    manager back as it was: both calls succeed, the process that was
    started is the one that is killed, and a further unexpose of the name
    fails with the not-found error and changes nothing. *)
Theorem expose_unexpose_round_trip
    (n : string) (p pid : Z) (env1 env2 : service.Env)
    (m : service.Manager) (w : World) :
  service.services m !! n = None ->
  service.start env1 = inr pid ->
  let '(r1, m1, w1) := service.exposeService n p env1 m w in
  let '(r2, m2, w2) := service.unexposeService n env2 m1 w1 in
  r1 = None /\ r2 = None /\ m2 = m /\
  (0 < pid -> service.find_process_err env2 = None -> Kill pid ∈ trace w2) /\
  (forall pid', Kill pid' ∈ trace w2 -> Kill pid' ∈ trace w \/ pid' = pid) /\
  service.unexposeService n env2 m2 w2
  = (Some ("service " +:+ n +:+ " not found"), m2, w2).
Proof.
  intros Habsent Hstart.
  destruct (service.exposeService n p env1 m w) as [[r1 m1] w1] eqn:H1.
  apply exposeService_cases in H1.
  destruct H1 as [([x Hx] & _) | [(_ & err & He & _) |
    (_ & pid' & Hp & -> & -> & _ & _ & Hk1)]]; try congruence.
  assert (pid' = pid) as -> by congruence.
  unfold service.unexposeService.
  destruct (service.stopService n env2 _ w1) as [[r2 m2] w2] eqn:H2.
  apply stopService_cases in H2.
  cbn [service.services service.set_services] in H2.
  rewrite lookup_insert_eq in H2.
  destruct H2 as [(Hx & _) | (svc & Hs & -> & -> & _ & _ & Hk2)];
    [discriminate|].
  injection Hs as <-. cbn [PID exposed_entry] in Hk2.
  assert (Hm : service.set_services
                 (delete n (<[n := exposed_entry m n p pid]> (service.services m)))
                 (service.set_services
                    (<[n := exposed_entry m n p pid]> (service.services m)) m)
               = m) by (apply set_services_delete_insert; exact Habsent).
  split; [reflexivity|]. split; [reflexivity|]. split; [exact Hm|].
  split; [|split].
  - intros Hpos Hfind. apply Hk2. auto.
  - intros pid' Hin. apply Hk2 in Hin. destruct Hin as [Hin|(-> & _)]; auto.
  - rewrite Hm. unfold service.stopService. rewrite Habsent. reflexivity.
Qed.

Lemma expose_unexpose_round_trip_witness :
  service.services service0 !! "web" = None /\
  service.start (service_env_ok 4242) = inr 4242 /\
  let '(r1, m1, w1) :=
    service.exposeService "web" 8080 (service_env_ok 4242) service0 world0 in
  let '(r2, m2, w2) :=
    service.unexposeService "web" (service_env_ok 1) m1 w1 in
  r1 = None /\ r2 = None /\ m2 = service0 /\
  (0 < 4242 -> service.find_process_err (service_env_ok 1) = None ->
   Kill 4242 ∈ trace w2) /\
  (forall pid', Kill pid' ∈ trace w2 ->
     Kill pid' ∈ trace world0 \/ pid' = 4242) /\
  service.unexposeService "web" (service_env_ok 1) m2 w2
  = (Some ("service " +:+ "web" +:+ " not found"), m2, w2).
Proof.
  split; [reflexivity | split; [reflexivity |]].
  exact (expose_unexpose_round_trip "web" 8080 4242 (service_env_ok 4242)
           (service_env_ok 1) service0 world0 eq_refl eq_refl).
Defined.

(** X2. [exposeService] is all or nothing: a call that returns an error
    has changed neither the manager nor the world, and a call that returns
    no error has added the entry of the name to a registry that did not
    hold it and has changed no other entry. *)
Theorem exposeService_all_or_nothing
    (n : string) (p : Z) (env : service.Env) (m : service.Manager) (w : World) :
  let '(r, m', w') := service.exposeService n p env m w in
  (is_Some r -> m' = m /\ w' = w) /\
  (r = None ->
   service.services m !! n = None /\
   exists pid, service.start env = inr pid /\
     service.services m' !! n = Some (exposed_entry m n p pid)) /\
  (forall n', n' <> n ->
     service.services m' !! n' = service.services m !! n').
Proof.
  destruct (service.exposeService n p env m w) as [[r m'] w'] eqn:H.
  apply exposeService_cases in H.
  destruct H as [(_ & -> & -> & ->) | [(_ & err & _ & -> & -> & ->) |
    (Hn & pid & Hp & -> & -> & _)]].
  - split; [auto|]. split; [discriminate|]. reflexivity.
  - split; [auto|]. split; [discriminate|]. reflexivity.
  - split; [intros [x Hx]; discriminate|]. split.
    + intros _. split; [exact Hn|]. exists pid. split; [exact Hp|].
      apply lookup_insert_eq.
    + intros n' Hne. cbn [service.services service.set_services].
      apply lookup_insert_ne. congruence.
Qed.

(** X3. When the disk accepts the write, [exposeService] and
    [unexposeService] keep services.json equal to the registry in memory:
    if the two agree before the call they agree after it, whatever the
    arguments and whether the call succeeds or fails. *)
Theorem services_synced_preserved
    (n : string) (p : Z) (env : service.Env) (m : service.Manager) (w : World) :
  service.write_fault env = None ->
  services_synced m w ->
  (let '(_, m', w') := service.exposeService n p env m w in
   services_synced m' w') /\
  (let '(_, m', w') := service.unexposeService n env m w in
   services_synced m' w').
Proof.
  intros Hwrite Hsync. split.
  - destruct (service.exposeService n p env m w) as [[r m'] w'] eqn:H.
    apply exposeService_cases in H.
    destruct H as [(_ & _ & -> & ->) | [(_ & err & _ & _ & -> & ->) |
      (_ & pid & _ & _ & -> & Hf & _)]]; try exact Hsync.
    unfold services_synced. rewrite Hf, Hwrite. apply lookup_insert_eq.
  - unfold service.unexposeService.
    destruct (service.stopService n env m w) as [[r m'] w'] eqn:H.
    apply stopService_cases in H.
    destruct H as [(_ & _ & -> & ->) | (svc & _ & _ & -> & Hf & _)];
      try exact Hsync.
    unfold services_synced. rewrite Hf, Hwrite. apply lookup_insert_eq.
Qed.

Lemma services_synced_preserved_witness :
  service.write_fault (service_env_ok 4242) = None /\
  services_synced service0 world_services_empty /\
  (let '(_, m', w') :=
     service.exposeService "web" 8080 (service_env_ok 4242) service0
       world_services_empty in
   services_synced m' w') /\
  (let '(_, m', w') :=
     service.unexposeService "web" (service_env_ok 4242) service0
       world_services_empty in
   services_synced m' w').
Proof.
  split; [reflexivity | split; [reflexivity |]].
  exact (services_synced_preserved "web" 8080 (service_env_ok 4242) service0
           world_services_empty eq_refl eq_refl).
Defined.

(** X4. The registry survives a restart: what [saveServicesConfig] writes,
    [loadServicesConfig] reads back into any manager of the same
    configuration, without touching the world.  When services.json does
    not exist the load creates it from the manager's registry, and when it
    holds something that is not JSON the load fails and changes nothing. *)
Theorem services_save_then_load
    (m m0 : service.Manager) (fault : option WriteFault) (w : World) :
  service.cfg m0 = service.cfg m ->
  (let '(e1, w1) := service.saveServicesConfig None m w in
   let '(e2, m2, w2) := service.loadServicesConfig fault m0 w1 in
   e1 = None /\ e2 = None /\
   service.services m2 = service.services m /\ w2 = w1) /\
  (files w !! service.configPath m = None ->
   let '(e, m', w') := service.loadServicesConfig None m w in
   e = None /\ m' = m /\ services_synced m' w') /\
  (forall text, files w !! service.configPath m = Some (Bytes text) ->
   exists err, service.loadServicesConfig fault m w = (Some err, m, w)).
Proof.
  intros Hcfg. split; [|split].
  - rewrite saveServicesConfig_written.
    unfold service.loadServicesConfig, os_ReadFile, service.configPath.
    rewrite Hcfg. cbn [files]. rewrite lookup_insert_eq.
    cbn [service.json_Unmarshal_services Services service.services
         service.set_services].
    auto.
  - intros Hnone. unfold service.loadServicesConfig, os_ReadFile.
    rewrite Hnone. cbn [os_IsNotExist]. rewrite saveServicesConfig_written.
    split; [reflexivity|]. split; [reflexivity|].
    unfold services_synced. cbn [files]. apply lookup_insert_eq.
  - intros text Htext. unfold service.loadServicesConfig, os_ReadFile.
    rewrite Htext. cbn. eauto.
Qed.

Lemma services_save_then_load_witness :
  service.cfg service0 = service.cfg service_web /\
  let '(e1, w1) := service.saveServicesConfig None service_web world0 in
  let '(e2, m2, w2) := service.loadServicesConfig None service0 w1 in
  e1 = None /\ e2 = None /\
  service.services m2 = service.services service_web /\ w2 = w1.
Proof.
  split; [reflexivity|].
  exact (proj1 (services_save_then_load service_web service0 None world0
                  eq_refl)).
Defined.

(** The loop of [Stop], by induction on the names it visits. *)
Lemma stop_each_spec (env : string -> service.Env) (names : list string) :
  forall (m m' : service.Manager) (w w' : World),
    service.stop_each names env m w = (m', w') ->
    service.cfg m' = service.cfg m /\
    (forall k, service.services m' !! k
               = if decide (k ∈ names) then None else service.services m !! k) /\
    (forall e, e ∈ trace w -> e ∈ trace w') /\
    (forall k svc, k ∈ names -> service.services m !! k = Some svc ->
       0 < PID svc -> service.find_process_err (env k) = None ->
       Kill (PID svc) ∈ trace w') /\
    ((forall k, service.write_fault (env k) = None) ->
     services_synced m w -> services_synced m' w').
Proof.
  induction names as [|name rest IH]; intros m m' w w'; cbn [service.stop_each].
  - intros [= <- <-]. split; [reflexivity|]. split.
    + intros k. destruct (decide (k ∈ [])) as [Hin|_]; [|reflexivity].
      apply elem_of_nil in Hin. destruct Hin.
    + split; [auto|]. split; [|auto].
      intros k svc Hin. apply elem_of_nil in Hin. destruct Hin.
  - destruct (service.stopService name (env name) m w) as [[r m1] w1] eqn:Hstop.
    apply stopService_cases in Hstop.
    destruct Hstop as [(Hnone & -> & -> & ->) |
      (svc & Hsvc & -> & -> & Hfiles & Hmono & Hkill)].
    + intros Hrest. apply IH in Hrest.
      destruct Hrest as (Hcfg & Hlook & Hmono & Hkill & Hsync).
      split; [exact Hcfg|]. split; [|split; [|split]].
      * intros k. rewrite Hlook.
        destruct (decide (k ∈ rest)) as [Hin|Hout];
          destruct (decide (k ∈ name :: rest)) as [Hin'|Hout'];
          try reflexivity.
        -- exfalso. apply Hout'. right. exact Hin.
        -- apply elem_of_cons in Hin'. destruct Hin' as [->|Hin']; [|tauto].
           exact Hnone.
      * intros e He. apply Hmono, elem_of_logf. auto.
      * intros k svc Hin Hk. apply elem_of_cons in Hin.
        destruct Hin as [->|Hin]; [congruence|]. eauto.
      * intros Hw Hs. apply Hsync; assumption.
    + intros Hrest. apply IH in Hrest.
      cbn [service.services service.set_services service.cfg] in Hrest.
      destruct Hrest as (Hcfg & Hlook & Hmono' & Hkill' & Hsync).
      split; [exact Hcfg|]. split; [|split; [|split]].
      * intros k. rewrite Hlook.
        destruct (decide (k ∈ rest)) as [Hin|Hout];
          destruct (decide (k ∈ name :: rest)) as [Hin'|Hout'];
          try reflexivity.
        -- exfalso. apply Hout'. right. exact Hin.
        -- apply elem_of_cons in Hin'. destruct Hin' as [->|Hin']; [|tauto].
           apply lookup_delete_eq.
        -- apply lookup_delete_ne. intros ->. apply Hout'. left.
      * auto.
      * intros k svc' Hin Hk Hpos Hfind. apply elem_of_cons in Hin.
        destruct (decide (k = name)) as [->|Hne].
        -- apply Hmono', Hkill. right.
           assert (svc' = svc) as -> by congruence. auto.
        -- destruct Hin as [->|Hin]; [congruence|].
           apply (Hkill' k svc' Hin); try assumption.
           rewrite lookup_delete_ne by congruence. exact Hk.
      * intros Hw Hs. apply Hsync; [exact Hw|].
        unfold services_synced. rewrite Hfiles, (Hw name).
        apply lookup_insert_eq.
Qed.

(** X5. Shutdown of the tunnel manager returns no error and leaves the
    registry empty; the process of every entry with a positive process id
    is killed when the operating system finds it; and when services.json
    agreed with the registry and the disk accepts the writes, services.json
    ends as the empty registry. *)
Theorem service_Stop_empties_registry
    (env : string -> service.Env) (m : service.Manager) (w : World) :
  let '(r, m', w') := service.Stop env m w in
  r = None /\
  service.services m' = ∅ /\
  (forall k svc, service.services m !! k = Some svc -> 0 < PID svc ->
     service.find_process_err (env k) = None -> Kill (PID svc) ∈ trace w') /\
  ((forall k, service.write_fault (env k) = None) -> services_synced m w ->
   files w' !! service.configPath m = Some (ServicesJSON {| Services := ∅ |})).
Proof.
  unfold service.Stop.
  destruct (service.stop_each _ env m _) as [m' w'] eqn:Hloop.
  apply stop_each_spec in Hloop.
  destruct Hloop as (Hcfg & Hlook & _ & Hkill & Hsync).
  assert (Hkeys : forall k svc, service.services m !! k = Some svc ->
                    k ∈ map fst (map_to_list (service.services m))).
  { intros k svc Hk. apply list_elem_of_fmap. exists (k, svc).
    split; [reflexivity|]. apply elem_of_map_to_list. exact Hk. }
  assert (Hempty : service.services m' = ∅).
  { apply map_empty. intros k. rewrite Hlook.
    destruct (decide (k ∈ _)) as [_|Hout]; [reflexivity|].
    destruct (service.services m !! k) as [svc|] eqn:Hk; [|reflexivity].
    exfalso. apply Hout. eapply Hkeys. exact Hk. }
  split; [reflexivity|]. split; [exact Hempty|]. split.
  - intros k svc Hk Hpos Hfind. apply (Hkill k svc); eauto.
  - intros Hw Hs. specialize (Hsync Hw Hs). unfold services_synced in Hsync.
    unfold service.configPath in *. rewrite Hcfg, Hempty in Hsync.
    exact Hsync.
Qed.

(** X6. Every reply of the four handlers that change a registry is a
    SUCCESS or an ERROR record, and an ERROR reply means that the registry
    is as before the call; for the tunnel handlers and for
    DisableWebService the files are as before too. *)
Theorem handlers_error_means_unchanged
    (args : list any) (senv : service.Env) (sm : service.Manager)
    (wenv : webservice.Env) (wm : webservice.Manager) (w : World) :
  (let '(r, sm', w') := service.handleExposeService args senv sm w in
   (exists msg, r = reply "SUCCESS" msg) \/
   (exists msg, r = reply "ERROR" msg) /\ sm' = sm /\ files w' = files w) /\
  (let '(r, sm', w') := service.handleUnexposeService args senv sm w in
   (exists msg, r = reply "SUCCESS" msg) \/
   (exists msg, r = reply "ERROR" msg) /\ sm' = sm /\ files w' = files w) /\
  (let '(r, wm', w') := webservice.handleEnableWebService args wenv wm w in
   (exists msg, r = reply "SUCCESS" msg) \/
   (exists msg, r = reply "ERROR" msg) /\ wm' = wm) /\
  (let '(r, wm', w') := webservice.handleDisableWebService args wenv wm w in
   (exists msg, r = reply "SUCCESS" msg) \/
   (exists msg, r = reply "ERROR" msg) /\ wm' = wm /\ files w' = files w).
Proof.
  split; [|split; [|split]].
  - unfold service.handleExposeService.
    destruct args as [|a0 [|a1 rest]]; try (right; eauto; fail).
    destruct (assert_string a0) as [name [|]]; [|right; eauto].
    destruct (assert_float64 a1) as [port [|]]; [|right; eauto].
    destruct (service.exposeService _ _ _ _ _) as [[r m'] w'] eqn:H.
    apply exposeService_cases in H.
    destruct H as [(_ & -> & -> & ->) | [(_ & err & _ & -> & -> & ->) |
      (_ & pid & _ & -> & _)]]; [right; eauto | right; eauto | left; eauto].
  - unfold service.handleUnexposeService.
    destruct args as [|a0 rest]; [right; eauto|].
    destruct (assert_string a0) as [name [|]]; [|right; eauto].
    unfold service.unexposeService.
    destruct (service.stopService _ _ _ _) as [[r m'] w'] eqn:H.
    apply stopService_cases in H.
    destruct H as [(_ & -> & -> & ->) | (svc & _ & -> & _)];
      [right; eauto | left; eauto].
  - unfold webservice.handleEnableWebService.
    destruct args as [|a0 [|a1 [|a2 rest]]]; try (right; eauto; fail).
    destruct (assert_string a0) as [name ?].
    destruct (assert_float64 a1) as [lp ?].
    destruct (assert_float64 a2) as [pp ?].
    unfold webservice.enableWebService.
    destruct (webservice.webservices wm !! name); [right; eauto|].
    destruct (os_WriteFile _ _ _ _) as [[e|] w1]; [right; eauto|].
    destruct (webservice.reloadNginx wenv w1) as [[e|] w2].
    + destruct (os_Remove _ _ w2). right. eauto.
    + left. eauto.
  - unfold webservice.handleDisableWebService.
    destruct args as [|a0 rest]; [right; eauto|].
    destruct (assert_string a0) as [name ?].
    unfold webservice.disableWebService, webservice.removeWebService.
    destruct (webservice.webservices wm !! name); [|right; eauto].
    destruct (os_Remove _ _ _) as [rerr w1].
    destruct (webservice.reloadNginx wenv _) as [lerr w2].
    left. eauto.
Qed.

(** ** The reverse-proxy manager *)

Lemma split_slash_no_slash (s : string) :
  has_slash s = false -> split_slash s = [s].
Proof.
  induction s as [|c r IH]; [reflexivity|]. cbn.
  destruct (Ascii.eqb c "/"); [discriminate|]. cbn. intros H.
  rewrite (IH H). reflexivity.
Qed.

Lemma split_slash_app (s t : string) :
  has_slash s = false ->
  split_slash (s +:+ "/" +:+ t) = s :: split_slash t.
Proof.
  induction s as [|c r IH]; [reflexivity|]. intros H. cbn in H.
  destruct (Ascii.eqb c "/") eqn:Hc; [discriminate|]. cbn in H.
  change (String c r +:+ "/" +:+ t) with (String c (r +:+ "/" +:+ t)).
  cbn [split_slash]. rewrite Hc, (IH H). reflexivity.
Qed.

Lemma has_slash_app (a b : string) :
  has_slash (a +:+ b) = has_slash a || has_slash b.
Proof.
  induction a as [|c r IH]; [reflexivity|].
  change (String c r +:+ b) with (String c (r +:+ b)).
  cbn [has_slash]. rewrite IH. apply orb_assoc.
Qed.

Lemma confPath_plain (name : string) :
  has_slash name = false ->
  webservice.confPath name = "/etc/nginx/conf.d/lr_" +:+ name +:+ ".conf".
Proof.
  intros H. unfold webservice.confPath, filepath_Join, webservice.nginxConfDir.
  cbn [filter list_filter].
  destruct (decide ("/etc/nginx/conf.d" <> "")) as [_|Hc];
    [|exfalso; apply Hc; discriminate].
  destruct (decide ("lr_" +:+ name +:+ ".conf" <> "")) as [_|Hc];
    [|exfalso; apply Hc; discriminate].
  set (X := "lr_" +:+ name +:+ ".conf").
  assert (HX : has_slash X = false).
  { unfold X. rewrite !has_slash_app, H. reflexivity. }
  assert (Hne : String.eqb X "" = false /\ String.eqb X "." = false
                /\ String.eqb X ".." = false) by (repeat split).
  destruct Hne as (H0 & H1 & H2).
  change (String.concat "/" ["/etc/nginx/conf.d"; X])
    with ("" +:+ "/" +:+ ("etc" +:+ "/" +:+ ("nginx" +:+ "/"
          +:+ ("conf.d" +:+ "/" +:+ X)))).
  unfold filepath_Clean.
  rewrite !split_slash_app by reflexivity.
  rewrite (split_slash_no_slash X HX).
  cbn [clean_elems String.eqb Ascii.eqb Bool.eqb orb andb].
  rewrite H0, H1, H2. reflexivity.
Qed.

Lemma append_length (a b : string) :
  String.length (a +:+ b) = (String.length a + String.length b)%nat.
Proof.
  induction a as [|c r IH]; [reflexivity|].
  change (String c r +:+ b) with (String c (r +:+ b)). cbn. now rewrite IH.
Qed.

Lemma append_inj_r (s : string) : forall a b, a +:+ s = b +:+ s -> a = b.
Proof.
  induction a as [|c a IH]; intros [|d b] H.
  - reflexivity.
  - apply (f_equal String.length) in H.
    rewrite !append_length in H. cbn [String.length] in H. lia.
  - apply (f_equal String.length) in H.
    rewrite !append_length in H. cbn [String.length] in H. lia.
  - change (String c a +:+ s) with (String c (a +:+ s)) in H.
    change (String d b +:+ s) with (String d (b +:+ s)) in H.
    injection H as -> H. f_equal. apply IH. exact H.
Qed.

Lemma confPath_inj (n1 n2 : string) :
  has_slash n1 = false -> has_slash n2 = false ->
  webservice.confPath n1 = webservice.confPath n2 -> n1 = n2.
Proof.
  intros H1 H2. rewrite !confPath_plain by assumption. intros H.
  apply (inj (String.append "/etc/nginx/conf.d/lr_")) in H.
  apply append_inj_r in H. exact H.
Qed.

Lemma reloadNginx_trace (env : webservice.Env) (w : World) :
  trace (webservice.reloadNginx env w).2 = (trace w ++ nginx_runs env)%list.
Proof.
  unfold webservice.reloadNginx, nginx_runs.
  destruct (webservice.nginx_test env); cbn [snd trace emit];
    [reflexivity|].
  destruct (webservice.nginx_reload env); cbn [snd trace emit];
    rewrite <- app_assoc; reflexivity.
Qed.

Lemma reloadNginx_result (env : webservice.Env) (w : World) :
  (webservice.reloadNginx env w).1 = None
  <-> webservice.nginx_test env = None /\ webservice.nginx_reload env = None.
Proof.
  unfold webservice.reloadNginx.
  destruct (webservice.nginx_test env); cbn; [intuition discriminate|].
  destruct (webservice.nginx_reload env); cbn; intuition discriminate.
Qed.

(** What a call of [enableWebService] does. *)
Lemma enableWebService_cases (name : string) (lp pp : Z) (env : webservice.Env)
    (m m' : webservice.Manager) (w w' : World) (r : option error) :
  webservice.enableWebService name lp pp env m w = (r, m', w') ->
  (is_Some (webservice.webservices m !! name) /\
   r = Some ("webservice " +:+ name +:+ " already enabled") /\
   m' = m /\ w' = w) \/
  (webservice.webservices m !! name = None /\
   exists f, webservice.write_fault env = Some f /\ is_Some r /\ m' = m /\
     w' = (os_WriteFile (webservice.confPath name)
             (Bytes (webservice.nginxConf pp lp)) (Some f) w).2) \/
  (webservice.webservices m !! name = None /\
   webservice.write_fault env = None /\
   (is_Some (webservice.nginx_test env)
    \/ is_Some (webservice.nginx_reload env)) /\
   is_Some r /\ m' = m /\
   files w' = match webservice.remove_fault env with
              | Some _ => <[webservice.confPath name :=
                             Bytes (webservice.nginxConf pp lp)]> (files w)
              | None => delete (webservice.confPath name) (files w)
              end /\
   trace w' = (trace w ++ nginx_runs env)%list) \/
  (webservice.webservices m !! name = None /\
   webservice.write_fault env = None /\
   webservice.nginx_test env = None /\ webservice.nginx_reload env = None /\
   r = None /\
   m' = webservice.set_webservices
          (<[name := enabled_entry name lp pp]> (webservice.webservices m)) m /\
   files w' = <[webservice.confPath name := Bytes (webservice.nginxConf pp lp)]>
                (files w) /\
   exists msg, trace w'
               = (trace w ++ nginx_runs env ++ [Log InfoLevel msg])%list).
Proof.
  unfold webservice.enableWebService.
  destruct (webservice.webservices m !! name) as [ws|] eqn:Hn.
  - intros [= <- <- <-]. left. eauto.
  - destruct (webservice.write_fault env) as [f|] eqn:Hw.
    + unfold os_WriteFile at 1. intros [= <- <- <-]. right. left.
      split; [reflexivity|]. exists f. eauto.
    + unfold os_WriteFile.
      match goal with
      | |- context [webservice.reloadNginx env ?w1] =>
          pose proof (reloadNginx_trace env w1) as Htr;
          pose proof (reloadNginx_files env w1) as Hf;
          pose proof (reloadNginx_result env w1) as Hres;
          destruct (webservice.reloadNginx env w1) as [[err|] w2]
      end; cbn [fst snd files trace store] in *.
      * unfold os_Remove.
        destruct (webservice.remove_fault env) as [refusal|];
          [|rewrite Hf, lookup_insert_eq];
          intros [= <- <- <-]; right; right; left; cbn [files trace];
          (split; [reflexivity|]); (split; [reflexivity|]);
          (split;
           [destruct (webservice.nginx_test env); [left; eauto|];
            destruct (webservice.nginx_reload env); [right; eauto|];
            destruct Hres as [_ Hres];
            discriminate (Hres (conj eq_refl eq_refl))|]);
          (split; [eauto|]); (split; [reflexivity|]).
        -- split; [exact Hf | exact Htr].
        -- split; [apply delete_insert_eq | exact Htr].
      * intros [= <- <- <-]. right. right. right.
        destruct Hres as [Hres _]. destruct (Hres eq_refl) as [Ht Hr].
        cbn [files trace logf emit]. rewrite Hf, Htr, <- app_assoc.
        repeat (split; [reflexivity || assumption|]). eauto.
Qed.

(** What a call of [removeWebService] does. *)
Lemma removeWebService_cases (name : string) (env : webservice.Env)
    (m m' : webservice.Manager) (w w' : World) (r : option error) :
  webservice.removeWebService name env m w = (r, m', w') ->
  (webservice.webservices m !! name = None /\
   r = Some ("webservice " +:+ name +:+ " not found") /\ m' = m /\ w' = w) \/
  (is_Some (webservice.webservices m !! name) /\
   r = None /\
   m' = webservice.set_webservices
          (delete name (webservice.webservices m)) m /\
   files w' = match webservice.remove_fault env with
              | Some _ => files w
              | None => delete (webservice.confPath name) (files w)
              end /\
   exists logs,
     trace w' = (trace w ++ removal_warning name env
                 ++ nginx_runs env ++ logs)%list /\
     Forall is_log logs).
Proof.
  unfold webservice.removeWebService.
  destruct (webservice.webservices m !! name) as [ws|] eqn:Hn.
  - destruct (os_Remove (webservice.confPath name) (webservice.remove_fault env)
                w) as [rerr w0] eqn:Hrm.
    match goal with
    | |- context [webservice.reloadNginx env ?w1] =>
        assert (Hw1 : files w1
                      = match webservice.remove_fault env with
                        | Some _ => files w
                        | None => delete (webservice.confPath name) (files w)
                        end
                      /\ trace w1 = (trace w ++ removal_warning name env)%list);
        [|destruct Hw1 as (Hf1 & Ht1);
          pose proof (reloadNginx_trace env w1) as Htr;
          pose proof (reloadNginx_files env w1) as Hf;
          destruct (webservice.reloadNginx env w1) as [lerr w2]]
    end.
    { unfold os_Remove in Hrm. unfold removal_warning.
      destruct (webservice.remove_fault env) as [refusal|];
        [|destruct (files w !! webservice.confPath name) eqn:Hfile];
        inversion Hrm; subst;
        cbn [os_IsNotExist negb files trace logf emit];
        rewrite ?app_nil_r; split; try reflexivity.
      symmetry. apply delete_id. exact Hfile. }
    cbn [fst snd] in *.
    intros [= <- <- <-]. right. split; [eauto|]. split; [reflexivity|].
    split; [reflexivity|]. split.
    + destruct lerr; cbn [files logf emit]; rewrite Hf; exact Hf1.
    + destruct lerr as [e|]; cbn [trace logf emit]; rewrite Htr, Ht1.
      * exists [Log WarnLevel ("Failed to reload nginx: " +:+ e);
                Log InfoLevel ("Webservice " +:+ name +:+ " disabled")].
        split; [rewrite <- !app_assoc; reflexivity|].
        repeat constructor; red; eauto.
      * exists [Log InfoLevel ("Webservice " +:+ name +:+ " disabled")].
        split; [rewrite <- !app_assoc; reflexivity|].
        repeat constructor; red; eauto.
  - intros [= <- <- <-]. left. auto.
Qed.

(** X7. Enabling a route whose name is free and whose artifact is not on
    disk, with a proxy that accepts it, and then disabling it gives the
    manager back as it was, whatever the operating system and nginx answer
    to the second call.  The files are as they were when the removal of the
    artifact is carried out; when it is refused the artifact stays. *)
Theorem enable_disable_round_trip
    (name : string) (localPort publicPort : Z) (env1 env2 : webservice.Env)
    (m : webservice.Manager) (w : World) :
  webservice.webservices m !! name = None ->
  files w !! webservice.confPath name = None ->
  webservice.write_fault env1 = None ->
  webservice.nginx_test env1 = None ->
  webservice.nginx_reload env1 = None ->
  let '(r1, m1, w1) :=
    webservice.enableWebService name localPort publicPort env1 m w in
  let '(r2, m2, w2) := webservice.disableWebService name env2 m1 w1 in
  r1 = None /\ r2 = None /\ m2 = m /\
  files w1 !! webservice.confPath name
  = Some (Bytes (webservice.nginxConf publicPort localPort)) /\
  (webservice.remove_fault env2 = None -> files w2 = files w) /\
  (is_Some (webservice.remove_fault env2) -> files w2 = files w1).
Proof.
  intros Habsent Hfile Hwrite Htest Hreload.
  destruct (webservice.enableWebService _ _ _ env1 m w) as [[r1 m1] w1] eqn:H1.
  apply enableWebService_cases in H1.
  destruct H1 as [([x Hx] & _) | [(_ & f & Hf & _) |
    [(_ & _ & [[x Hx]|[x Hx]] & _) |
     (_ & _ & _ & _ & -> & -> & Hf1 & _)]]]; try congruence.
  unfold webservice.disableWebService.
  destruct (webservice.removeWebService name env2 _ w1) as [[r2 m2] w2] eqn:H2.
  apply removeWebService_cases in H2.
  cbn [webservice.webservices webservice.set_webservices] in H2.
  rewrite lookup_insert_eq in H2.
  destruct H2 as [(Hx & _) | (_ & -> & -> & Hf2 & _)]; [discriminate|].
  split; [reflexivity|]. split; [reflexivity|].
  split; [|split; [|split]].
  - destruct m. unfold webservice.set_webservices. cbn in *. f_equal.
    apply delete_insert_id. exact Habsent.
  - rewrite Hf1. apply lookup_insert_eq.
  - intros Hrm. rewrite Hrm in Hf2. rewrite Hf2, Hf1.
    apply delete_insert_id. exact Hfile.
  - intros [x Hx]. rewrite Hx in Hf2. exact Hf2.
Qed.

Lemma enable_disable_round_trip_witness :
  webservice.webservices webservice0 !! "api" = None /\
  files world0 !! webservice.confPath "api" = None /\
  webservice.write_fault webservice_env_ok = None /\
  webservice.nginx_test webservice_env_ok = None /\
  webservice.nginx_reload webservice_env_ok = None /\
  let '(r1, m1, w1) :=
    webservice.enableWebService "api" 3000 9000 webservice_env_ok
      webservice0 world0 in
  let '(r2, m2, w2) :=
    webservice.disableWebService "api" webservice_env_bad_test m1 w1 in
  r1 = None /\ r2 = None /\ m2 = webservice0 /\
  files w1 !! webservice.confPath "api"
  = Some (Bytes (webservice.nginxConf 9000 3000)) /\
  (webservice.remove_fault webservice_env_bad_test = None ->
   files w2 = files world0) /\
  (is_Some (webservice.remove_fault webservice_env_bad_test) ->
   files w2 = files w1).
Proof.
  split; [reflexivity|]. split; [reflexivity|]. split; [reflexivity|].
  split; [reflexivity|]. split; [reflexivity|].
  exact (enable_disable_round_trip "api" 3000 9000 webservice_env_ok
           webservice_env_bad_test webservice0 world0
           eq_refl eq_refl eq_refl eq_refl eq_refl).
Defined.

(** X8. For a name without a path separator the proxy configuration of a
    route is the file lr_<name>.conf of the nginx configuration directory,
    and two such names never share their file. *)
Theorem confPath_of_plain_name (name : string) :
  has_slash name = false ->
  webservice.confPath name = "/etc/nginx/conf.d/lr_" +:+ name +:+ ".conf" /\
  (forall other, has_slash other = false ->
     webservice.confPath other = webservice.confPath name -> other = name).
Proof.
  intros H. split; [apply confPath_plain; exact H|].
  intros other Ho Heq. apply confPath_inj; assumption.
Qed.

Lemma confPath_of_plain_name_witness :
  has_slash "api" = false /\
  webservice.confPath "api" = "/etc/nginx/conf.d/lr_" +:+ "api" +:+ ".conf" /\
  (forall other, has_slash other = false ->
     webservice.confPath other = webservice.confPath "api" -> other = "api").
Proof.
  split; [reflexivity|]. exact (confPath_of_plain_name "api" eq_refl).
Defined.

(** X9. Files and entries of the routes, for calls of [enableWebService]
    and [disableWebService] on a name without a path separator.  That every
    registered route has its proxy configuration on disk is kept by every
    call, whatever the ports and whatever the operating system and nginx
    answer.  The converse, and so the invariant that a route is registered
    exactly when its proxy configuration is on disk, is kept when the write
    of the artifact goes through or fails before the file is opened and the
    removal is not refused. *)
Theorem artifacts_match_preserved
    (name : string) (localPort publicPort : Z) (env : webservice.Env)
    (m : webservice.Manager) (w : World) :
  has_slash name = false ->
  (entries_have_artifacts m w ->
   (let '(_, m', w') :=
      webservice.enableWebService name localPort publicPort env m w in
    entries_have_artifacts m' w') /\
   (let '(_, m', w') := webservice.disableWebService name env m w in
    entries_have_artifacts m' w')) /\
  (artifacts_match m w ->
   clean_write (webservice.write_fault env) ->
   webservice.remove_fault env = None ->
   (let '(_, m', w') :=
      webservice.enableWebService name localPort publicPort env m w in
    artifacts_match m' w') /\
   (let '(_, m', w') := webservice.disableWebService name env m w in
    artifacts_match m' w')).
Proof.
  intros Hname.
  assert (Hother : forall n, has_slash n = false -> n <> name ->
                     webservice.confPath n <> webservice.confPath name).
  { intros n Hn Hne Heq. apply Hne. apply confPath_inj; auto. }
  split.
  - intros Hinv. split.
    + destruct (webservice.enableWebService _ _ _ env m w) as [[r m'] w'] eqn:H.
      apply enableWebService_cases in H.
      destruct H as [(_ & _ & -> & ->) | [(Hn & f & Hf & _ & -> & ->) |
        [(Hn & _ & _ & _ & -> & Hf & _) |
         (_ & _ & _ & _ & _ & -> & Hf & _)]]]; try exact Hinv.
      * intros n Hslash Hreg.
        destruct (decide (n = name)) as [->|Hne].
        -- rewrite Hn in Hreg. destruct Hreg; discriminate.
        -- erewrite os_WriteFile_other; [apply Hinv; assumption| |auto].
           apply surjective_pairing.
      * intros n Hslash Hreg.
        destruct (decide (n = name)) as [->|Hne].
        -- rewrite Hn in Hreg. destruct Hreg; discriminate.
        -- rewrite Hf. destruct (webservice.remove_fault env);
             [rewrite lookup_insert_ne by (apply not_eq_sym; auto)
             |rewrite lookup_delete_ne by (apply not_eq_sym; auto)];
             apply Hinv; assumption.
      * intros n Hslash. rewrite Hf.
        cbn [webservice.webservices webservice.set_webservices].
        destruct (decide (n = name)) as [->|Hne].
        -- rewrite !lookup_insert_eq. eauto.
        -- rewrite !lookup_insert_ne by (try apply not_eq_sym; auto).
           apply Hinv. exact Hslash.
    + unfold webservice.disableWebService.
      destruct (webservice.removeWebService name env m w) as [[r m'] w'] eqn:H.
      apply removeWebService_cases in H.
      destruct H as [(_ & _ & -> & ->) | (_ & _ & -> & Hf & _)];
        try exact Hinv.
      intros n Hslash. rewrite Hf.
      cbn [webservice.webservices webservice.set_webservices].
      destruct (decide (n = name)) as [->|Hne].
      * rewrite lookup_delete_eq. intros [x Hx]; discriminate.
      * rewrite lookup_delete_ne by auto.
        destruct (webservice.remove_fault env);
          [|rewrite lookup_delete_ne by (apply not_eq_sym; auto)];
          apply Hinv; exact Hslash.
  - intros Hinv Hclean Hrm. split.
    + destruct (webservice.enableWebService _ _ _ env m w) as [[r m'] w'] eqn:H.
      apply enableWebService_cases in H.
      destruct H as [(_ & _ & -> & ->) | [(Hn & f & Hf & _ & -> & ->) |
        [(Hn & _ & _ & _ & -> & Hf & _) |
         (_ & _ & _ & _ & _ & -> & Hf & _)]]]; try exact Hinv.
      * rewrite Hf in Hclean. destruct f; try contradiction. exact Hinv.
      * rewrite Hrm in Hf. intros n Hslash. rewrite Hf.
        destruct (decide (n = name)) as [->|Hne].
        -- rewrite Hn, lookup_delete_eq. split; intros [x Hx]; discriminate.
        -- rewrite lookup_delete_ne by (apply not_eq_sym; auto).
           apply Hinv. exact Hslash.
      * intros n Hslash. rewrite Hf.
        cbn [webservice.webservices webservice.set_webservices].
        destruct (decide (n = name)) as [->|Hne].
        -- rewrite !lookup_insert_eq. split; eauto.
        -- rewrite !lookup_insert_ne by (try apply not_eq_sym; auto).
           apply Hinv. exact Hslash.
    + unfold webservice.disableWebService.
      destruct (webservice.removeWebService name env m w) as [[r m'] w'] eqn:H.
      apply removeWebService_cases in H.
      destruct H as [(_ & _ & -> & ->) | (_ & _ & -> & Hf & _)];
        try exact Hinv.
      rewrite Hrm in Hf. intros n Hslash. rewrite Hf.
      cbn [webservice.webservices webservice.set_webservices].
      destruct (decide (n = name)) as [->|Hne].
      * rewrite !lookup_delete_eq. split; intros [x Hx]; discriminate.
      * rewrite !lookup_delete_ne by (try apply not_eq_sym; auto).
        apply Hinv. exact Hslash.
Qed.

Lemma artifacts_match_empty : artifacts_match webservice0 world0.
Proof.
  intros n _. cbn. rewrite !lookup_empty. split; intros [x Hx]; discriminate.
Qed.

Lemma entries_have_artifacts_empty : entries_have_artifacts webservice0 world0.
Proof. intros n Hn. apply artifacts_match_empty. exact Hn. Qed.

Lemma artifacts_match_preserved_witness :
  has_slash "api" = false /\
  entries_have_artifacts webservice0 world0 /\
  artifacts_match webservice0 world0 /\
  clean_write (webservice.write_fault webservice_env_bad_test) /\
  webservice.remove_fault webservice_env_bad_test = None /\
  (let '(_, m', w') :=
     webservice.enableWebService "api" 3000 9000 webservice_env_bad_test
       webservice0 world0 in
   entries_have_artifacts m' w' /\ artifacts_match m' w') /\
  (let '(_, m', w') :=
     webservice.disableWebService "api" webservice_env_bad_test webservice0
       world0 in
   entries_have_artifacts m' w' /\ artifacts_match m' w').
Proof.
  pose proof (artifacts_match_preserved "api" 3000 9000 webservice_env_bad_test
                webservice0 world0 eq_refl) as [H1 H2].
  specialize (H1 entries_have_artifacts_empty).
  specialize (H2 artifacts_match_empty I eq_refl).
  split; [reflexivity|]. split; [exact entries_have_artifacts_empty|].
  split; [exact artifacts_match_empty|]. split; [exact I|].
  split; [reflexivity|].
  split; [exact (conj (proj1 H1) (proj1 H2)) | exact (conj (proj2 H1) (proj2 H2))].
Defined.

(** X10. nginx is run in order and only when there is something to load:
    [enableWebService] runs it only for a free name whose artifact was
    written, [disableWebService] only for a registered name; the dry run
    comes first, and the reload is run only after a dry run that
    succeeded.  Everything else the two calls leave in the trace is log
    lines: after the commands, and for [disableWebService] also before
    them, the warning of a refused removal. *)
Theorem nginx_runs_in_order
    (name : string) (localPort publicPort : Z) (env : webservice.Env)
    (m : webservice.Manager) (w : World) :
  let test := Exec ["nginx"; "-t"] in
  let reload := Exec ["nginx"; "-s"; "reload"] in
  (let '(_, _, w') :=
     webservice.enableWebService name localPort publicPort env m w in
   exists t logs, trace w' = (trace w ++ t)%list /\ Forall is_log logs /\
     (t = [] \/
      (webservice.webservices m !! name = None /\
       webservice.write_fault env = None) /\
      (t = test :: logs /\ is_Some (webservice.nginx_test env) \/
       t = test :: reload :: logs /\ webservice.nginx_test env = None))) /\
  (let '(_, _, w') := webservice.disableWebService name env m w in
   exists pre t logs,
     trace w' = (trace w ++ pre ++ t)%list /\
     Forall is_log pre /\ Forall is_log logs /\
     (webservice.remove_fault env = None -> pre = []) /\
     (pre = [] /\ t = [] \/
      is_Some (webservice.webservices m !! name) /\
      (t = test :: logs /\ is_Some (webservice.nginx_test env) \/
       t = test :: reload :: logs /\ webservice.nginx_test env = None))).
Proof.
  cbn zeta.
  assert (Hruns : forall logs,
    (nginx_runs env ++ logs)%list = Exec ["nginx"; "-t"] :: logs
      /\ is_Some (webservice.nginx_test env) \/
    (nginx_runs env ++ logs)%list
      = Exec ["nginx"; "-t"] :: Exec ["nginx"; "-s"; "reload"] :: logs
      /\ webservice.nginx_test env = None).
  { intros logs. unfold nginx_runs.
    destruct (webservice.nginx_test env); [left|right]; eauto. }
  split.
  - destruct (webservice.enableWebService _ _ _ env m w) as [[r m'] w'] eqn:H.
    apply enableWebService_cases in H.
    destruct H as [(_ & _ & _ & ->) | [(_ & f & _ & _ & _ & ->) |
      [(Hn & Hw & _ & _ & _ & _ & Ht) |
       (Hn & Hw & _ & _ & _ & _ & _ & msg & Ht)]]].
    + exists [], []. rewrite app_nil_r. auto.
    + exists [], []. rewrite app_nil_r, os_WriteFile_trace. auto.
    + exists (nginx_runs env ++ [])%list, [].
      rewrite app_nil_r. split; [exact Ht|]. split; [constructor|].
      right. split; [auto|]. rewrite <- (app_nil_r (nginx_runs env)).
      apply Hruns.
    + exists (nginx_runs env ++ [Log InfoLevel msg])%list, [Log InfoLevel msg].
      split; [exact Ht|]. split; [repeat constructor; red; eauto|].
      right. split; [auto|]. apply Hruns.
  - unfold webservice.disableWebService.
    destruct (webservice.removeWebService name env m w) as [[r m'] w'] eqn:H.
    apply removeWebService_cases in H.
    destruct H as [(_ & _ & _ & ->) | (Hn & _ & _ & _ & logs & Ht & Hlogs)].
    + exists [], [], []. rewrite app_nil_r. auto 10.
    + exists (removal_warning name env), (nginx_runs env ++ logs)%list, logs.
      split; [exact Ht|].
      split; [unfold removal_warning; destruct (webservice.remove_fault env);
              repeat constructor; red; eauto|].
      split; [exact Hlogs|].
      split; [intros Hrm; unfold removal_warning; rewrite Hrm; reflexivity|].
      right. split; [exact Hn|]. apply Hruns.
Qed.

(** The loop of [webservice.Stop], by induction on the names it visits. *)
Lemma remove_each_spec (env : string -> webservice.Env) (names : list string) :
  forall (m m' : webservice.Manager) (w w' : World),
    webservice.remove_each names env m w = (m', w') ->
    (forall k, webservice.webservices m' !! k
               = if decide (k ∈ names) then None
                 else webservice.webservices m !! k) /\
    (forall p, files w' !! p = None \/ files w' !! p = files w !! p) /\
    (forall p, files w !! p = None -> files w' !! p = None) /\
    (forall k, k ∈ names -> is_Some (webservice.webservices m !! k) ->
       webservice.remove_fault (env k) = None ->
       files w' !! webservice.confPath k = None).
Proof.
  induction names as [|name rest IH]; intros m m' w w';
    cbn [webservice.remove_each].
  - intros [= <- <-]. split; [|split; [|split]]; auto.
    intros k Hin. apply elem_of_nil in Hin. destruct Hin.
  - destruct (webservice.removeWebService name (env name) m w)
      as [[r m1] w1] eqn:Hrm.
    apply removeWebService_cases in Hrm.
    destruct Hrm as [(Hnone & -> & -> & ->) | (Hsome & -> & -> & Hf & _)].
    + intros Hrest. apply IH in Hrest.
      destruct Hrest as (Hlook & Hdel & Hmono & Hgone).
      split; [|split; [|split]]; auto.
      * intros k. rewrite Hlook.
        destruct (decide (k ∈ rest)) as [Hin|Hout];
          destruct (decide (k ∈ name :: rest)) as [Hin'|Hout'];
          try reflexivity.
        -- exfalso. apply Hout'. right. exact Hin.
        -- apply elem_of_cons in Hin'. destruct Hin' as [->|Hin']; [|tauto].
           exact Hnone.
      * intros k Hin [x Hx]. apply elem_of_cons in Hin.
        destruct Hin as [->|Hin]; [congruence|]. eauto.
    + intros Hrest. apply IH in Hrest.
      cbn [webservice.webservices webservice.set_webservices] in Hrest.
      destruct Hrest as (Hlook & Hdel & Hmono & Hgone).
      assert (Hstep : forall p, files w1 !! p = None
                                \/ files w1 !! p = files w !! p).
      { intros p. rewrite Hf. destruct (webservice.remove_fault (env name));
          [auto|].
        destruct (decide (p = webservice.confPath name)) as [->|Hne].
        - left. apply lookup_delete_eq.
        - right. apply lookup_delete_ne. congruence. }
      split; [|split; [|split]].
      * intros k. rewrite Hlook.
        destruct (decide (k ∈ rest)) as [Hin|Hout];
          destruct (decide (k ∈ name :: rest)) as [Hin'|Hout'];
          try reflexivity.
        -- exfalso. apply Hout'. right. exact Hin.
        -- apply elem_of_cons in Hin'. destruct Hin' as [->|Hin']; [|tauto].
           apply lookup_delete_eq.
        -- apply lookup_delete_ne. intros ->. apply Hout'. left.
      * intros p. destruct (Hdel p) as [Hp|Hp]; [auto|]. rewrite Hp.
        apply Hstep.
      * intros p Hp. apply Hmono.
        destruct (Hstep p) as [H1|H1]; [exact H1 | congruence].
      * intros k Hin Hk Hnofault. destruct (decide (k = name)) as [->|Hne].
        -- apply Hmono. rewrite Hf, Hnofault. apply lookup_delete_eq.
        -- apply elem_of_cons in Hin. destruct Hin as [->|Hin]; [congruence|].
           apply Hgone; [exact Hin| |exact Hnofault].
           rewrite lookup_delete_ne by congruence. exact Hk.
Qed.

(** X11. Shutdown of the webservice manager returns no error and leaves the
    registry empty, whatever the operating system and nginx answer; the
    proxy configuration of every registered route whose removal is not
    refused is absent from the disk afterwards; no file is created or
    rewritten. *)
Theorem webservice_Stop_removes_everything
    (env : string -> webservice.Env) (m : webservice.Manager) (w : World) :
  let '(r, m', w') := webservice.Stop env m w in
  r = None /\
  webservice.webservices m' = ∅ /\
  (forall k, is_Some (webservice.webservices m !! k) ->
     webservice.remove_fault (env k) = None ->
     files w' !! webservice.confPath k = None) /\
  (forall p, files w' !! p = None \/ files w' !! p = files w !! p).
Proof.
  unfold webservice.Stop.
  destruct (webservice.remove_each _ env m _) as [m' w'] eqn:Hloop.
  apply remove_each_spec in Hloop.
  destruct Hloop as (Hlook & Hdel & _ & Hgone).
  assert (Hkeys : forall k, is_Some (webservice.webservices m !! k) ->
                    k ∈ map fst (map_to_list (webservice.webservices m))).
  { intros k [ws Hk]. apply list_elem_of_fmap. exists (k, ws).
    split; [reflexivity|]. apply elem_of_map_to_list. exact Hk. }
  split; [reflexivity|]. split; [|split].
  - apply map_empty. intros k. rewrite Hlook.
    destruct (decide (k ∈ _)) as [_|Hout]; [reflexivity|].
    destruct (webservice.webservices m !! k) as [ws|] eqn:Hk; [|reflexivity].
    exfalso. apply Hout. apply Hkeys. eauto.
  - intros k Hk Hnofault. apply Hgone; auto.
  - exact Hdel.
Qed.

(** ** The session manager *)

Lemma Connect_cases (env : wamp.Env) (c c' : wamp.Client)
    (b b' : board.Board) (w w' : World) (r : option error) :
  wamp.Connect env c b w = (r, c', b', w') ->
  (wamp.connected c = true /\ r = None /\ c' = c /\ b' = b /\ w' = w) \/
  (wamp.connected c = false /\
   (board.GetWampURL b = "" \/ board.GetWampRealm b = "") /\
   r = Some "WAMP configuration not available" /\
   c' = c /\ b' = b /\ w' = w) \/
  (wamp.connected c = false /\
   board.GetWampURL b <> "" /\ board.GetWampRealm b <> "" /\
   exists err, wamp.connect env = inl err /\
     r = Some ("failed to connect to WAMP router: " +:+ err) /\
     c' = c /\ b' = b /\
     trace w' = (trace w ++ [connecting_log (board.GetWampURL b)
                               (board.GetWampRealm b)])%list /\
     files w' = files w) \/
  (wamp.connected c = false /\
   board.GetWampURL b <> "" /\ board.GetWampRealm b <> "" /\
   exists id, wamp.connect env = inr id /\
     r = None /\
     c' = {| wamp.cfg := wamp.cfg c;
             wamp.client := Some {| wamp.ID := id; wamp.registered := [] |};
             wamp.connected := true; wamp.sessionID := id |} /\
     b' = board.set_SessionID (fmt_d id) b /\
     trace w' = (trace w ++ [connecting_log (board.GetWampURL b)
                               (board.GetWampRealm b);
                             Log InfoLevel
                               ("Connected to WAMP router (session ID: "
                                +:+ fmt_d id +:+ ")")])%list /\
     files w' = files w).
Proof.
  unfold wamp.Connect.
  destruct (wamp.connected c) eqn:Hc.
  - intros [= <- <- <- <-]. left. auto.
  - destruct (String.eqb (board.GetWampURL b) "") eqn:Hu.
    + apply String.eqb_eq in Hu. cbn [orb].
      intros [= <- <- <- <-]. right. left. auto 10.
    + destruct (String.eqb (board.GetWampRealm b) "") eqn:Hr.
      * apply String.eqb_eq in Hr. cbn [orb].
        intros [= <- <- <- <-]. right. left. auto 10.
      * apply String.eqb_neq in Hu, Hr. cbn [orb].
        destruct (wamp.connect env) as [err|id] eqn:Hconn;
          intros [= <- <- <- <-].
        -- right. right. left. split; [reflexivity|]. split; [exact Hu|].
           split; [exact Hr|]. exists err. auto 10.
        -- right. right. right. split; [reflexivity|]. split; [exact Hu|].
           split; [exact Hr|]. exists id.
           cbn [trace files logf emit]. rewrite <- app_assoc. auto 10.
Qed.

Lemma Disconnect_cases (env : wamp.Env) (c c' : wamp.Client) (w w' : World)
    (r : option error) :
  wamp.Disconnect env c w = (r, c', w') ->
  r = None /\ wamp.connected c' = false /\ wamp.cfg c' = wamp.cfg c /\
  wamp.sessionID c' = wamp.sessionID c /\ files w' = files w /\
  (wamp.connected c = false -> c' = c /\ w' = w) /\
  (wamp.connected c = true -> wamp.client c' = None) /\
  exists logs, trace w' = (trace w ++ logs)%list /\ Forall is_log logs /\
    forall url realm, connecting_log url realm ∉ logs.
Proof.
  unfold wamp.Disconnect. destruct (wamp.connected c) eqn:Hc; cbn [negb].
  - destruct (wamp.client c) as [cl|]; [destruct (wamp.close_err env) as [e|]|];
      intros [= <- <- <-];
      cbn [wamp.connected wamp.cfg wamp.sessionID wamp.client files trace
           logf emit];
      rewrite <- ?app_assoc;
      (split; [reflexivity|]); (split; [reflexivity|]);
      (split; [reflexivity|]); (split; [reflexivity|]);
      (split; [reflexivity|]); (split; [discriminate|]);
      (split; [reflexivity|]);
      eexists; (split; [reflexivity|]);
      (split; [repeat constructor; red; eauto|]);
      intros url realm Hin; unfold connecting_log in Hin;
      repeat (apply elem_of_cons in Hin; destruct Hin as [Hin|Hin];
              [discriminate Hin|]);
      apply elem_of_nil in Hin; exact Hin.
  - intros [= <- <- <-].
    split; [reflexivity|]. split; [exact Hc|]. split; [reflexivity|].
    split; [reflexivity|]. split; [reflexivity|]. split; [auto|].
    split; [congruence|]. exists []. rewrite app_nil_r.
    split; [reflexivity|]. split; [constructor|].
    intros url realm Hin. apply elem_of_nil in Hin. exact Hin.
Qed.

Lemma Reconnect_cases (env : wamp.Env) (c c' : wamp.Client)
    (b b' : board.Board) (w w' : World) (r : option error) :
  wamp.Reconnect env c b w = (r, c', b', w') ->
  files w' = files w /\
  (exists pre post,
     trace w'
     = (trace w ++ pre
        ++ Sleep (config.ConnectionTimer (config.Autobahn (wamp.cfg c)))
           :: post)%list /\
     Forall is_log pre /\ Forall is_log post /\
     forall url realm, connecting_log url realm ∉ pre) /\
  ((exists id, wamp.connect env = inr id /\ r = None /\
      board.GetWampURL b <> "" /\ board.GetWampRealm b <> "" /\
      c' = {| wamp.cfg := wamp.cfg c;
              wamp.client := Some {| wamp.ID := id; wamp.registered := [] |};
              wamp.connected := true; wamp.sessionID := id |} /\
      b' = board.set_SessionID (fmt_d id) b) \/
   (exists err, r = Some ("reconnection failed: " +:+ err) /\
      (board.GetWampURL b = "" \/ board.GetWampRealm b = ""
       \/ exists e, wamp.connect env = inl e) /\
      wamp.connected c' = false /\ b' = b /\
      (wamp.connected c = true -> wamp.client c' = None) /\
      (wamp.connected c = false -> c' = c))).
Proof.
  unfold wamp.Reconnect.
  destruct (wamp.Disconnect env c _) as [[derr c1] w1] eqn:Hd.
  apply Disconnect_cases in Hd.
  destruct Hd as (-> & Hc1 & Hcfg & Hsid & Hf1 & Hsame & Hnone
                  & logs & Ht1 & Hlogs & Hnolog).
  rewrite Hcfg.
  destruct (wamp.Connect env c1 b _) as [[[cerr c2] b2] w2] eqn:Hconn.
  apply Connect_cases in Hconn.
  cbn [files trace logf emit] in *.
  assert (Hpre : Forall is_log
                   (Log InfoLevel "Attempting to reconnect to WAMP router..."
                    :: logs)) by (constructor; [red; eauto | exact Hlogs]).
  assert (Hnopre : forall url realm, connecting_log url realm
                     ∉ Log InfoLevel "Attempting to reconnect to WAMP router..."
                       :: logs).
  { intros url realm Hin. apply elem_of_cons in Hin.
    destruct Hin as [Hin|Hin]; [discriminate Hin | exact (Hnolog _ _ Hin)]. }
  destruct Hconn as [(Hc & _) | [(_ & Hmiss & -> & -> & -> & ->) |
    [(_ & Hu & Hr & err & He & -> & -> & -> & Ht2 & Hf2) |
     (_ & Hu & Hr & id & Hi & -> & -> & -> & Ht2 & Hf2)]]];
    [congruence | | |]; intros [= <- <- <- <-]; cbn [files trace logf emit].
  - split; [exact Hf1|]. split.
    + exists (Log InfoLevel "Attempting to reconnect to WAMP router..." :: logs),
        []. rewrite Ht1, <- !app_assoc. cbn [app].
      split; [reflexivity|]. split; [exact Hpre|]. split; [constructor|].
      exact Hnopre.
    + right. eexists. split; [reflexivity|]. split; [tauto|].
      split; [exact Hc1|]. split; [reflexivity|]. split; [exact Hnone|].
      intros Hc. apply Hsame in Hc. tauto.
  - split; [rewrite Hf2; exact Hf1|]. split.
    + exists (Log InfoLevel "Attempting to reconnect to WAMP router..." :: logs),
        [connecting_log (board.GetWampURL b) (board.GetWampRealm b)].
      rewrite Ht2. cbn [trace]. rewrite Ht1, <- !app_assoc. cbn [app].
      split; [reflexivity|]. split; [exact Hpre|].
      split; [repeat constructor; red; unfold connecting_log; eauto|].
      exact Hnopre.
    + right. eexists. split; [reflexivity|]. split; [eauto|].
      split; [exact Hc1|]. split; [reflexivity|]. split; [exact Hnone|].
      intros Hc. apply Hsame in Hc. tauto.
  - split; [rewrite Hf2; exact Hf1|]. split.
    + exists (Log InfoLevel "Attempting to reconnect to WAMP router..." :: logs),
        [connecting_log (board.GetWampURL b) (board.GetWampRealm b);
         Log InfoLevel ("Connected to WAMP router (session ID: "
                        +:+ fmt_d id +:+ ")");
         Log InfoLevel "Successfully reconnected to WAMP router"].
      rewrite Ht2. cbn [trace]. rewrite Ht1, <- !app_assoc. cbn [app].
      split; [reflexivity|]. split; [exact Hpre|].
      split; [repeat constructor; red; unfold connecting_log; eauto|].
      exact Hnopre.
    + left. exists id. rewrite Hcfg. auto 10.
Qed.

Lemma session_consistent_Connect (env : wamp.Env) (c c' : wamp.Client)
    (b b' : board.Board) (w w' : World) (r : option error) :
  wamp.Connect env c b w = (r, c', b', w') ->
  session_consistent c b -> session_consistent c' b'.
Proof.
  intros H Hinv. apply Connect_cases in H.
  destruct H as [(_ & _ & -> & -> & _) | [(_ & _ & _ & -> & -> & _) |
    [(_ & _ & _ & err & _ & _ & -> & -> & _) |
     (_ & _ & _ & id & _ & _ & -> & -> & _)]]]; try exact Hinv.
  unfold session_consistent. cbn. eauto.
Qed.

Lemma session_consistent_Reconnect (env : wamp.Env) (c c' : wamp.Client)
    (b b' : board.Board) (w w' : World) (r : option error) :
  wamp.Reconnect env c b w = (r, c', b', w') ->
  session_consistent c b -> session_consistent c' b'.
Proof.
  intros H Hinv. apply Reconnect_cases in H.
  destruct H as (_ & _ & [(id & _ & _ & _ & _ & -> & ->) |
    (err & _ & _ & Hc' & -> & Hnone & Hsame)]).
  - unfold session_consistent. cbn. eauto.
  - unfold session_consistent in *. rewrite Hc'.
    destruct (wamp.connected c) eqn:Hc; [auto|].
    rewrite (Hsame eq_refl). exact Hinv.
Qed.

Lemma session_consistent_tick (env : wamp.Env) (c c' : wamp.Client)
    (b b' : board.Board) (w w' : World) :
  wamp.KeepAlive_tick env c b w = (c', b', w') ->
  session_consistent c b -> session_consistent c' b'.
Proof.
  unfold wamp.KeepAlive_tick, wamp.IsConnected.
  destruct (wamp.connected c) eqn:Hc; cbn [negb].
  - intros [= <- <- <-]. auto.
  - destruct (wamp.Reconnect env c b _) as [[[r c1] b1] w1] eqn:Hre.
    intros H Hinv.
    assert (session_consistent c1 b1)
      by (eapply session_consistent_Reconnect; eauto).
    destruct r; injection H as <- <- <-; assumption.
Qed.

(** X12. The session manager and the board never disagree: if they are
    consistent (a connected client has a session object of the identifier
    it reports and the board holds that identifier; a disconnected client
    has no session object), they still are after [Connect], [Disconnect],
    [Register], [Unregister], [Reconnect] and any run of [KeepAlive],
    whatever the router answers.  A new client is consistent with any
    board. *)
Theorem session_consistent_preserved
    (env : wamp.Env) (c : wamp.Client) (b : board.Board) (w : World)
    (proc : string) (answer : option error) (ticks : list wamp.Env) :
  session_consistent c b ->
  (let '(_, c', b', _) := wamp.Connect env c b w in session_consistent c' b') /\
  (let '(_, c', _) := wamp.Disconnect env c w in session_consistent c' b) /\
  (let '(_, c', _) := wamp.Register proc env c w in session_consistent c' b) /\
  (let '(_, c', _) := wamp.Unregister proc answer c w in
   session_consistent c' b) /\
  (let '(_, c', b', _) := wamp.Reconnect env c b w in
   session_consistent c' b') /\
  (let '(c', b', _) := wamp.KeepAlive ticks c b w in session_consistent c' b') /\
  session_consistent (wamp.NewClient (wamp.cfg c)) b.
Proof.
  intros Hinv. split; [|split; [|split; [|split; [|split; [|split]]]]].
  - destruct (wamp.Connect env c b w) as [[[r c'] b'] w'] eqn:H.
    eapply session_consistent_Connect; eauto.
  - destruct (wamp.Disconnect env c w) as [[r c'] w'] eqn:H.
    apply Disconnect_cases in H.
    destruct H as (_ & Hc' & _ & _ & _ & Hsame & Hnone & _).
    unfold session_consistent in *. rewrite Hc'.
    destruct (wamp.connected c); [auto|].
    rewrite (proj1 (Hsame eq_refl)). exact Hinv.
  - unfold wamp.Register. unfold session_consistent in Hinv.
    destruct (wamp.connected c) eqn:Hc.
    + destruct Hinv as (cl & Hcl & Hid & Hsid). rewrite Hcl.
      destruct (wamp.register_err env proc); unfold session_consistent;
        cbn; rewrite ?Hc; eauto.
    + cbn. unfold session_consistent. rewrite Hc. exact Hinv.
  - unfold wamp.Unregister. unfold session_consistent in Hinv.
    destruct (wamp.connected c) eqn:Hc.
    + destruct Hinv as (cl & Hcl & Hid & Hsid). rewrite Hcl.
      destruct answer; unfold session_consistent; cbn; rewrite ?Hc; eauto.
    + cbn. unfold session_consistent. rewrite Hc. exact Hinv.
  - destruct (wamp.Reconnect env c b w) as [[[r c'] b'] w'] eqn:H.
    eapply session_consistent_Reconnect; eauto.
  - revert c b w Hinv. induction ticks as [|tick rest IH]; intros c b w Hinv.
    + exact Hinv.
    + cbn [wamp.KeepAlive].
      destruct (wamp.KeepAlive_tick tick c b w) as [[c1 b1] w1] eqn:Ht.
      apply IH. eapply session_consistent_tick; eauto.
  - reflexivity.
Qed.

Lemma session_consistent_preserved_witness :
  session_consistent (wamp.NewClient cfg0) board_primary /\
  (let '(_, c', b', _) :=
     wamp.Connect (router 7) (wamp.NewClient cfg0) board_primary world0 in
   session_consistent c' b') /\
  (let '(c', b', _) :=
     wamp.KeepAlive [router_down; router 9] (wamp.NewClient cfg0)
       board_primary world0 in
   session_consistent c' b').
Proof.
  assert (H : session_consistent (wamp.NewClient cfg0) board_primary)
    by reflexivity.
  split; [exact H|].
  pose proof (session_consistent_preserved (router 7) (wamp.NewClient cfg0)
                board_primary world0 "p" None [router_down; router 9] H)
    as (H1 & _ & _ & _ & _ & H6 & _).
  split; [exact H1 | exact H6].
Defined.










(** X16. Without a session nothing goes out: after [Disconnect], from any
    state, [Register], [Unregister], [Publish] and [Call] fail with the
    not-connected error and change nothing, and a second [Disconnect]
    does nothing. *)
Theorem operations_fail_when_disconnected
    (env env' : wamp.Env) (c : wamp.Client) (w : World)
    (name : string) (args : list any) (kwargs : list (string * any))
    (answer : option error) (result : error + wamp.Result) :
  let '(r, c', w') := wamp.Disconnect env c w in
  r = None /\ wamp.IsConnected c' = false /\
  wamp.Register name env' c' w'
    = (Some "not connected to WAMP router", c', w') /\
  wamp.Unregister name answer c' w'
    = (Some "not connected to WAMP router", c', w') /\
  wamp.Publish name args kwargs answer c' w'
    = (Some "not connected to WAMP router", w') /\
  wamp.Call name args kwargs result c' = inr "not connected to WAMP router" /\
  wamp.Disconnect env' c' w' = (None, c', w').
Proof.
  destruct (wamp.Disconnect env c w) as [[r c'] w'] eqn:H.
  apply Disconnect_cases in H. destruct H as (-> & Hc' & _).
  unfold wamp.IsConnected, wamp.Register, wamp.Unregister, wamp.Publish,
    wamp.Call, wamp.Disconnect.
  rewrite Hc'. repeat split; reflexivity.
Qed.

(** X17. A failed reconnection leaves the agent without a session: when
    [Reconnect] returns an error on a consistent client, the client is not
    connected, no procedure is registered any more, the files are
    untouched and the board still holds the identifier of the session that
    was closed. *)
Theorem Reconnect_failure_leaves_disconnected
    (env : wamp.Env) (c c' : wamp.Client) (b b' : board.Board)
    (w w' : World) (err : error) :
  session_consistent c b ->
  wamp.Reconnect env c b w = (Some err, c', b', w') ->
  wamp.connected c' = false /\ wamp.procedures c' = [] /\
  b' = b /\ files w' = files w /\
  exists reason, err = "reconnection failed: " +:+ reason.
Proof.
  intros Hinv H. apply Reconnect_cases in H.
  destruct H as (Hf & _ & [(id & _ & Hr & _) |
    (reason & Hr & _ & Hc' & -> & Hnone & Hsame)]); [discriminate|].
  injection Hr as ->.
  split; [exact Hc'|]. split; [|split; [reflexivity|split; [exact Hf|eauto]]].
  unfold wamp.procedures. unfold session_consistent in Hinv.
  destruct (wamp.connected c) eqn:Hc.
  - rewrite (Hnone eq_refl). reflexivity.
  - rewrite (Hsame eq_refl), Hinv. reflexivity.
Qed.

Lemma Reconnect_failure_leaves_disconnected_witness :
  session_consistent reconnected.1.1.2 reconnected.1.2 /\
  exists c' w',
    wamp.Reconnect router_down reconnected.1.1.2 reconnected.1.2 world0
    = (Some "reconnection failed: failed to connect to WAMP router: connection refused",
       c', reconnected.1.2, w') /\
    wamp.connected c' = false /\ wamp.procedures c' = [].
Proof.
  assert (Hinv : session_consistent reconnected.1.1.2 reconnected.1.2)
    by (vm_compute; eexists; repeat split).
  split; [exact Hinv|].
  eexists _, _. 
  assert (H : wamp.Reconnect router_down reconnected.1.1.2 reconnected.1.2
                world0
              = (Some "reconnection failed: failed to connect to WAMP router: connection refused",
                 (wamp.Reconnect router_down reconnected.1.1.2
                    reconnected.1.2 world0).1.1.2,
                 reconnected.1.2,
                 (wamp.Reconnect router_down reconnected.1.1.2
                    reconnected.1.2 world0).2)) by reflexivity.
  split; [exact H|].
  pose proof (Reconnect_failure_leaves_disconnected _ _ _ _ _ _ _ _ Hinv H)
    as (H1 & H2 & _).
  split; [exact H1 | exact H2].
Defined.

(** ** Board identity *)

(** What a load of readable settings returns. *)
Lemma LoadSettings_loaded (b : board.Board) (w : World)
    (st : config.BoardSettings) :
  LoadBoardSettings (board.home b) w = inl st ->
  match picked_endpoint st with
  | Some None => board.LoadSettings b w = Panics nil_dereference
  | picked =>
      exists b' w',
        board.LoadSettings b w = Returns (None, b', w') /\
        loaded_from st b b' /\
        board.Status b' = status_after_load st /\
        board.WampConfig b' = match picked with
                              | Some agent => agent
                              | None => board.WampConfig b
                              end /\
        files w' = files w
  end.
Proof.
  intros Hload. unfold board.LoadSettings. rewrite Hload.
  unfold board.loadWampConfig, picked_endpoint, status_after_load,
    picked_endpoint.
  cbn [board.Status board.WampConfig board.Code board.Agent board.set_WampConfig
       board.set_Status].
  destruct (config.MainAgent _) as [agent|].
  - cbn [board.Status board.WampConfig board.Code board.Agent
         board.set_WampConfig board.set_Status].
    destruct (String.eqb _ "<REGISTRATION-TOKEN>"); eexists _, _;
      (split; [reflexivity|]); (split; [repeat split|]); auto.
  - destruct (board.registration_status _).
    + cbn [board.Status board.WampConfig board.Code board.Agent
           board.set_WampConfig board.set_Status].
      destruct (config.RegistrationAgent _) as [agent|]; [|reflexivity].
      destruct (String.eqb _ "<REGISTRATION-TOKEN>"); eexists _, _;
        (split; [reflexivity|]); (split; [repeat split|]); auto.
    + cbn [board.Status board.WampConfig board.Code board.Agent
           board.set_WampConfig board.set_Status].
      destruct (String.eqb _ "<REGISTRATION-TOKEN>"); eexists _, _;
        (split; [reflexivity|]); (split; [repeat split|]); auto.
Qed.

(** X18. A load of readable settings crashes in exactly one situation:
    the settings have no primary endpoint, their Status lets the
    registration endpoint be used, and they have no registration endpoint
    either.  In every other situation the load returns, without an
    error. *)
Theorem LoadSettings_panics_without_registration_endpoint
    (b : board.Board) (w : World) (st : config.BoardSettings) :
  LoadBoardSettings (board.home b) w = inl st ->
  let wamp := config.WAMP (config.Iotronic st) in
  let status := config.Status (config.Board (config.Iotronic st)) in
  (board.LoadSettings b w = Panics nil_dereference
   <-> config.MainAgent wamp = None /\
       (status = "" \/ status = "registered" \/ status = "first_boot") /\
       config.RegistrationAgent wamp = None) /\
  (board.LoadSettings b w = Panics nil_dereference \/
   exists b' w', board.LoadSettings b w = Returns (None, b', w')).
Proof.
  intros Hload. cbn zeta. pose proof (LoadSettings_loaded b w st Hload) as H.
  unfold picked_endpoint in H. rewrite <- registration_status_spec.
  destruct (config.MainAgent _) as [agent|].
  - destruct H as (b' & w' & H & _). rewrite H. split; [|eauto].
    split; [discriminate | intros (Hx & _); discriminate].
  - destruct (board.registration_status _).
    + destruct (config.RegistrationAgent _) as [agent|].
      * destruct H as (b' & w' & H & _). rewrite H. split; [|eauto].
        split; [discriminate | intros (_ & _ & Hx); discriminate].
      * rewrite H. split; [|auto]. split; auto.
    + destruct H as (b' & w' & H & _). rewrite H. split; [|eauto].
      split; [discriminate | intros (_ & Hx & _); discriminate].
Qed.

Lemma LoadSettings_panics_without_registration_endpoint_witness :
  let w := world_with_settings config.zero_BoardSettings in
  LoadBoardSettings (board.home board0) w = inl config.zero_BoardSettings /\
  board.LoadSettings board0 w = Panics nil_dereference.
Proof.
  cbn zeta.
  assert (H : LoadBoardSettings (board.home board0)
                (world_with_settings config.zero_BoardSettings)
              = inl config.zero_BoardSettings) by reflexivity.
  split; [exact H|].
  apply (proj1 (LoadSettings_panics_without_registration_endpoint board0 _ _ H)).
  repeat split; auto.
Defined.

(** X19. What a load that returns leaves in the board: the identity
    fields are those of the settings, the session identifier and the
    configuration are kept, and Status is "first_boot" when the code is
    the registration token or no endpoint could be picked, the stored
    Status otherwise; with the registration token the board always reports
    a first boot. *)
Theorem LoadSettings_board_after_load
    (b b' : board.Board) (w w' : World) (st : config.BoardSettings)
    (r : option error) :
  LoadBoardSettings (board.home b) w = inl st ->
  board.LoadSettings b w = Returns (r, b', w') ->
  r = None /\ loaded_from st b b' /\
  board.Status b' = status_after_load st /\
  (board.Code b' = "<REGISTRATION-TOKEN>" -> board.IsFirstBoot b' = true) /\
  files w' = files w.
Proof.
  intros Hload Hret. pose proof (LoadSettings_loaded b w st Hload) as H.
  destruct (picked_endpoint st) as [[agent|]|] eqn:Hp;
    try (rewrite Hret in H; discriminate);
    destruct H as (b1 & w1 & H & Hfields & Hstatus & _ & Hfiles);
    rewrite Hret in H; injection H as -> -> ->;
    (split; [reflexivity|]); (split; [exact Hfields|]);
    (split; [exact Hstatus|]); (split; [|exact Hfiles]);
    intros Hcode; unfold board.IsFirstBoot; rewrite Hstatus;
    unfold status_after_load;
    destruct Hfields as (_ & Hc & _); rewrite <- Hc, Hcode; reflexivity.
Qed.

Lemma LoadSettings_board_after_load_witness :
  let st := settings0 "<REGISTRATION-TOKEN>" "registered" in
  LoadBoardSettings (board.home board0) (world_with_settings st) = inl st /\
  exists b' w',
    board.LoadSettings board0 (world_with_settings st)
    = Returns (None, b', w') /\
    loaded_from st board0 b' /\ board.Status b' = "first_boot" /\
    board.IsFirstBoot b' = true.
Proof.
  cbn zeta.
  assert (H : LoadBoardSettings (board.home board0)
                (world_with_settings
                   (settings0 "<REGISTRATION-TOKEN>" "registered"))
              = inl (settings0 "<REGISTRATION-TOKEN>" "registered"))
    by reflexivity.
  split; [exact H|].
  destruct (board.LoadSettings board0
              (world_with_settings
                 (settings0 "<REGISTRATION-TOKEN>" "registered")))
    as [[[r b'] w']|msg] eqn:Hl; [|vm_compute in Hl; discriminate].
  pose proof (LoadSettings_board_after_load board0 b' _ w' _ r H Hl)
    as (-> & Hf & Hs & Hb & _).
  exists b', w'. split; [reflexivity|]. split; [exact Hf|].
  split; [exact Hs|]. apply Hb. destruct Hf as (_ & Hc & _). exact Hc.
Defined.

Lemma SaveBoardSettings_cases (home : string) (st : config.BoardSettings)
    (fault : option WriteFault) (w w' : World) (r : option error) :
  SaveBoardSettings home st fault w = (r, w') ->
  (r = None /\
   w' = store (settingsPath home) (SettingsJSON (json_decoded_settings st)) w) \/
  (is_Some r /\
   forall p, p <> settingsPath home -> files w' !! p = files w !! p).
Proof.
  unfold SaveBoardSettings, json_Marshal_settings.
  destruct (forallb _ _); [|intros [= <- <-]; eauto].
  destruct (os_WriteFile _ _ fault w) as [[e|] w1] eqn:Hw; intros [= <- <-].
  - right. split; [eauto|]. intros p Hp.
    exact (os_WriteFile_other _ _ _ _ _ _ _ Hw Hp).
  - left. split; [reflexivity|]. unfold os_WriteFile in Hw.
    destruct fault; [discriminate|]. now inversion Hw.
Qed.

Lemma LoadBoardSettings_after_save (home : string) (st : config.BoardSettings)
    (w : World) :
  LoadBoardSettings home (store (settingsPath home) (SettingsJSON st) w)
  = inl st.
Proof.
  unfold LoadBoardSettings, os_ReadFile. cbn [files store].
  rewrite lookup_insert_eq. reflexivity.
Qed.


(** X21. [SetUpdateTime], on a board whose settings are loaded, writes
    the timestamp through: when it returns no error the board and the
    settings store both hold the new timestamp, and the store holds the
    settings of the board (as JSON gives them back) with the Status and the
    endpoints they had, so a Status that a load forced in memory does not
    reach the disk this way; when the write fails the error is returned,
    the board holds the new timestamp and no file other than the settings
    file has changed.  Status in memory is never touched. *)
Theorem SetUpdateTime_write_through
    (timestamp : string) (fault : option WriteFault) (b : board.Board) (w : World)
    (st : config.BoardSettings) :
  board.settings b = Some st ->
  match board.SetUpdateTime timestamp fault b w with
  | Returns (None, b', w') =>
      board.UpdatedAt b' = timestamp /\ board.Status b' = board.Status b /\
      exists st',
        board.settings b' = Some st' /\
        LoadBoardSettings (board.home b) w' = inl (json_decoded_settings st') /\
        config.UpdatedAt (config.Board (config.Iotronic st')) = timestamp /\
        config.Status (config.Board (config.Iotronic st'))
        = config.Status (config.Board (config.Iotronic st)) /\
        config.WAMP (config.Iotronic st') = config.WAMP (config.Iotronic st)
  | Returns (Some _, b', w') =>
      board.UpdatedAt b' = timestamp /\ board.Status b' = board.Status b /\
      forall p, p <> settingsPath (board.home b) ->
        files w' !! p = files w !! p
  | Panics _ => False
  end.
Proof.
  intros Hst. unfold board.SetUpdateTime.
  cbn [board.settings board.set_UpdatedAt]. rewrite Hst.
  destruct (SaveBoardSettings _ _ fault w) as [r w1] eqn:Hsave.
  apply SaveBoardSettings_cases in Hsave.
  destruct Hsave as [(-> & ->) | ([err ->] & Hother)].
  - split; [reflexivity|]. split; [reflexivity|].
    eexists. split; [reflexivity|].
    split; [apply LoadBoardSettings_after_save|].
    repeat split.
  - split; [reflexivity|]. split; [reflexivity|]. exact Hother.
Qed.

Lemma SetUpdateTime_write_through_witness :
  let w := world_with_settings (settings0 "code-1" "registered") in
  board.settings board1 = Some (settings0 "code-1" "registered") /\
  exists b' w',
    board.SetUpdateTime "2024-05-01T10:00:00.000000" None board1 w
    = Returns (None, b', w') /\
    board.UpdatedAt b' = "2024-05-01T10:00:00.000000".
Proof.
  cbn zeta. split; [reflexivity|].
  pose proof (SetUpdateTime_write_through "2024-05-01T10:00:00.000000" None
                board1 (world_with_settings (settings0 "code-1" "registered"))
                (settings0 "code-1" "registered") eq_refl) as H.
  destruct (board.SetUpdateTime "2024-05-01T10:00:00.000000" None board1
              (world_with_settings (settings0 "code-1" "registered")))
    as [[[[e|] b'] w']|msg] eqn:Hs.
  - vm_compute in Hs. discriminate.
  - exists b', w'. split; [reflexivity|]. exact (proj1 H).
  - destruct H.
Defined.

(** ** The agent *)


Lemma register_each_all (procs : list string) (env : wamp.Env) :
  forall (c c' : wamp.Client) (w w' : World) (r : option error),
    register_each procs env c w = (r, c', w') ->
    files w' = files w /\ wamp.connected c' = wamp.connected c /\
    wamp.sessionID c' = wamp.sessionID c /\ wamp.cfg c' = wamp.cfg c.
Proof.
  induction procs as [|proc rest IH]; intros c c' w w' r; simpl.
  - intros [= <- <- <-]. auto.
  - unfold wamp.Register.
    destruct (wamp.connected c) eqn:Hc;
      [destruct (wamp.client c) as [cl|] eqn:Hcl;
       [destruct (wamp.register_err env proc)|]|];
      try (intros [= <- <- <-]; auto; fail).
    intros H. apply IH in H. cbn in H. exact H.
Qed.

(** X23. A start that succeeds on an agent that was not connected has
    connected once and registered the ten capabilities of the catalog and
    nothing else: those of the device manager first, then those of the
    service manager, then those of the webservice manager (inside one
    manager Go fixes no order, so none is stated), each under the name
    iotronic.<session>.<board>.<Verb> built from the identifier of the new
    session; the three managers exist, the agent is running and the board
    holds the identifier. *)
Theorem Start_registers_the_catalog
    (env : lightningrod.Env) (lr lr' : lightningrod.LightningRod)
    (w w' : World) :
  wamp.connected (lightningrod.wamp lr) = false ->
  lightningrod.Start env lr w = (None, lr', w') ->
  exists id,
    wamp.connect (lightningrod.router env) = inr id /\
    lightningrod.running lr' = true /\
    wamp.connected (lightningrod.wamp lr') = true /\
    board.SessionID (lightningrod.board lr') = fmt_d id /\
    (let name verb := "iotronic." +:+ fmt_d id +:+ "."
                      +:+ board.UUID (lightningrod.board lr) +:+ "." +:+ verb in
     exists dev svc web,
       wamp.procedures (lightningrod.wamp lr') = (dev ++ svc ++ web)%list /\
       dev ≡ₚ map name device.verbs /\
       svc ≡ₚ map name service.verbs /\
       web ≡ₚ map name webservice.verbs) /\
    is_Some (lightningrod.device lr') /\
    is_Some (lightningrod.service lr') /\
    is_Some (lightningrod.webservice lr').
Proof.
  intros Hc. unfold lightningrod.Start.
  destruct (lightningrod.running lr); [discriminate|].
  destruct (wamp.Connect _ _ _ _) as [[[r c1] b1] w1] eqn:Hconn.
  apply Connect_cases in Hconn.
  destruct Hconn as [(Hx & _) | [(_ & _ & -> & _) |
    [(_ & _ & _ & err & _ & -> & _) |
     (_ & _ & _ & id & Hid & -> & -> & -> & _)]]];
    [congruence | discriminate | discriminate |].
  unfold lightningrod.initializeModules.
  cbn [lightningrod.board lightningrod.wamp lightningrod.cfg
       lightningrod.service lightningrod.webservice lightningrod.device
       lightningrod.running].
  destruct (device.NewManager _ _ _) as [dm wd].
  unfold device.Start, device.registerRPCs.
  destruct (register_each _ _ _ _) as [[[e|] c2] w2] eqn:H1; [discriminate|].
  destruct (service.NewManager _ _ _ _) as [[sm|e] w3]; [|discriminate].
  unfold service.Start, service.registerRPCs.
  destruct (service.loadServicesConfig _ _ _) as [[le sm1] w4].
  destruct (register_each _ _ c2 _) as [[[e|] c3] w5] eqn:H2; [discriminate|].
  destruct (webservice.NewManager _ _) as [wm w6].
  unfold webservice.Start, webservice.registerRPCs.
  destruct (register_each _ _ c3 _) as [[[e|] c4] w7] eqn:H3; [discriminate|].
  intros [= <- <-]. exists id.
  cbn [lightningrod.board lightningrod.wamp lightningrod.running
       lightningrod.device lightningrod.service lightningrod.webservice].
  pose proof (register_each_all _ _ _ _ _ _ _ H1) as (_ & Hc2 & _).
  pose proof (register_each_all _ _ _ _ _ _ _ H2) as (_ & Hc3 & _).
  pose proof (register_each_all _ _ _ _ _ _ _ H3) as (_ & Hc4 & _).
  apply register_each_procedures in H1, H2, H3.
  split; [exact Hid|]. split; [reflexivity|].
  split; [rewrite Hc4, Hc3, Hc2; reflexivity|].
  split; [reflexivity|]. split; [|eauto].
  cbv zeta. eexists _, _, _. split; [|repeat split; reflexivity].
  rewrite H3, H2, H1.
  unfold wamp.procedures at 1. cbn [wamp.client wamp.registered app].
  reflexivity.
Qed.

Lemma Start_registers_the_catalog_witness :
  wamp.connected (lightningrod.wamp agent_new.1) = false /\
  lightningrod.Start start_env agent_new.1 agent_new.2
  = (None, agent_started.1.2, agent_started.2) /\
  exists id,
    wamp.connect (lightningrod.router start_env) = inr id /\
    lightningrod.running agent_started.1.2 = true /\
    wamp.connected (lightningrod.wamp agent_started.1.2) = true /\
    board.SessionID (lightningrod.board agent_started.1.2) = fmt_d id /\
    (let name verb := "iotronic." +:+ fmt_d id +:+ "."
                      +:+ board.UUID (lightningrod.board agent_new.1) +:+ "."
                      +:+ verb in
     exists dev svc web,
       wamp.procedures (lightningrod.wamp agent_started.1.2)
       = (dev ++ svc ++ web)%list /\
       dev ≡ₚ map name device.verbs /\
       svc ≡ₚ map name service.verbs /\
       web ≡ₚ map name webservice.verbs) /\
    is_Some (lightningrod.device agent_started.1.2) /\
    is_Some (lightningrod.service agent_started.1.2) /\
    is_Some (lightningrod.webservice agent_started.1.2).
Proof.
  assert (H : lightningrod.Start start_env agent_new.1 agent_new.2
              = (None, agent_started.1.2, agent_started.2))
    by (vm_compute; reflexivity).
  split; [reflexivity|]. split; [exact H|].
  exact (Start_registers_the_catalog start_env agent_new.1 agent_started.1.2
           agent_new.2 agent_started.2 eq_refl H).
Defined.

Lemma initializeModules_keeps (env : lightningrod.Env)
    (lr : lightningrod.LightningRod) (w : World) :
  lightningrod.running (lightningrod.initializeModules env lr w).1.2
  = lightningrod.running lr.
Proof.
  unfold lightningrod.initializeModules.
  destruct (device.NewManager _ _ _) as [dm w1].
  destruct (device.Start _ _ _ _) as [[[e|] c1] w2]; [reflexivity|].
  destruct (service.NewManager _ _ _ _) as [[sm|e] w3]; [|reflexivity].
  destruct (service.Start _ _ _ _ _ _) as [[[[e|] sm1] c2] w4]; [reflexivity|].
  destruct (webservice.NewManager _ _) as [wm w5].
  destruct (webservice.Start _ _ _ _ _) as [[[e|] c3] w6]; reflexivity.
Qed.

(** X24. A start cannot be retried: after any call of [Start], also one
    that failed to connect or to initialize a manager, the agent counts
    as running, and every further [Start] fails with the already-running
    error and changes nothing. *)
Theorem Start_cannot_be_retried
    (env env2 : lightningrod.Env) (lr : lightningrod.LightningRod) (w : World) :
  let '(_, lr1, w1) := lightningrod.Start env lr w in
  lightningrod.running lr1 = true /\
  lightningrod.Start env2 lr1 w1
  = (Some "lightning rod already running", lr1, w1).
Proof.
  destruct (lightningrod.Start env lr w) as [[r lr1] w1] eqn:H.
  assert (Hrun : lightningrod.running lr1 = true).
  { unfold lightningrod.Start in H.
    destruct (lightningrod.running lr) eqn:Hr.
    - injection H as _ <- _. exact Hr.
    - destruct (wamp.Connect _ _ _ _) as [[[[e|] c1] b1] w2].
      + injection H as _ <- _. reflexivity.
      + match type of H with
        | context [lightningrod.initializeModules env ?l ?w0] =>
            pose proof (initializeModules_keeps env l w0) as Hk;
            destruct (lightningrod.initializeModules env l w0)
              as [[[e|] lr2] w3]
        end; injection H as _ <- _; exact Hk. }
  split; [exact Hrun|]. unfold lightningrod.Start. rewrite Hrun. reflexivity.
Qed.

(** X25. A configuration without a usable endpoint is fatal at start-up,
    not at construction: when the settings are readable but no endpoint
    can be picked, the agent is constructed without an error, and its
    start fails at the connection with the configuration error; no manager
    is created, nothing is registered and no file is written. *)
Theorem no_endpoint_is_fatal_at_start
    (c : config.Config) (w : World) (st : config.BoardSettings)
    (env : lightningrod.Env) :
  LoadBoardSettings (config.Home (config.LightningRod c)) w = inl st ->
  picked_endpoint st = None ->
  exists lr w1,
    lightningrod.New c w = Returns (inl lr, w1) /\
    exists lr' w',
      lightningrod.Start env lr w1
      = (Some ("failed to connect to WAMP router: "
               +:+ "WAMP configuration not available"), lr', w') /\
      wamp.connected (lightningrod.wamp lr') = false /\
      wamp.procedures (lightningrod.wamp lr') = [] /\
      lightningrod.device lr' = None /\ lightningrod.service lr' = None /\
      lightningrod.webservice lr' = None /\
      files w' = files w.
Proof.
  intros Hload Hpick. unfold lightningrod.New, board.New.
  match goal with
  | |- context [board.LoadSettings ?b0 w] => set (b := b0)
  end.
  pose proof (LoadSettings_loaded b w st Hload) as H. rewrite Hpick in H.
  destruct H as (b' & w1 & -> & _ & _ & Hwamp & Hfiles).
  eexists _, w1. split; [reflexivity|].
  unfold lightningrod.Start, wamp.Connect, board.GetWampURL.
  cbn [lightningrod.running lightningrod.wamp lightningrod.board
       wamp.NewClient wamp.connected].
  rewrite Hwamp. cbn.
  eexists _, _. split; [reflexivity|]. cbn. repeat split. exact Hfiles.
Qed.

Lemma no_endpoint_is_fatal_at_start_witness :
  let w := world_with_settings (settings0 "code-1" "online") in
  LoadBoardSettings (config.Home (config.LightningRod cfg0)) w
  = inl (settings0 "code-1" "online") /\
  picked_endpoint (settings0 "code-1" "online") = None /\
  exists lr w1,
    lightningrod.New cfg0 w = Returns (inl lr, w1) /\
    exists lr' w',
      lightningrod.Start start_env lr w1
      = (Some ("failed to connect to WAMP router: "
               +:+ "WAMP configuration not available"), lr', w') /\
      wamp.connected (lightningrod.wamp lr') = false /\
      wamp.procedures (lightningrod.wamp lr') = [] /\
      lightningrod.device lr' = None /\ lightningrod.service lr' = None /\
      lightningrod.webservice lr' = None /\
      files w' = files w.
Proof.
  cbn zeta. split; [reflexivity|]. split; [reflexivity|].
  exact (no_endpoint_is_fatal_at_start cfg0
           (world_with_settings (settings0 "code-1" "online"))
           (settings0 "code-1" "online") start_env eq_refl eq_refl).
Defined.

Lemma service_Stop_services (env : string -> service.Env)
    (m : service.Manager) (w : World) :
  service.services (service.Stop env m w).1.2 = ∅.
Proof.
  unfold service.Stop.
  destruct (service.stop_each _ env m _) as [m' w'] eqn:Hloop.
  apply stop_each_spec in Hloop. destruct Hloop as (_ & Hlook & _).
  cbn. apply map_empty. intros k. rewrite Hlook.
  destruct (decide (k ∈ _)) as [_|Hout]; [reflexivity|].
  destruct (service.services m !! k) as [svc|] eqn:Hk; [|reflexivity].
  exfalso. apply Hout. apply list_elem_of_fmap. exists (k, svc).
  split; [reflexivity|]. apply elem_of_map_to_list. exact Hk.
Qed.

Lemma webservice_Stop_webservices (env : string -> webservice.Env)
    (m : webservice.Manager) (w : World) :
  webservice.webservices (webservice.Stop env m w).1.2 = ∅.
Proof.
  unfold webservice.Stop.
  destruct (webservice.remove_each _ env m _) as [m' w'] eqn:Hloop.
  apply remove_each_spec in Hloop. destruct Hloop as (Hlook & _).
  cbn. apply map_empty. intros k. rewrite Hlook.
  destruct (decide (k ∈ _)) as [_|Hout]; [reflexivity|].
  destruct (webservice.webservices m !! k) as [ws|] eqn:Hk; [|reflexivity].
  exfalso. apply Hout. apply list_elem_of_fmap. exists (k, ws).
  split; [reflexivity|]. apply elem_of_map_to_list. exact Hk.
Qed.

(** X26. The shutdown of the agent does nothing when the agent is not
    running; on a running agent it leaves the agent not running and not
    connected, both registries empty and the board untouched, whatever
    fails on the way.  A second shutdown does nothing. *)
Theorem Stop_leaves_everything_stopped
    (wenv wenv2 : string -> webservice.Env)
    (senv senv2 : string -> service.Env) (renv renv2 : wamp.Env)
    (rest_err rest_err2 : option error)
    (lr : lightningrod.LightningRod) (w : World) :
  let '(lr', w') := lightningrod.Stop wenv senv renv rest_err lr w in
  (lightningrod.running lr = false -> lr' = lr /\ w' = w) /\
  (lightningrod.running lr = true ->
   lightningrod.running lr' = false /\
   wamp.connected (lightningrod.wamp lr') = false /\
   (forall m, lightningrod.service lr' = Some m -> service.services m = ∅) /\
   (forall m, lightningrod.webservice lr' = Some m ->
      webservice.webservices m = ∅) /\
   lightningrod.board lr' = lightningrod.board lr) /\
  lightningrod.Stop wenv2 senv2 renv2 rest_err2 lr' w' = (lr', w').
Proof.
  unfold lightningrod.Stop at 1.
  destruct (lightningrod.running lr) eqn:Hrun; cbn [negb].
  - pose proof (fun m => webservice_Stop_webservices wenv m) as Hws.
    pose proof (fun m => service_Stop_services senv m) as Hss.
    destruct (lightningrod.webservice lr) as [wm|].
    + specialize (Hws wm (logf InfoLevel "Stopping Lightning Rod..." w)).
      destruct (webservice.Stop wenv wm _) as [[we wm'] w1].
      cbn [fst snd] in Hws.
      destruct (lightningrod.service lr) as [sm|].
      * match goal with
        | |- context [service.Stop senv sm ?w0] =>
            specialize (Hss sm w0);
            destruct (service.Stop senv sm w0) as [[se sm'] w2]
        end. cbn [fst snd] in Hss.
        unfold wamp.Stop.
        match goal with
        | |- context [wamp.Disconnect renv ?c0 ?w0] =>
            destruct (wamp.Disconnect renv c0 w0) as [[de c1] w3] eqn:Hd
        end.
        apply Disconnect_cases in Hd. destruct Hd as (_ & Hc1 & _).
        split; [discriminate|]. split.
        -- intros _. cbn. repeat split; try assumption;
             intros m [= <-]; assumption.
        -- unfold lightningrod.Stop. reflexivity.
      * unfold wamp.Stop.
        match goal with
        | |- context [wamp.Disconnect renv ?c0 ?w0] =>
            destruct (wamp.Disconnect renv c0 w0) as [[de c1] w3] eqn:Hd
        end.
        apply Disconnect_cases in Hd. destruct Hd as (_ & Hc1 & _).
        split; [discriminate|]. split.
        -- intros _. cbn. repeat split; try assumption;
             try discriminate; intros m [= <-]; assumption.
        -- unfold lightningrod.Stop. reflexivity.
    + destruct (lightningrod.service lr) as [sm|].
      * match goal with
        | |- context [service.Stop senv sm ?w0] =>
            specialize (Hss sm w0);
            destruct (service.Stop senv sm w0) as [[se sm'] w2]
        end. cbn [fst snd] in Hss.
        unfold wamp.Stop.
        match goal with
        | |- context [wamp.Disconnect renv ?c0 ?w0] =>
            destruct (wamp.Disconnect renv c0 w0) as [[de c1] w3] eqn:Hd
        end.
        apply Disconnect_cases in Hd. destruct Hd as (_ & Hc1 & _).
        split; [discriminate|]. split.
        -- intros _. cbn. repeat split; try assumption;
             try discriminate; intros m [= <-]; assumption.
        -- unfold lightningrod.Stop. reflexivity.
      * unfold wamp.Stop.
        match goal with
        | |- context [wamp.Disconnect renv ?c0 ?w0] =>
            destruct (wamp.Disconnect renv c0 w0) as [[de c1] w3] eqn:Hd
        end.
        apply Disconnect_cases in Hd. destruct Hd as (_ & Hc1 & _).
        split; [discriminate|]. split.
        -- intros _. cbn. repeat split; try assumption; discriminate.
        -- unfold lightningrod.Stop. reflexivity.
  - split; [auto|]. split; [discriminate|].
    unfold lightningrod.Stop. rewrite Hrun. reflexivity.
Qed.

(** ** The list handlers and the best-effort removal *)

(** X27. The two list handlers are snapshots: they reply SUCCESS with one
    record per entry of the registry, every record being the name, ports
    (and public URL) and status of a registered entry, and every
    registered entry having its record; they write no file. *)
Theorem list_handlers_report_the_registry
    (sm : service.Manager) (wm : webservice.Manager) (w : World) :
  (let '(r, w') := service.handleServicesList sm w in
   files w' = files w /\
   exists l,
     Args r = [AMap [("result", AString "SUCCESS");
                     ("message", AString "Services list retrieved");
                     ("services", AList l)]] /\
     length l = size (service.services sm) /\
     (forall n svc, service.services sm !! n = Some svc ->
        service_record svc ∈ l) /\
     (forall x, x ∈ l -> exists n svc,
        service.services sm !! n = Some svc /\ x = service_record svc)) /\
  (let '(r, w') := webservice.handleWebServicesList wm w in
   files w' = files w /\
   exists l,
     Args r = [AMap [("result", AString "SUCCESS");
                     ("message", AString "Webservices list retrieved");
                     ("webservices", AList l)]] /\
     length l = size (webservice.webservices wm) /\
     (forall n ws, webservice.webservices wm !! n = Some ws ->
        webservice_record ws ∈ l) /\
     (forall x, x ∈ l -> exists n ws,
        webservice.webservices wm !! n = Some ws /\ x = webservice_record ws)).
Proof.
  split.
  - unfold service.handleServicesList. split; [reflexivity|].
    eexists. split; [reflexivity|]. split; [|split].
    + rewrite length_map. apply length_map_to_list.
    + intros n svc Hn. apply list_elem_of_fmap. exists (n, svc).
      split; [reflexivity|]. apply elem_of_map_to_list. exact Hn.
    + intros x Hx. apply list_elem_of_fmap in Hx.
      destruct Hx as ([n svc] & -> & Hin).
      apply elem_of_map_to_list in Hin. eauto.
  - unfold webservice.handleWebServicesList. split; [reflexivity|].
    eexists. split; [reflexivity|]. split; [|split].
    + rewrite length_map. apply length_map_to_list.
    + intros n ws Hn. apply list_elem_of_fmap. exists (n, ws).
      split; [reflexivity|]. apply elem_of_map_to_list. exact Hn.
    + intros x Hx. apply list_elem_of_fmap in Hx.
      destruct Hx as ([n ws] & -> & Hin).
      apply elem_of_map_to_list in Hin. eauto.
Qed.

(** X28. [UnexposeService] of a registered name is best effort: it
    returns no error and removes exactly that entry whatever the kill and
    the write of services.json answer, and the only process it can kill is
    the one recorded for the name, which it does when the recorded process
    id is positive and the process is found; an entry with a process id
    that is not positive is removed without any kill. *)
Theorem unexposeService_best_effort
    (n : string) (env : service.Env) (m : service.Manager) (w : World)
    (svc : ServiceInfo) :
  service.services m !! n = Some svc ->
  let '(r, m', w') := service.unexposeService n env m w in
  r = None /\
  service.services m' = delete n (service.services m) /\
  (forall pid, Kill pid ∈ trace w' <->
     Kill pid ∈ trace w \/
     pid = PID svc /\ 0 < pid /\ service.find_process_err env = None).
Proof.
  intros Hn. unfold service.unexposeService.
  destruct (service.stopService n env m w) as [[r m'] w'] eqn:H.
  apply stopService_cases in H.
  destruct H as [(Hx & _) | (svc' & Hs & -> & -> & _ & _ & Hk)];
    [congruence|].
  assert (svc' = svc) as -> by congruence.
  split; [reflexivity|]. split; [reflexivity|]. exact Hk.
Qed.

Lemma unexposeService_best_effort_witness :
  service.services service_web !! "web"
  = Some {| Name := "web"; LocalPort := 8080;
            PublicURL := "ws://10.0.0.1:8080/web"; PID := 4242;
            Status := "running" |} /\
  let '(r, m', w') :=
    service.unexposeService "web" (service_env_disk_full 1) service_web
      world0 in
  r = None /\
  service.services m' = delete "web" (service.services service_web) /\
  (forall pid, Kill pid ∈ trace w' <->
     Kill pid ∈ trace world0 \/
     pid = 4242 /\ 0 < pid /\
     service.find_process_err (service_env_disk_full 1) = None).
Proof.
  split; [reflexivity|].
  exact (unexposeService_best_effort "web" (service_env_disk_full 1)
           service_web world0 _ eq_refl).
Defined.
